(** * Lumivahti: the snow-data resolution pipeline of [server/routes.ts]

    A shallow embedding of the snow-data route and of the functions it
    calls ([getPostalCodeInfo], [getSnowDepthWithStationInfo],
    [getSnowForecastWithThawWarning] and their helpers), of the
    notification route, and of the notification effect of the client's
    home page, followed by the properties the design document states
    about them and by further properties of the code.

    Conventions of the embedding:
    - a JavaScript number is a [number]: an exact rational, one of the two
      infinities, or NaN.  Binary64 rounding error and the sign of zero
      are not represented;
    - functions of the JavaScript runtime (trigonometry, regular
      expression matching, [parseFloat], [parseInt], the calendar of
      [Date]) are fields of a [Runtime] record: every theorem holds for
      every runtime;
    - [async] code is a computation over an explicit state (the process
      wide geocode cache and the outside world), which either returns a
      value or throws. *)

From stdpp Require Import gmap strings.
From Stdlib Require Import Ascii QArith Qround Lqa Lia.

Close Scope Q_scope.
Local Open Scope string_scope.

(** ** JavaScript numbers *)

Inductive number : Type :=
  | Num (q : Q)
  | Infinity
  | NegInfinity
  | NaN.

Declare Scope num_scope.
Delimit Scope num_scope with num.
Bind Scope num_scope with number.

Module JS.

Definition isNaN (x : number) : bool :=
  match x with NaN => true | _ => false end.

(** Sign of a number that is not NaN, as a comparison with zero. *)
Definition sign (x : number) : comparison :=
  match x with
  | Num q => (q ?= 0)%Q
  | Infinity => Gt
  | NegInfinity => Lt
  | NaN => Eq
  end.

Definition sign_mul (a b : comparison) : comparison :=
  match a, b with
  | Eq, _ | _, Eq => Eq
  | Gt, Gt | Lt, Lt => Gt
  | _, _ => Lt
  end.

(** The infinity of a given sign; [0 * Infinity] and [0 / 0] are NaN. *)
Definition inf_of (c : comparison) : number :=
  match c with Gt => Infinity | Lt => NegInfinity | Eq => NaN end.

Definition neg (x : number) : number :=
  match x with
  | Num q => Num (- q)%Q
  | Infinity => NegInfinity
  | NegInfinity => Infinity
  | NaN => NaN
  end.

Definition add (x y : number) : number :=
  match x, y with
  | NaN, _ | _, NaN => NaN
  | Num a, Num b => Num (a + b)%Q
  | Infinity, NegInfinity | NegInfinity, Infinity => NaN
  | Infinity, _ | _, Infinity => Infinity
  | NegInfinity, _ | _, NegInfinity => NegInfinity
  end.

Definition sub (x y : number) : number := add x (neg y).

Definition mul (x y : number) : number :=
  match x, y with
  | NaN, _ | _, NaN => NaN
  | Num a, Num b => Num (a * b)%Q
  | _, _ => inf_of (sign_mul (sign x) (sign y))
  end.

(** A [number] has one zero, without sign: a quotient by zero takes its
    sign from the numerator, as a quotient by [+0] does.  The one divisor
    that a request can make [-0] is the threshold, when the [threshold]
    parameter reads as [-0]; the quotient of the code then has the other
    sign.  The properties below that compute a quotient by the threshold
    take a threshold that is not zero. *)
Definition div (x y : number) : number :=
  match x, y with
  | NaN, _ | _, NaN => NaN
  | Num a, Num b =>
      if Qeq_bool b 0 then inf_of (a ?= 0)%Q else Num (a / b)%Q
  | Num _, _ => Num 0
  | _, Num b =>
      inf_of (sign_mul (sign x) (if Qeq_bool b 0 then Gt else (b ?= 0)%Q))
  | _, _ => NaN
  end.

(** Comparisons: every comparison with NaN is false. *)
Definition lt (x y : number) : bool :=
  match x, y with
  | NaN, _ | _, NaN => false
  | Num a, Num b => negb (Qle_bool b a)
  | _, NegInfinity => false
  | NegInfinity, _ => true
  | Infinity, _ => false
  | _, Infinity => true
  end.

Definition le (x y : number) : bool :=
  match x, y with
  | NaN, _ | _, NaN => false
  | Num a, Num b => Qle_bool a b
  | NegInfinity, _ => true
  | _, Infinity => true
  | _, _ => false
  end.

Definition gt (x y : number) : bool := lt y x.
Definition ge (x y : number) : bool := le y x.

(** [x === y] on numbers. *)
Definition eqb (x y : number) : bool := le x y && le y x.

Definition of_Z (z : Z) : number := Num (inject_Z z).

(** [Math.round]: the nearest integer, halves towards plus infinity. *)
Definition Math_round (x : number) : number :=
  match x with
  | Num q => Num (inject_Z (Qfloor (q + 0.5)%Q))
  | _ => x
  end.

Definition Math_floor (x : number) : number :=
  match x with
  | Num q => Num (inject_Z (Qfloor q))
  | _ => x
  end.

Definition Math_ceil (x : number) : number :=
  match x with
  | Num q => Num (inject_Z (Qceiling q))
  | _ => x
  end.

(** [Math.max(a, b)] and [Math.min(a, b)]; NaN is contagious. *)
Definition Math_max2 (x y : number) : number :=
  if isNaN x || isNaN y then NaN else if lt x y then y else x.

Definition Math_min2 (x y : number) : number :=
  if isNaN x || isNaN y then NaN else if lt y x then y else x.

(** [Math.max(...xs)] and [Math.min(...xs)] with their values on no
    argument. *)
Definition Math_max (xs : list number) : number :=
  foldl Math_max2 NegInfinity xs.

Definition Math_min (xs : list number) : number :=
  foldl Math_min2 Infinity xs.

(** [xs.reduce((a, b) => a + b, 0)] *)
Definition sum (xs : list number) : number := foldl add (Num 0) xs.

(** Truthiness of a number: [0] and NaN are falsy. *)
Definition truthy (x : number) : bool :=
  match x with
  | Num q => negb (Qeq_bool q 0)
  | NaN => false
  | _ => true
  end.

End JS.

Notation "x + y" := (JS.add x y) : num_scope.
Notation "x - y" := (JS.sub x y) : num_scope.
Notation "x * y" := (JS.mul x y) : num_scope.
Notation "x / y" := (JS.div x y) : num_scope.
Notation "x <? y" := (JS.lt x y) : num_scope.
Notation "x <=? y" := (JS.le x y) : num_scope.
Notation "x >? y" := (JS.gt x y) : num_scope.
Notation "x >=? y" := (JS.ge x y) : num_scope.

(** Number literals of the source. *)
Coercion Num : Q >-> number.

(** Decimal literals of the source denote exact rationals. *)
Definition number_of_literal (n : Number.number) : option number :=
  match n with
  | Number.Decimal (Decimal.Decimal i f) =>
      Some (Num (Qmake (Z.of_int (Decimal.app_int i f))
                       (Z.to_pos (10 ^ Z.of_nat (Decimal.nb_digits f)))))
  | _ => None
  end.

Definition literal_of_number (x : number) : option Number.number := None.

Number Notation number number_of_literal literal_of_number : num_scope.

(** ** Outcomes of code that may throw *)

Inductive outcome (A : Type) : Type :=
  | Ok (a : A)
  | Throw.

Arguments Ok {A} a.
Arguments Throw {A}.

(** ** Data model *)

(** [new Date(...)] objects: [Some t] for the time value [t] in
    milliseconds, [None] for an Invalid Date. *)
Definition Date : Type := option Z.

Definition Date_getTime (d : Date) : number :=
  match d with Some t => JS.of_Z t | None => NaN end.

(** [a > b] on dates compares the time values. *)
Definition Date_gt (a b : Date) : bool :=
  (Date_getTime a >? Date_getTime b)%num.

Record PostalCodeInfo : Type := mkPostalCodeInfo {
  pc_lat : number;
  pc_lon : number;
  pc_city : string
}.

Record SnowDepthResult : Type := mkSnowDepthResult {
  depth : number;
  stationName : option string;
  stationDistance : option number;
  updatedAt : option Date
}.

Record ThawCondition : Type := mkThawCondition {
  thaw_date : string;
  thaw_maxTemp : number;
  thaw_totalPrecip : number
}.

Inductive PrecipType : Type := snow | rain | sleet | none.

(** [dayName] is [undefined] when [getDay()] is no index of [dayNames]. *)
Record ForecastDay : Type := mkForecastDay {
  fd_date : string;
  fd_dayName : option string;
  fd_dateLabel : string;
  fd_snowDepth : number;
  fd_minTemp : number;
  fd_maxTemp : number;
  fd_temperature : number;
  fd_precipAmount : number;
  fd_precipType : PrecipType;
  fd_precipLabel : string;
  fd_icon : string
}.

Record ForecastWithThawResult : Type := mkForecastWithThawResult {
  forecast : list ForecastDay;
  hasThawConditions : bool;
  thawConditions : list ThawCondition
}.

Inductive Status : Type := safe | moderate | critical.

Record StationInfo : Type := mkStationInfo {
  si_name : option string;
  si_distance : option number;
  si_updatedAgo : option string
}.

(** The JSON object of a successful answer of the snow-data route. *)
Record SnowData : Type := mkSnowData {
  sd_currentLoad : number;
  sd_snowDepth : number;
  sd_threshold : number;
  sd_status : Status;
  sd_statusText : string;
  sd_forecast : list ForecastDay;
  sd_city : string;
  sd_distanceFromKuopio : number;
  sd_isWithinServiceArea : bool;
  sd_heavyWetSnowWarning : bool;
  sd_thawConditions : list ThawCondition;
  sd_stationInfo : StationInfo
}.

Inductive HttpReply : Type :=
  | ReplyData (status : Z) (data : SnowData)
  | ReplyError (status : Z) (message : string) (error : option string).

(** ** The outside world *)

(** The requests the pipeline sends.  The URL text is not built; a
    request carries the values the source interpolates into it. *)
Inductive Request : Type :=
  | NominatimSearch (postalCode : string)
  | FmiSnowByStation (fmisid : string) (startTime endTime : number)
  | FmiSnowByBbox (west south east north : number) (startTime endTime : number)
  | FmiForecast (lat lon : number) (startTime endTime : number).

(** [result.display_name] of a geocoding candidate: missing or falsy, a
    string, or some other truthy value (on which [.split] is not a
    function). *)
Inductive DisplayName : Type :=
  | DisplayNameFalsy
  | DisplayNameString (s : string)
  | DisplayNameOther.

Record GeoCandidate : Type := mkGeoCandidate {
  cand_lat : string;
  cand_lon : string;
  cand_display_name : DisplayName
}.

(** The decoded JSON body as far as [geocodePostalCode] inspects it:
    [data && data.length > 0] fails, or [data[0]] is read; reading a
    property of [data[0]] throws when it is [null] or [undefined]. *)
Inductive GeoData : Type :=
  | GeoNoResults
  | GeoFirst (result : option GeoCandidate).

(** A response of [fetch]; [text] and [json] are [None] when reading or
    decoding the body rejects. *)
Record Response : Type := mkResponse {
  resp_ok : bool;
  resp_status : number;
  resp_text : option string;
  resp_json : option GeoData
}.

(** ** The JavaScript runtime *)

Class Runtime : Type := mkRuntime {
  (* Math *)
  Math_PI : number;
  Math_sin : number -> number;
  Math_cos : number -> number;
  Math_sqrt : number -> number;
  Math_atan2 : number -> number -> number;
  (* global functions and String.prototype *)
  parseFloat : string -> number;
  parseInt : string -> number;
  Number_toString : number -> string;
  (* [Object.keys] of an object whose own keys were created in the given
     order: a rearrangement of them *)
  Object_keys : list string -> list string;
  String_trim : string -> string;
  String_toLowerCase : string -> string;
  (* [s.split(/\s+/)] and [s.split(',')] *)
  split_whitespace : string -> list string;
  split_comma : string -> list string;
  (* the regular expressions of the parsers, by their first capture
     groups: all [omso:PointTimeSeriesObservation] elements, the first
     [gml:name], the first [gml:pos], all [wml2:MeasurementTVP] time and
     value pairs, the last path segment of [observedProperty] *)
  match_series : string -> list string;
  match_name : string -> option string;
  match_pos : string -> option string;
  match_measurements : string -> list (string * string);
  match_observedProperty : string -> option string;
  (* Date: a valid date is its time value in milliseconds.
     [Date_parse s] is [new Date(s)], [Date_isoDate t] is
     [toISOString().split('T')[0]], [Date_setHours0] is
     [setHours(0, 0, 0, 0)] and [Date_setDate t d] is [setDate(d)], all in
     the local time zone of the process *)
  Date_parse : string -> Date;
  Date_isoDate : Z -> string;
  Date_getMonth : Z -> Z;
  Date_getDate : Z -> Z;
  Date_getDay : Z -> Z;
  Date_setHours0 : Z -> Z;
  Date_setDate : Z -> Z -> Z;
  (* the network and the clock; [fetch] is [None] when it rejects *)
  World : Type;
  fetch : Request -> World -> option Response * World;
  clock : World -> Z
}.

(** [s.includes(pat)] and truthiness of a string or of an optional one. *)
Fixpoint String_includes (pat s : string) : bool :=
  String.prefix pat s ||
  match s with
  | EmptyString => false
  | String _ s' => String_includes pat s'
  end.

Definition String_truthy (s : string) : bool :=
  negb (String.eqb s "").

Definition truthy_name (o : option string) : bool :=
  match o with Some s => String_truthy s | None => false end.

(** [arr[i]] for an index that is a whole number. *)
Definition array_get {A : Type} (arr : list A) (i : Z) : option A :=
  if (i <? 0)%Z then None else arr !! Z.to_nat i.

Section Pipeline.

Context {rt : Runtime}.

(** *** Computations: state, exceptions, [try]/[catch] *)

Record State : Type := mkState {
  geocodeCache : gmap string (option PostalCodeInfo);
  world : World
}.

Definition M (A : Type) : Type := State -> outcome A * State.

Definition ret {A : Type} (a : A) : M A := fun s => (Ok a, s).

Definition throw {A : Type} : M A := fun s => (Throw, s).

Definition bind {A B : Type} (m : M A) (k : A -> M B) : M B :=
  fun s =>
    match m s with
    | (Ok a, s') => k a s'
    | (Throw, s') => (Throw, s')
    end.

Definition try_catch {A : Type} (body handler : M A) : M A :=
  fun s =>
    match body s with
    | (Ok a, s') => (Ok a, s')
    | (Throw, s') => handler s'
    end.

(** [await] of a value that is missing when the promise rejects, and
    the lifting of pure code that may throw. *)
Definition await {A : Type} (o : option A) : M A :=
  match o with Some a => ret a | None => throw end.

Definition lift {A : Type} (o : outcome A) : M A := fun s => (o, s).

(** Reading a property of a value that may be [null] or [undefined]
    throws a TypeError when it is. *)
Definition property_of {A : Type} (o : option A) : M A :=
  match o with Some a => ret a | None => throw end.

Definition await_fetch (req : Request) : M Response :=
  fun s =>
    match fetch req (world s) with
    | (Some r, w) => (Ok r, mkState (geocodeCache s) w)
    | (None, w) => (Throw, mkState (geocodeCache s) w)
    end.

(** [new Date()] *)
Definition new_Date : M Z := fun s => (Ok (clock (world s)), s).

Definition cache_get (postalCode : string) : M (option (option PostalCodeInfo)) :=
  fun s => (Ok (geocodeCache s !! postalCode), s).

Definition cache_set (postalCode : string) (v : option PostalCodeInfo) : M unit :=
  fun s => (Ok tt, mkState (<[postalCode := v]> (geocodeCache s)) (world s)).

End Pipeline.

Notation "x <- m ;; k" := (bind m (fun x => k))
  (at level 100, m at next level, right associativity, only parsing).
Notation "m ;;; k" := (bind m (fun _ => k))
  (at level 100, right associativity, only parsing).

Section Resolution.

Context {rt : Runtime}.

(** *** Distance utility *)

Definition KUOPIO_CENTER : number * number := (62.8933, 27.6783)%num.

Definition calculateDistance (lat1 lon1 lat2 lon2 : number) : number :=
  (let R := 6371 in
   let dLat := (lat2 - lat1) * Math_PI / 180 in
   let dLon := (lon2 - lon1) * Math_PI / 180 in
   let a :=
     Math_sin (dLat / 2) * Math_sin (dLat / 2) +
     Math_cos (lat1 * Math_PI / 180) * Math_cos (lat2 * Math_PI / 180) *
     Math_sin (dLon / 2) * Math_sin (dLon / 2) in
   let c := 2 * Math_atan2 (Math_sqrt a) (Math_sqrt (1 - a)) in
   R * c)%num.

(** *** Geo resolver *)

Definition cityOfDisplayName (display_name : DisplayName) : outcome string :=
  match display_name with
  | DisplayNameFalsy => Ok "Tuntematon"
  | DisplayNameString s =>
      let parts := map String_trim (split_comma s) in
      match parts !! 1%nat with
      | Some part => Ok part
      | None => Ok "Tuntematon"
      end
  | DisplayNameOther => Throw
  end.

Definition geocodePostalCode (postalCode : string) : M (option PostalCodeInfo) :=
  cached <- cache_get postalCode ;;
  match cached with
  | Some info => ret info
  | None =>
      try_catch
        (response <- await_fetch (NominatimSearch postalCode) ;;
         if negb (resp_ok response) then
           cache_set postalCode None ;;; ret None
         else
           data <- await (resp_json response) ;;
           match data with
           | GeoFirst first =>
               result <- property_of first ;;
               let lat := parseFloat (cand_lat result) in
               let lon := parseFloat (cand_lon result) in
               city <- lift (cityOfDisplayName (cand_display_name result)) ;;
               let info := mkPostalCodeInfo lat lon city in
               cache_set postalCode (Some info) ;;;
               ret (Some info)
           | GeoNoResults =>
               cache_set postalCode None ;;; ret None
           end)
        (cache_set postalCode None ;;; ret None)
  end.

End Resolution.

(** *** The static postal code table of [getPostalCodeInfo] *)

Definition postalCodeEntries : list (string * PostalCodeInfo) :=
  [
    ("70100", mkPostalCodeInfo 62.8933 27.6783 "Kuopio");
    ("70110", mkPostalCodeInfo 62.8950 27.6800 "Kuopio");
    ("70200", mkPostalCodeInfo 62.9000 27.6700 "Kuopio");
    ("70210", mkPostalCodeInfo 62.8800 27.6900 "Kuopio");
    ("70300", mkPostalCodeInfo 62.8700 27.6500 "Kuopio");
    ("70340", mkPostalCodeInfo 62.8600 27.6600 "Kuopio");
    ("70400", mkPostalCodeInfo 62.9100 27.7000 "Kuopio");
    ("70420", mkPostalCodeInfo 62.9200 27.7100 "Kuopio");
    ("70500", mkPostalCodeInfo 62.8500 27.6400 "Kuopio");
    ("70600", mkPostalCodeInfo 62.8400 27.6200 "Kuopio");
    ("70700", mkPostalCodeInfo 62.8300 27.6000 "Kuopio");
    ("70800", mkPostalCodeInfo 62.8200 27.5800 "Kuopio");
    ("70820", mkPostalCodeInfo 62.8150 27.5700 "Kuopio");
    ("70840", mkPostalCodeInfo 62.8100 27.5600 "Kuopio");
    ("70870", mkPostalCodeInfo 62.8050 27.5500 "Kuopio");
    ("70900", mkPostalCodeInfo 62.8000 27.5400 "Kuopio");
    ("71100", mkPostalCodeInfo 62.9500 27.7200 "Kuopio");
    ("71130", mkPostalCodeInfo 62.9600 27.7300 "Kuopio");
    ("71150", mkPostalCodeInfo 62.9700 27.7400 "Kuopio");
    ("71160", mkPostalCodeInfo 62.9800 27.7500 "Kuopio");
    ("71200", mkPostalCodeInfo 63.0000 27.7600 "Kuopio");
    ("71310", mkPostalCodeInfo 63.0200 27.7800 "Kuopio");
    ("71330", mkPostalCodeInfo 63.0300 27.7900 "Kuopio");
    ("71380", mkPostalCodeInfo 63.0400 27.8000 "Kuopio");
    ("71460", mkPostalCodeInfo 63.0600 27.8200 "Kuopio");
    ("71470", mkPostalCodeInfo 63.0700 27.8300 "Kuopio");
    ("71480", mkPostalCodeInfo 63.0800 27.8400 "Kuopio");
    ("71490", mkPostalCodeInfo 63.0900 27.8500 "Kuopio");
    ("71520", mkPostalCodeInfo 62.8600 27.4000 "Kuopio");
    ("71530", mkPostalCodeInfo 62.8500 27.3800 "Kuopio");
    ("71540", mkPostalCodeInfo 62.8400 27.3600 "Kuopio");
    ("71570", mkPostalCodeInfo 62.8200 27.3200 "Kuopio");
    ("71610", mkPostalCodeInfo 62.7800 27.2800 "Kuopio");
    ("71620", mkPostalCodeInfo 62.7600 27.2600 "Kuopio");
    ("71630", mkPostalCodeInfo 62.7400 27.2400 "Kuopio");
    ("71640", mkPostalCodeInfo 62.7200 27.2200 "Kuopio");
    ("71650", mkPostalCodeInfo 62.7000 27.2000 "Kuopio");
    ("71660", mkPostalCodeInfo 62.6800 27.1800 "Kuopio");
    ("71670", mkPostalCodeInfo 62.6600 27.1600 "Kuopio");
    ("71680", mkPostalCodeInfo 62.6400 27.1400 "Kuopio");
    ("71690", mkPostalCodeInfo 62.6200 27.1200 "Kuopio");
    ("71720", mkPostalCodeInfo 62.9200 27.3000 "Kuopio");
    ("71730", mkPostalCodeInfo 62.9400 27.2800 "Kuopio");
    ("71740", mkPostalCodeInfo 62.9600 27.2600 "Kuopio");
    ("71745", mkPostalCodeInfo 62.9700 27.2500 "Kuopio");
    ("71750", mkPostalCodeInfo 62.9800 27.2400 "Kuopio");
    ("71760", mkPostalCodeInfo 62.9900 27.2300 "Kuopio");
    ("71770", mkPostalCodeInfo 63.0000 27.2200 "Kuopio");
    ("71800", mkPostalCodeInfo 62.8700 28.0000 "Siilinjärvi");
    ("71820", mkPostalCodeInfo 62.8800 28.0100 "Siilinjärvi");
    ("71840", mkPostalCodeInfo 62.8900 28.0200 "Siilinjärvi");
    ("71850", mkPostalCodeInfo 62.9000 28.0300 "Siilinjärvi");
    ("71870", mkPostalCodeInfo 62.9200 28.0500 "Siilinjärvi");
    ("71910", mkPostalCodeInfo 63.0500 27.6500 "Siilinjärvi");
    ("71920", mkPostalCodeInfo 63.0700 27.6300 "Siilinjärvi");
    ("71940", mkPostalCodeInfo 63.1000 27.6000 "Siilinjärvi");
    ("71950", mkPostalCodeInfo 63.1200 27.5800 "Siilinjärvi");
    ("71960", mkPostalCodeInfo 63.1400 27.5600 "Siilinjärvi");
    ("72100", mkPostalCodeInfo 63.2042 27.7274 "Karttula");
    ("72210", mkPostalCodeInfo 63.2500 27.7000 "Tervo");
    ("72300", mkPostalCodeInfo 63.1000 27.4500 "Vesanto");
    ("72400", mkPostalCodeInfo 63.0500 27.3500 "Pielavesi");
    ("72530", mkPostalCodeInfo 63.2000 26.7500 "Pielavesi");
    ("72600", mkPostalCodeInfo 63.2500 26.5000 "Keitele");
    ("73100", mkPostalCodeInfo 63.5500 27.1000 "Lapinlahti");
    ("73200", mkPostalCodeInfo 63.4000 27.4000 "Varpaisjärvi");
    ("73300", mkPostalCodeInfo 63.3000 27.8000 "Nilsiä");
    ("73310", mkPostalCodeInfo 63.3200 27.8200 "Nilsiä");
    ("73320", mkPostalCodeInfo 63.3400 27.8400 "Nilsiä");
    ("73350", mkPostalCodeInfo 63.3800 27.8800 "Tahkovuori");
    ("73360", mkPostalCodeInfo 63.4000 27.9000 "Tahkovuori");
    ("73900", mkPostalCodeInfo 63.0800 28.3000 "Rautavaara");
    ("74100", mkPostalCodeInfo 63.6500 27.8000 "Iisalmi");
    ("74120", mkPostalCodeInfo 63.5600 27.1900 "Iisalmi");
    ("74130", mkPostalCodeInfo 63.5700 27.2000 "Iisalmi");
    ("74140", mkPostalCodeInfo 63.5800 27.2100 "Iisalmi");
    ("74150", mkPostalCodeInfo 63.5900 27.2200 "Iisalmi");
    ("74160", mkPostalCodeInfo 63.6000 27.2300 "Iisalmi");
    ("74170", mkPostalCodeInfo 63.6100 27.2400 "Iisalmi");
    ("77600", mkPostalCodeInfo 62.4800 27.2400 "Suonenjoki");
    ("77610", mkPostalCodeInfo 62.4900 27.2500 "Suonenjoki");
    ("77630", mkPostalCodeInfo 62.5100 27.2700 "Suonenjoki");
    ("77700", mkPostalCodeInfo 62.6000 27.4000 "Rautalampi");
    ("77800", mkPostalCodeInfo 62.7000 27.2000 "Leppävirta");
    ("78200", mkPostalCodeInfo 62.5200 27.7500 "Varkaus");
    ("78210", mkPostalCodeInfo 62.3200 27.8900 "Varkaus");
    ("78250", mkPostalCodeInfo 62.3300 27.9000 "Varkaus");
    ("78300", mkPostalCodeInfo 62.3400 27.9100 "Varkaus");
    ("78310", mkPostalCodeInfo 62.3500 27.9200 "Varkaus");
    ("78500", mkPostalCodeInfo 62.4500 28.0000 "Joroinen");
    ("78850", mkPostalCodeInfo 62.4800 28.2000 "Leppävirta");
    ("79100", mkPostalCodeInfo 62.4874 27.7875 "Leppävirta");
    ("76100", mkPostalCodeInfo 62.3028 27.1304 "Pieksämäki");
    ("00100", mkPostalCodeInfo 60.1699 24.9384 "Helsinki");
    ("00120", mkPostalCodeInfo 60.1675 24.9427 "Helsinki");
    ("00130", mkPostalCodeInfo 60.1658 24.9553 "Helsinki");
    ("00140", mkPostalCodeInfo 60.1628 24.9689 "Helsinki");
    ("00150", mkPostalCodeInfo 60.1602 24.9452 "Helsinki");
    ("00160", mkPostalCodeInfo 60.1630 24.9250 "Helsinki");
    ("00170", mkPostalCodeInfo 60.1710 24.9550 "Helsinki");
    ("00180", mkPostalCodeInfo 60.1630 24.9500 "Helsinki");
    ("00200", mkPostalCodeInfo 60.1590 24.9514 "Helsinki");
    ("00250", mkPostalCodeInfo 60.1720 24.9050 "Helsinki");
    ("00300", mkPostalCodeInfo 60.1800 24.9100 "Helsinki");
    ("00400", mkPostalCodeInfo 60.2000 24.9100 "Helsinki");
    ("00500", mkPostalCodeInfo 60.1872 24.9214 "Helsinki");
    ("00510", mkPostalCodeInfo 60.1880 24.9650 "Helsinki");
    ("00520", mkPostalCodeInfo 60.1950 24.9500 "Helsinki");
    ("00530", mkPostalCodeInfo 60.1920 24.9650 "Helsinki");
    ("00550", mkPostalCodeInfo 60.1890 24.9750 "Helsinki");
    ("00560", mkPostalCodeInfo 60.2050 24.9600 "Helsinki");
    ("00600", mkPostalCodeInfo 60.2100 24.9200 "Helsinki");
    ("00700", mkPostalCodeInfo 60.2250 24.9300 "Helsinki");
    ("00800", mkPostalCodeInfo 60.2350 24.9400 "Helsinki");
    ("00900", mkPostalCodeInfo 60.2450 24.9500 "Helsinki");
    ("00920", mkPostalCodeInfo 60.2350 24.9050 "Helsinki");
    ("00940", mkPostalCodeInfo 60.2200 24.8800 "Helsinki");
    ("00980", mkPostalCodeInfo 60.2500 25.0000 "Helsinki");
    ("01000", mkPostalCodeInfo 60.2934 25.0378 "Vantaa");
    ("02100", mkPostalCodeInfo 60.1756 24.8058 "Espoo");
    ("02200", mkPostalCodeInfo 60.1850 24.8100 "Espoo");
    ("02600", mkPostalCodeInfo 60.2100 24.7500 "Espoo");
    ("33100", mkPostalCodeInfo 61.4978 23.7610 "Tampere");
    ("33200", mkPostalCodeInfo 61.5100 23.7700 "Tampere");
    ("33500", mkPostalCodeInfo 61.4850 23.8000 "Tampere");
    ("40100", mkPostalCodeInfo 62.2426 25.7473 "Jyväskylä");
    ("40200", mkPostalCodeInfo 62.2300 25.7600 "Jyväskylä");
    ("50100", mkPostalCodeInfo 61.6885 27.2723 "Mikkeli");
    ("53100", mkPostalCodeInfo 61.0587 28.1887 "Lappeenranta");
    ("65100", mkPostalCodeInfo 63.0951 21.6165 "Vaasa");
    ("80100", mkPostalCodeInfo 62.6024 29.7636 "Joensuu");
    ("90100", mkPostalCodeInfo 65.0121 25.4651 "Oulu");
    ("90200", mkPostalCodeInfo 65.0200 25.4500 "Oulu");
    ("90500", mkPostalCodeInfo 65.0000 25.5000 "Oulu");
    ("96100", mkPostalCodeInfo 66.5028 25.7285 "Rovaniemi");
    ("96200", mkPostalCodeInfo 66.5100 25.7000 "Rovaniemi");
    ("99100", mkPostalCodeInfo 69.0756 20.8150 "Kilpisjärvi");
    ("99130", mkPostalCodeInfo 69.0450 20.7890 "Kilpisjärvi");
    ("99300", mkPostalCodeInfo 68.4199 22.4898 "Muonio");
    ("99400", mkPostalCodeInfo 68.0580 23.5430 "Enontekiö");
    ("99490", mkPostalCodeInfo 69.0450 20.7890 "Kilpisjärvi");
    ("99600", mkPostalCodeInfo 67.4458 26.5746 "Sodankylä");
    ("99800", mkPostalCodeInfo 68.6588 27.5348 "Ivalo");
    ("99870", mkPostalCodeInfo 69.0700 27.0300 "Inari");
    ("99980", mkPostalCodeInfo 70.0922 27.9072 "Utsjoki");
    ("97500", mkPostalCodeInfo 67.8062 24.1508 "Muonio");
    ("97600", mkPostalCodeInfo 67.7500 24.1500 "Kittilä");
    ("97700", mkPostalCodeInfo 67.6600 23.6500 "Kittilä");
    ("98100", mkPostalCodeInfo 67.4100 26.5900 "Sodankylä");
    ("98530", mkPostalCodeInfo 67.7390 27.5285 "Sodankylä")
  ].

Definition postalCodeMap : gmap string PostalCodeInfo :=
  list_to_map postalCodeEntries.

(** Known FMI stations of the two areas with an override list. *)
Record Station : Type := mkStation {
  fmisid : string;
  st_name : string;
  st_lat : number;
  st_lon : number
}.

Definition KILPISJARVI_STATIONS : list Station :=
  [ mkStation "102016" "Kilpisjärvi kyläkeskus" 69.0458 20.7877;
    mkStation "102017" "Kilpisjärvi Saana" 69.0422 20.8508 ].

Definition INARI_IVALO_STATIONS : list Station :=
  [ mkStation "101784" "Ivalo lentoasema" 68.6073 27.4053;
    mkStation "101885" "Inari Saariselkä matkailukeskus" 68.4151 27.4132;
    mkStation "102003" "Inari Raja-Jooseppi" 68.4778 28.3000 ].

Section Locator.

Context {rt : Runtime}.

(** A postal code is looked up in the table by its own text: postal
    codes are strings of five characters, and no property that every
    JavaScript object inherits has such a name. *)
Definition getPostalCodeInfo (postalCode : string) : M (option PostalCodeInfo) :=
  match postalCodeMap !! postalCode with
  | Some info => ret (Some info)
  | None => geocodePostalCode postalCode
  end.

(** *** Seasonal depth estimate *)

Definition mockIsWinter (month : Z) : bool :=
  (10 <=? month)%Z || (month <=? 2)%Z.

Definition mockIsLateWinter (month : Z) : bool :=
  (month =? 2)%Z || (month =? 3)%Z.

Definition mockBaseDepth (lat : number) (month : Z) : number :=
  let isWinter := mockIsWinter month in
  let isLateWinter := mockIsLateWinter month in
  (if lat >? 68 then
     if isWinter then 25 else if isLateWinter then 15 else 5
   else if lat >? 66 then
     if isWinter then 15 else if isLateWinter then 8 else 2
   else if lat >? 64 then
     if isWinter then 10 else if isLateWinter then 5 else 0
   else if lat >? 62 then
     if isWinter then 8 else if isLateWinter then 3 else 0
   else
     if isWinter then 3 else 0)%num.

Definition getMockSnowDepthResult (lat : number) : M SnowDepthResult :=
  now <- new_Date ;;
  let month := Date_getMonth now in
  ret (mkSnowDepthResult (mockBaseDepth lat month) None None None).

(** *** Observation parser *)

(** [parseFloat(coords[i])]; a missing element reads as [undefined]. *)
Definition parseFloat_at (coords : list string) (i : nat) : number :=
  match coords !! i with
  | Some s => parseFloat s
  | None => NaN
  end.

(** One turn of the measurement loop shared by [fetchSnowFromStation]
    and [parseTimeValuePairSnowResponse]; the accumulator is
    [(latestTime, latestValue)]. *)
Definition measurementStep (acc : option Date * option number)
    (m : string * string) : option Date * option number :=
  let '(latestTime, latestValue) := acc in
  let '(timeStr, valueStr) := m in
  let value := parseFloat valueStr in
  if (negb (JS.isNaN value) && (value >=? 0) && (value <? 500))%num then
    let time := Date_parse timeStr in
    if match latestTime with
       | None => true
       | Some latest => Date_gt time latest
       end
    then (Some time, Some value)
    else acc
  else acc.

Definition latestMeasurement (content : string) : option Date * option number :=
  foldl measurementStep (None, None) (match_measurements content).

(** One turn of the series loop of [parseTimeValuePairSnowResponse]; the
    accumulator is [(bestResult, bestDistance)]. *)
Definition seriesStep (userLat userLon maxDistance : number)
    (acc : option SnowDepthResult * number) (seriesContent : string)
    : option SnowDepthResult * number :=
  let '(bestResult, bestDistance) := acc in
  let stationName :=
    match match_name seriesContent with
    | Some name => String_trim name
    | None => "Tuntematon asema"
    end in
  match match_pos seriesContent with
  | None => acc
  | Some pos =>
      let coords := split_whitespace (String_trim pos) in
      let stationLat := parseFloat_at coords 0 in
      let stationLon := parseFloat_at coords 1 in
      let distance := calculateDistance userLat userLon stationLat stationLon in
      if (distance >? maxDistance)%num then acc
      else
        match latestMeasurement seriesContent with
        | (Some latestTime, Some latestValue) =>
            if (distance <? bestDistance)%num then
              (Some (mkSnowDepthResult (JS.Math_round latestValue)
                       (Some stationName)
                       (Some (JS.Math_round distance))
                       (Some latestTime)),
               distance)
            else acc
        | _ => acc
        end
  end.

Definition bestStation (xmlText : string) (userLat userLon maxDistance : number)
    : option SnowDepthResult :=
  fst (foldl (seriesStep userLat userLon maxDistance) (None, Infinity)
         (match_series xmlText)).

Definition parseTimeValuePairSnowResponse (xmlText : string)
    (userLat userLon maxDistance : number) : M SnowDepthResult :=
  match bestStation xmlText userLat userLon maxDistance with
  | Some bestResult => ret bestResult
  | None => getMockSnowDepthResult userLat
  end.

(** *** Station locator *)

(** [x || 0] for an optional coordinate. *)
Definition orZero (x : option number) : number :=
  match x with
  | Some v => if JS.truthy v then v else 0%num
  | None => 0%num
  end.

Definition falsy_coord (x : option number) : bool :=
  match x with
  | Some v => negb (JS.truthy v)
  | None => true
  end.

Definition fetchSnowFromStation (fmisid stationName : string)
    (userLat userLon : number) (startTime endTime : number)
    (stationLat stationLon : option number) : M (option SnowDepthResult) :=
  try_catch
    (response <- await_fetch (FmiSnowByStation fmisid startTime endTime) ;;
     if negb (resp_ok response) then ret None
     else
       xmlText <- await (resp_text response) ;;
       let '(finalStationLat, finalStationLon) :=
         if falsy_coord stationLat || falsy_coord stationLon then
           match match_pos xmlText with
           | Some pos =>
               let coords := split_whitespace (String_trim pos) in
               (parseFloat_at coords 0, parseFloat_at coords 1)
           | None => (orZero stationLat, orZero stationLon)
           end
         else (orZero stationLat, orZero stationLon) in
       match latestMeasurement xmlText with
       | (Some latestTime, Some latestValue) =>
           let distance :=
             calculateDistance userLat userLon finalStationLat finalStationLon in
           ret (Some (mkSnowDepthResult (JS.Math_round latestValue)
                        (Some stationName)
                        (Some (JS.Math_round distance))
                        (Some latestTime)))
       | _ => ret None
       end)
    (ret None).

Definition searchStationsInRadius (lat lon radiusKm : number)
    (startTime endTime : number) : M (option SnowDepthResult) :=
  let latDelta := (radiusKm / 111)%num in
  let lonDelta := (radiusKm / (111 * Math_cos (lat * Math_PI / 180)))%num in
  let bbox :=
    FmiSnowByBbox (lon - lonDelta) (lat - latDelta)
                  (lon + lonDelta) (lat + latDelta) in
  try_catch
    (response <- await_fetch (bbox startTime endTime) ;;
     if negb (resp_ok response) then ret None
     else
       xmlText <- await (resp_text response) ;;
       result <- parseTimeValuePairSnowResponse xmlText lat lon radiusKm ;;
       if negb (truthy_name (stationName result)) then ret None
       else ret (Some result))
    (ret None).

(** The [for ... of] loop over an override list, leaving at the first
    station with an observation. *)
Fixpoint tryStations (stations : list Station) (lat lon : number)
    (startTime endTime : number) : M (option SnowDepthResult) :=
  match stations with
  | [] => ret None
  | station :: rest =>
      result <- fetchSnowFromStation (fmisid station) (st_name station)
                  lat lon startTime endTime
                  (Some (st_lat station)) (Some (st_lon station)) ;;
      match result with
      | Some r => ret (Some r)
      | None => tryStations rest lat lon startTime endTime
      end
  end.

(** The loop over [searchRadii]. *)
Fixpoint trySearchRadii (searchRadii : list number) (lat lon : number)
    (startTime endTime : number) : M (option SnowDepthResult) :=
  match searchRadii with
  | [] => ret None
  | radiusKm :: rest =>
      result <- searchStationsInRadius lat lon radiusKm startTime endTime ;;
      match result with
      | Some r =>
          if truthy_name (stationName r) then ret (Some r)
          else trySearchRadii rest lat lon startTime endTime
      | None => trySearchRadii rest lat lon startTime endTime
      end
  end.

Definition inKilpisjarviArea (lat lon : number) (postalCode : option string) : bool :=
  match postalCode with
  | Some pc => String.eqb pc "99130" || String.eqb pc "99100" || String.eqb pc "99490"
  | None => false
  end
  || ((lat >? 69.0) && (lon >? 20.5) && (lon <? 21.0))%num.

Definition inInariIvaloArea (lat lon : number) (postalCode : option string) : bool :=
  match postalCode with
  | Some pc => String.prefix "998" pc || String.prefix "997" pc
  | None => false
  end
  || ((lat >? 68.0) && (lat <? 69.5) && (lon >? 27.0) && (lon <? 29.0))%num.

(** The first of a sequence of optional attempts that yields a result. *)
Definition orElse {A : Type} (attempt : M (option A)) (next : M A) : M A :=
  r <- attempt ;;
  match r with
  | Some a => ret a
  | None => next
  end.

Definition getSnowDepthWithStationInfo (lat lon : number)
    (postalCode : option string) : M SnowDepthResult :=
  now <- new_Date ;;
  let startTime := JS.of_Z (now - 7 * 24 * 60 * 60 * 1000) in
  let endTime := JS.of_Z now in
  orElse
    (if inKilpisjarviArea lat lon postalCode
     then tryStations KILPISJARVI_STATIONS lat lon startTime endTime
     else ret None)
    (orElse
       (if inInariIvaloArea lat lon postalCode
        then tryStations INARI_IVALO_STATIONS lat lon startTime endTime
        else ret None)
       (orElse
          (trySearchRadii [25; 50]%num lat lon startTime endTime)
          (getMockSnowDepthResult lat))).

Definition getSnowDepth (lat lon : number) : M number :=
  result <- getSnowDepthWithStationInfo lat lon None ;;
  ret (depth result).

End Locator.

(** *** Snow load calculator and risk aggregator *)

Definition currentLoadOf (snowDepth : number) : number :=
  JS.Math_round (snowDepth * 2.5)%num.

Definition percentageOf (currentLoad userThreshold : number) : number :=
  (currentLoad / userThreshold * 100)%num.

Definition statusOf (percentage : number) : Status * string :=
  if (percentage >=? 100)%num then (critical, "Kriittinen")
  else if (percentage >=? 80)%num then (moderate, "Kohtalainen riski")
  else (safe, "Turvallinen").

Definition showHeavyWetSnowWarningOf (currentLoad userThreshold : number)
    (hasThaw : bool) : bool :=
  let loadPercentage := (currentLoad / userThreshold * 100)%num in
  (loadPercentage >=? 60)%num && hasThaw.

(** *** Forecast engine *)

Record DayData : Type := mkDayData {
  temps : list number;
  precip : list number;
  symbols : list number
}.

Definition determinePrecipType (avgTemp maxTemp minTemp precipAmount : number)
    : PrecipType :=
  (if precipAmount <=? 0 then none
   else if maxTemp <? -1 then snow
   else if minTemp >? 2 then rain
   else if (maxTemp >? 0) && (minTemp <? 0) then sleet
   else if avgTemp <=? 0 then snow
   else if avgTemp >=? 2 then rain
   else sleet)%num.

(** The condition under which a day is pushed to [thawConditions]. *)
Definition isThawCondition (maxTemp totalPrecip : number) : bool :=
  ((maxTemp >=? 1) && (totalPrecip >=? 5))%num.

Definition dayNames : list string := ["Su"; "Ma"; "Ti"; "Ke"; "To"; "Pe"; "La"].

(** The three turns [i = 1, 2, 3] of the [for] loops over forecast days. *)
Definition forecastIndices : list Z := [1; 2; 3]%Z.

Definition fold_outcome {A B : Type} (f : A -> B -> outcome A)
    (l : list B) (a : A) : outcome A :=
  foldl (fun acc b => match acc with Ok x => f x b | Throw => Throw end) (Ok a) l.

Section Forecast.

Context {rt : Runtime}.

(** [`${dayName} ${date.getDate()}.${date.getMonth() + 1}.`] *)
Definition dateLabelOf (dayName : option string) (date : Z) : string :=
  default "undefined" dayName ++ " " ++
  Number_toString (JS.of_Z (Date_getDate date)) ++ "." ++
  Number_toString (JS.of_Z (Date_getMonth date + 1)) ++ ".".

Definition typeLabels (type : PrecipType) : string :=
  match type with
  | snow => "lunta"
  | rain => "vettä"
  | sleet => "räntää"
  | none => ""
  end.

Definition formatPrecipLabel (amount : number) (type : PrecipType) : string :=
  if match type with none => true | _ => false end || (amount <? 0.1)%num
  then "0 mm"
  else if (amount <=? 1)%num then
    "0–" ++ Number_toString (JS.Math_max [1%num; JS.Math_ceil amount]) ++
    " mm " ++ typeLabels type
  else
    Number_toString (JS.Math_round amount) ++ " mm " ++ typeLabels type.

(** [counts[s] = (counts[s] || 0) + 1]; the keys of [counts] are kept in
    the order of their creation, a key being the number it was made of. *)
Fixpoint countSymbol (counts : list (number * number)) (s : number)
    : list (number * number) :=
  match counts with
  | [] => [(s, 1%num)]
  | (key, count) :: rest =>
      if JS.eqb key s then (key, (count + 1)%num) :: rest
      else (key, count) :: countSymbol rest s
  end.

(** [counts[symbol]], [undefined] when there is no such key. *)
Fixpoint countOf (counts : list (number * number)) (symbol : number)
    : option number :=
  match counts with
  | [] => None
  | (key, count) :: rest =>
      if JS.eqb key symbol then Some count else countOf rest symbol
  end.

Definition getMostCommonSymbol (symbols : list number) : number :=
  match symbols with
  | [] => 0%num
  | first :: _ =>
      let counts := foldl countSymbol [] symbols in
      let keys := Object_keys (map (fun kc => Number_toString (fst kc)) counts) in
      snd (foldl
             (fun (acc : number * number) symbolStr =>
                let '(maxCount, mostCommon) := acc in
                let symbol := parseInt symbolStr in
                match countOf counts symbol with
                | Some count =>
                    if (count >? maxCount)%num then (count, symbol) else acc
                | None => acc
                end)
             (0%num, first) keys)
  end.

Definition getWeatherIconFromSymbol (symbol temp precip : number) : string :=
  (if (symbol >=? 51) && (symbol <=? 54) then "snow"
   else if (symbol >=? 41) && (symbol <=? 45) then "snow"
   else if (symbol >=? 31) && (symbol <=? 34) then "rain"
   else if (symbol >=? 21) && (symbol <=? 25) then
     if temp <? 0 then "snow" else "rain"
   else if (symbol >=? 71) && (symbol <=? 74) then "rain"
   else if JS.eqb symbol 1 then "sunny"
   else if JS.eqb symbol 2 then "partly-cloudy"
   else if (precip >? 0) && (temp <? 0) then "snow"
   else if precip >? 0 then "rain"
   else "cloudy")%num.

(** [date.toISOString().split('T')[0]]; [toISOString] throws a RangeError
    on an Invalid Date. *)
Definition toISODate (d : Date) : outcome string :=
  match d with
  | Some t => Ok (Date_isoDate t)
  | None => Throw
  end.

Definition forecastMeasurementStep (paramName : string)
    (dailyData : gmap string DayData) (m : string * string)
    : outcome (gmap string DayData) :=
  let '(timeStr, valueStr) := m in
  let value := parseFloat valueStr in
  if JS.isNaN value then Ok dailyData
  else
    match toISODate (Date_parse timeStr) with
    | Throw => Throw
    | Ok dateKey =>
        let day := default (mkDayData [] [] []) (dailyData !! dateKey) in
        let day' :=
          if String_includes "temperature" paramName then
            mkDayData (temps day ++ [value])%list (precip day) (symbols day)
          else if String_includes "precipitation" paramName then
            mkDayData (temps day) (precip day ++ [value])%list (symbols day)
          else if String_includes "weathersymbol" paramName then
            mkDayData (temps day) (precip day) (symbols day ++ [value])%list
          else day in
        Ok (<[dateKey := day']> dailyData)
    end.

Definition forecastSeriesStep (dailyData : gmap string DayData)
    (seriesContent : string) : outcome (gmap string DayData) :=
  let paramName :=
    match match_observedProperty seriesContent with
    | Some param => String_toLowerCase param
    | None => ""
    end in
  fold_outcome (forecastMeasurementStep paramName)
    (match_measurements seriesContent) dailyData.

Definition parseTimeValuePairForecast (xmlText : string)
    : outcome (gmap string DayData) :=
  fold_outcome forecastSeriesStep (match_series xmlText) ∅.

Definition fallbackIsWinter (month : Z) : bool :=
  (10 <=? month)%Z || (month <=? 3)%Z.

Definition fallbackBaseSnow (lat : number) : number :=
  (if lat >? 64 then 45 else if lat >? 62 then 30 else 15)%num.

Definition fallbackBaseTemp (lat : number) : number :=
  (if lat >? 64 then -12 else if lat >? 62 then -8 else -4)%num.

Definition fallbackTemp (baseTemp : number) (i : Z) : number :=
  (baseTemp + JS.of_Z (Z.rem i 3 - 1) * 2)%num.

Definition fallbackDay (lat : number) (today : Z) (dayNames : list string)
    (i : Z) : ForecastDay :=
  let month := Date_getMonth today in
  let isWinter := fallbackIsWinter month in
  let baseSnow := fallbackBaseSnow lat in
  let baseTemp := fallbackBaseTemp lat in
  let date := Date_setDate today (Date_getDate today + i) in
  let dayName := array_get dayNames (Date_getDay date) in
  let temp := fallbackTemp baseTemp i in
  (mkForecastDay
     (Date_isoDate date)
     dayName
     (dateLabelOf dayName date)
     (if isWinter then baseSnow + JS.of_Z (i * 2)
      else JS.Math_max [0; baseSnow - JS.of_Z (i * 3)])
     (temp - 3)
     (temp + 2)
     temp
     (if isWinter then 1 else 0)
     (if isWinter then snow else none)
     (if isWinter then "0–1 mm lunta" else "0 mm")
     (if isWinter then "snow" else "cloudy"))%num.

Definition getFallbackForecast (lat : number) (today : Z)
    (dayNames : list string) : list ForecastDay :=
  foldl (fun days i => (days ++ [fallbackDay lat today dayNames i])%list)
    [] forecastIndices.

(** The state of the loop that builds the forecast. *)
Record ForecastLoop : Type := mkForecastLoop {
  loop_forecast : list ForecastDay;
  loop_accumulatedSnow : number;
  loop_thawConditions : list ThawCondition
}.

Definition forecastDayStep (lat : number) (today : Z)
    (dailyData : gmap string DayData) (st : ForecastLoop) (i : Z)
    : ForecastLoop :=
  let forecastDate := Date_setDate today (Date_getDate today + i) in
  let dateKey := Date_isoDate forecastDate in
  let dayName := array_get dayNames (Date_getDay forecastDate) in
  let dateLabel := dateLabelOf dayName forecastDate in
  let missing :=
    let defaultTemp := (if lat >? 64 then -8 else -3)%num in
    mkForecastLoop
      (loop_forecast st ++
       [mkForecastDay dateKey dayName dateLabel
          (JS.Math_round (loop_accumulatedSnow st))
          (defaultTemp - 3)%num (defaultTemp + 2)%num defaultTemp
          0%num none "0 mm" "cloudy"])%list
      (loop_accumulatedSnow st)
      (loop_thawConditions st) in
  match dailyData !! dateKey with
  | Some dayData =>
      if (0 <? length (temps dayData))%nat then
        let minTemp := JS.Math_round (JS.Math_min (temps dayData)) in
        let maxTemp := JS.Math_round (JS.Math_max (temps dayData)) in
        let avgTemp :=
          JS.Math_round
            (JS.sum (temps dayData) /
             JS.of_Z (Z.of_nat (length (temps dayData))))%num in
        let totalPrecip := JS.sum (precip dayData) in
        let roundedPrecip := (JS.Math_round (totalPrecip * 10) / 10)%num in
        let precipType := determinePrecipType avgTemp maxTemp minTemp totalPrecip in
        let precipLabel := formatPrecipLabel roundedPrecip precipType in
        let thaw :=
          if isThawCondition maxTemp totalPrecip then
            (loop_thawConditions st ++
             [mkThawCondition dateKey maxTemp roundedPrecip])%list
          else loop_thawConditions st in
        let accumulatedSnow :=
          (if (avgTemp <? 0) && (totalPrecip >? 0) then
             loop_accumulatedSnow st + totalPrecip
           else if avgTemp >? 2 then
             JS.Math_max [0; loop_accumulatedSnow st - (avgTemp - 2) * 2]
           else loop_accumulatedSnow st)%num in
        let mostCommonSymbol := getMostCommonSymbol (symbols dayData) in
        let icon := getWeatherIconFromSymbol mostCommonSymbol avgTemp totalPrecip in
        mkForecastLoop
          (loop_forecast st ++
           [mkForecastDay dateKey dayName dateLabel
              (JS.Math_round accumulatedSnow)
              minTemp maxTemp avgTemp roundedPrecip precipType precipLabel icon])%list
          accumulatedSnow
          thaw
      else missing
  | None => missing
  end.

Definition buildForecast (lat : number) (today : Z)
    (dailyData : gmap string DayData) (currentSnowDepth : number)
    : ForecastLoop :=
  foldl (forecastDayStep lat today dailyData)
    (mkForecastLoop [] currentSnowDepth []) forecastIndices.

Definition getSnowForecastWithThawWarning (lat lon threshold : number)
    : M ForecastWithThawResult :=
  today <- new_Date ;;
  let fallback : M ForecastWithThawResult :=
    ret (mkForecastWithThawResult
           (getFallbackForecast lat today dayNames) false []) in
  try_catch
    (let midnight := Date_setHours0 today in
     let startTime := Date_setDate midnight (Date_getDate midnight + 1) in
     let endTime := Date_setDate startTime (Date_getDate startTime + 3) in
     response <- await_fetch
                   (FmiForecast lat lon (JS.of_Z startTime) (JS.of_Z endTime)) ;;
     if negb (resp_ok response) then fallback
     else
       xmlText <- await (resp_text response) ;;
       dailyData <- lift (parseTimeValuePairForecast xmlText) ;;
       if (size dailyData =? 0)%nat then fallback
       else
         currentSnowDepth <- getSnowDepth lat lon ;;
         let final := buildForecast lat today dailyData currentSnowDepth in
         ret (mkForecastWithThawResult
                (loop_forecast final)
                (0 <? length (loop_thawConditions final))%nat
                (loop_thawConditions final)))
    fallback.

(** *** Result assembler: the snow-data route *)

Definition userThresholdOf (threshold : option string) : number :=
  match threshold with
  | Some t => if String_truthy t then parseInt t else 140%num
  | None => 140%num
  end.

Definition updatedAgoOf (now : Z) (updatedAt : Date) : string :=
  let diffMs := (JS.of_Z now - Date_getTime updatedAt)%num in
  let diffHours := JS.Math_floor (diffMs / JS.of_Z (1000 * 60 * 60))%num in
  let diffMinutes := JS.Math_floor (diffMs / JS.of_Z (1000 * 60))%num in
  if (diffHours >=? 24)%num then
    let diffDays := JS.Math_floor (diffHours / 24)%num in
    if JS.eqb diffDays 1%num then "1 päivä sitten"
    else Number_toString diffDays ++ " päivää sitten"
  else if (diffHours >=? 1)%num then
    if JS.eqb diffHours 1%num then "1 tunti sitten"
    else Number_toString diffHours ++ " tuntia sitten"
  else if (diffMinutes >=? 1)%num then
    if JS.eqb diffMinutes 1%num then "1 minuutti sitten"
    else Number_toString diffMinutes ++ " minuuttia sitten"
  else "juuri nyt".

Definition notFoundReply : HttpReply :=
  ReplyError 404
    "Postinumeroa ei löytynyt. Tarkista, että postinumero on oikein."
    (Some "postal_code_not_found").

Definition serverErrorReply : HttpReply :=
  ReplyError 500 "Tietojen haku epäonnistui" None.

Definition snowDataRoute (postalCode : string) (threshold : option string)
    : M HttpReply :=
  try_catch
    (postalInfo <- getPostalCodeInfo postalCode ;;
     match postalInfo with
     | None => ret notFoundReply
     | Some postalInfo =>
         let distanceFromKuopio :=
           calculateDistance (pc_lat postalInfo) (pc_lon postalInfo)
             (fst KUOPIO_CENTER) (snd KUOPIO_CENTER) in
         let isWithinServiceArea := (distanceFromKuopio <=? 80)%num in
         snowResult <- getSnowDepthWithStationInfo
                         (pc_lat postalInfo) (pc_lon postalInfo)
                         (Some postalCode) ;;
         let currentLoad := currentLoadOf (depth snowResult) in
         let userThreshold := userThresholdOf threshold in
         let percentage := percentageOf currentLoad userThreshold in
         let '(status, statusText) := statusOf percentage in
         forecastResult <- getSnowForecastWithThawWarning
                             (pc_lat postalInfo) (pc_lon postalInfo)
                             userThreshold ;;
         let showHeavyWetSnowWarning :=
           showHeavyWetSnowWarningOf currentLoad userThreshold
             (hasThawConditions forecastResult) in
         updatedAgo <-
           match updatedAt snowResult with
           | Some t => now <- new_Date ;; ret (Some (updatedAgoOf now t))
           | None => ret None
           end ;;
         ret (ReplyData 200
                (mkSnowData currentLoad (depth snowResult) userThreshold
                   status statusText
                   (forecast forecastResult)
                   (pc_city postalInfo)
                   (JS.Math_round distanceFromKuopio)
                   isWithinServiceArea
                   showHeavyWetSnowWarning
                   (thawConditions forecastResult)
                   (mkStationInfo (stationName snowResult)
                      (stationDistance snowResult) updatedAgo)))
     end)
    (ret serverErrorReply).

End Forecast.

(** ** Specification vocabulary *)

(** [n] is [x] rounded to the nearest integer, halves upwards. *)
Definition is_round (x : Q) (n : Z) : Prop :=
  (inject_Z n - 0.5 <= x /\ x < inject_Z n + 0.5)%Q.

(** The months, by 0-based index, of the season November to March. *)
Definition winterMonths : list Z := [10; 11; 0; 1; 2]%Z.

(** The invariant of the series loop: the best result so far is a
    candidate among the series read so far, and none of them is closer. *)
Definition closest (cands : list (number * SnowDepthResult))
    (acc : option SnowDepthResult * number) : Prop :=
  match acc with
  | (Some r, bestDistance) =>
      In (bestDistance, r) cands /\
      forall d' r', In (d', r') cands -> (bestDistance <=? d')%num = true
  | (None, bestDistance) => bestDistance = Infinity /\ cands = []
  end.

Section Vocabulary.

Context {rt : Runtime}.

(** [m] returns from every state, never throwing, with a value in [P]. *)
Definition returns {A : Type} (m : M A) (P : A -> Prop) : Prop :=
  forall s, exists a s', m s = (Ok a, s') /\ P a.

(** Whenever [m] returns, its value is in [P]. *)
Definition ensures {A : Type} (m : M A) (P : A -> Prop) : Prop :=
  forall s a s', m s = (Ok a, s') -> P a.

(** The date key of forecast day [i]. *)
Definition forecastDateKey (today i : Z) : string :=
  Date_isoDate (Date_setDate today (Date_getDate today + i)).

(** The samples the forecast loop uses for day [i]: the bucket of that
    date when it holds a temperature. *)
Definition usableDayData (today : Z) (dailyData : gmap string DayData)
    (i : Z) : option DayData :=
  match dailyData !! forecastDateKey today i with
  | Some dayData =>
      if (0 <? length (temps dayData))%nat then Some dayData else None
  | None => None
  end.

(** [maxTemp] and [totalPrecip] of a day, as the forecast loop computes
    them: the rounded maximum of the temperatures and the sum of the
    precipitation samples. *)
Definition dayMaxTemp (dayData : DayData) : number :=
  JS.Math_round (JS.Math_max (temps dayData)).

Definition dayTotalPrecip (dayData : DayData) : number :=
  JS.sum (precip dayData).

(** Forecast day [i] meets the thaw threshold. *)
Definition isThawDay (today : Z) (dailyData : gmap string DayData)
    (i : Z) : bool :=
  match usableDayData today dailyData i with
  | Some dayData => isThawCondition (dayMaxTemp dayData) (dayTotalPrecip dayData)
  | None => false
  end.

(** The stations of a bounding-box response that qualify for selection,
    in document order, each with its distance to the query point: the
    series has a position, lies within [maxDistance] and has a valid
    measurement. *)
Definition stationCandidate (userLat userLon maxDistance : number)
    (seriesContent : string) : option (number * SnowDepthResult) :=
  match match_pos seriesContent with
  | None => None
  | Some pos =>
      let coords := split_whitespace (String_trim pos) in
      let distance :=
        calculateDistance userLat userLon
          (parseFloat_at coords 0) (parseFloat_at coords 1) in
      if (distance <=? maxDistance)%num then
        match latestMeasurement seriesContent with
        | (Some latestTime, Some latestValue) =>
            Some (distance,
                  mkSnowDepthResult (JS.Math_round latestValue)
                    (Some match match_name seriesContent with
                          | Some name => String_trim name
                          | None => "Tuntematon asema"
                          end)
                    (Some (JS.Math_round distance))
                    (Some latestTime))
        | _ => None
        end
      else None
  end.

Definition stationCandidates (xmlText : string)
    (userLat userLon maxDistance : number) : list (number * SnowDepthResult) :=
  omap (stationCandidate userLat userLon maxDistance) (match_series xmlText).

(** The data the forecast engine gets from upstream in state [s], when
    there is any: the request is answered, the answer is [ok], its body
    can be read and parsed, and some date has a sample. *)
Definition upstreamForecast (lat lon : number) (s : State)
    : option (gmap string DayData) :=
  let today := clock (world s) in
  let midnight := Date_setHours0 today in
  let startTime := Date_setDate midnight (Date_getDate midnight + 1) in
  let endTime := Date_setDate startTime (Date_getDate startTime + 3) in
  match fst (fetch (FmiForecast lat lon (JS.of_Z startTime) (JS.of_Z endTime))
               (world s)) with
  | Some response =>
      if resp_ok response then
        match resp_text response with
        | Some xmlText =>
            match parseTimeValuePairForecast xmlText with
            | Ok dailyData =>
                if (size dailyData =? 0)%nat then None else Some dailyData
            | Throw => None
            end
        | None => None
        end
      else None
  | None => None
  end.

(** What a successful answer of the route computes from the depth, the
    threshold and the thaw conditions it reports. *)
Definition assembled (threshold : option string) (data : SnowData) : Prop :=
  sd_currentLoad data = currentLoadOf (sd_snowDepth data) /\
  sd_threshold data = userThresholdOf threshold /\
  (sd_status data, sd_statusText data) =
    statusOf (percentageOf (sd_currentLoad data) (sd_threshold data)) /\
  sd_heavyWetSnowWarning data =
    showHeavyWetSnowWarningOf (sd_currentLoad data) (sd_threshold data)
      (0 <? length (sd_thawConditions data))%nat /\
  length (sd_forecast data) = 3%nat.

End Vocabulary.

(** ** A runtime for concrete runs *)

(** A small runtime in which the pipeline can be run on concrete inputs.
    A body is split at [|] into series, a series at [;] into name,
    position, observed property and measurements [time=value]; numbers
    are unsigned decimal integers; days are numbered from the epoch and
    named [d1], [d2], ...; trigonometry is replaced by linear functions.
    The world is the list of the answers still to be given, together with
    the requests sent so far. *)
Module Fixture.

Fixpoint split_on (sep : ascii) (s : string) : list string :=
  match s with
  | EmptyString => [EmptyString]
  | String c rest =>
      if Ascii.eqb c sep then EmptyString :: split_on sep rest
      else
        match split_on sep rest with
        | part :: parts => String c part :: parts
        | [] => [String c EmptyString]
        end
  end.

Definition digit (c : ascii) : option Z :=
  let n := Z.of_nat (nat_of_ascii c) in
  if ((48 <=? n) && (n <=? 57))%Z then Some (n - 48)%Z else None.

Fixpoint digits (acc : Z) (s : string) : option Z :=
  match s with
  | EmptyString => Some acc
  | String c rest =>
      match digit c with
      | Some d => digits (acc * 10 + d) rest
      | None => None
      end
  end.

Definition parseNumber (s : string) : number :=
  match s with
  | EmptyString => NaN
  | _ => match digits 0 s with Some z => JS.of_Z z | None => NaN end
  end.

Definition nonEmpty (o : option string) : option string :=
  match o with
  | Some EmptyString => None
  | _ => o
  end.

Definition field (i : nat) (series : string) : option string :=
  nonEmpty (split_on ";"%char series !! i).

Definition measurements (series : string) : list (string * string) :=
  omap (fun item =>
          match split_on "="%char item with
          | [t; v] => Some (t, v)
          | _ => None
          end)
       (drop 3 (split_on ";"%char series)).

Definition day : Z := 86400000.

Definition parseDay (s : string) : Date :=
  match s with
  | String "d"%char rest =>
      match digits 0 rest with
      | Some n => Some (n * day)%Z
      | None => None
      end
  | _ => None
  end.

Definition dayName (t : Z) : string :=
  match (t / day)%Z with
  | 1%Z => "d1" | 2%Z => "d2" | 3%Z => "d3" | 4%Z => "d4" | _ => "d0"
  end.

Record world : Type := mkWorld {
  answers : list (option Response);
  sent : list Request
}.

Definition answer (req : Request) (w : world) : option Response * world :=
  match answers w with
  | [] => (None, mkWorld [] (sent w ++ [req]))
  | a :: rest => (a, mkWorld rest (sent w ++ [req]))
  end.

Definition runtimeOn (W : Type)
    (respond : Request -> W -> option Response * W) : Runtime :=
  {| Math_PI := 180%num;
     Math_sin := fun x => x;
     Math_cos := fun _ => 1%num;
     Math_sqrt := fun x => x;
     Math_atan2 := fun y _ => y;
     parseFloat := parseNumber;
     parseInt := parseNumber;
     Number_toString := fun _ => "n";
     Object_keys := fun keys => keys;
     String_trim := fun s => s;
     String_toLowerCase := fun s => s;
     split_whitespace := split_on " "%char;
     split_comma := split_on ","%char;
     match_series := fun s =>
       match s with EmptyString => [] | _ => split_on "|"%char s end;
     match_name := field 0;
     match_pos := field 1;
     match_measurements := measurements;
     match_observedProperty := field 2;
     Date_parse := parseDay;
     Date_isoDate := dayName;
     Date_getMonth := fun _ => 0%Z;
     Date_getDate := fun t => (t / day)%Z;
     Date_getDay := fun t => ((t / day) mod 7)%Z;
     Date_setHours0 := fun t => (t - t mod day)%Z;
     Date_setDate := fun t d => (d * day + t mod day)%Z;
     World := W;
     fetch := respond;
     clock := fun _ => 0%Z |}.

Definition runtime : Runtime := runtimeOn world answer.

(** The same runtime without a network: every request is rejected. *)
Definition offline : Runtime := runtimeOn unit (fun _ w => (None, w)).

Definition start (answers : list (option Response)) : @State runtime :=
  @mkState runtime ∅ (mkWorld answers []).

Definition okText (text : string) : option Response :=
  Some (mkResponse true 200%num (Some text) None).

End Fixture.

(** ** Further vocabulary *)

Section StateVocabulary.

Context {rt : Runtime}.

(** From [s] to [s'] the geocode cache is unchanged or has gained one
    entry, for [postalCode], which had none. *)
Definition cache_step (postalCode : string) (s s' : State) : Prop :=
  geocodeCache s' = geocodeCache s \/
  (geocodeCache s !! postalCode = None /\
   exists v, geocodeCache s' = <[postalCode := v]> (geocodeCache s)).

(** Whatever its outcome, [m] changes the geocode cache by at most a new
    entry for [postalCode]. *)
Definition keeps_cache {A : Type} (postalCode : string) (m : M A) : Prop :=
  forall s, cache_step postalCode s (snd (m s)).

(** A measurement the observation parser accepts: its value is a number
    in [0, 500). *)
Definition validMeasurement (m : string * string) : bool :=
  let value := parseFloat (snd m) in
  (negb (JS.isNaN value) && (value >=? 0) && (value <? 500))%num.

(** A whole number of centimetres between 0 and 500. *)
Definition depthInRange (x : number) : Prop :=
  exists z : Z, x = JS.of_Z z /\ (0 <= z <= 500)%Z.

(** A result either names its station, with a distance and a time, or
    has none of the three and a depth from the seasonal table. *)
Definition stationComplete (r : SnowDepthResult) : Prop :=
  (exists name distance time,
     stationName r = Some name /\ stationDistance r = Some distance /\
     updatedAt r = Some time) \/
  (stationName r = None /\ stationDistance r = None /\ updatedAt r = None /\
   exists lat month, depth r = mockBaseDepth lat month).

(** A result of the station locator: complete or without station, with a
    depth in range. *)
Definition wellFormed (r : SnowDepthResult) : Prop :=
  stationComplete r /\ depthInRange (depth r).

(** What every answer with data says about the depth, the load and the
    station. *)
Definition measured (data : SnowData) : Prop :=
  (exists depthCm load : Z,
     sd_snowDepth data = JS.of_Z depthCm /\ (0 <= depthCm <= 500)%Z /\
     sd_currentLoad data = JS.of_Z load /\ (0 <= load <= 1250)%Z) /\
  let info := sd_stationInfo data in
  (exists name distance updatedAgo,
     si_name info = Some name /\ si_distance info = Some distance /\
     si_updatedAgo info = Some updatedAgo) \/
  (si_name info = None /\ si_distance info = None /\
   si_updatedAgo info = None /\
   exists lat month, sd_snowDepth data = mockBaseDepth lat month).

(** A station at a known distance of at most [maxDistance]. *)
Definition withinRadius (maxDistance : number) (r : SnowDepthResult) : Prop :=
  exists name d,
    stationName r = Some name /\
    stationDistance r = Some (JS.Math_round d) /\
    JS.isNaN d = false /\ (d >? maxDistance)%num = false.

(** A thaw condition that repeats the date, the maximum temperature and
    the precipitation of a forecast day and shows values at or above the
    thaw threshold. *)
Definition thawOfDay (days : list ForecastDay) (t : ThawCondition) : Prop :=
  (exists d,
     In d days /\ fd_date d = thaw_date t /\
     fd_maxTemp d = thaw_maxTemp t /\
     fd_precipAmount d = thaw_totalPrecip t) /\
  (thaw_maxTemp t >=? 1)%num = true /\
  (thaw_totalPrecip t >=? 5)%num = true.

(** A number that is neither NaN nor infinite. *)
Definition finite (x : number) : Prop := exists q, x = Num q.

(** A whole number that is not negative. *)
Definition wholeNonNegative (x : number) : Prop :=
  exists z : Z, x = JS.of_Z z /\ (0 <= z)%Z.

(** The loop keeps the accumulated depth finite and not negative, and
    every day it has produced shows a whole depth that is not negative. *)
Definition depthNonNegative (st : ForecastLoop) : Prop :=
  (exists a, loop_accumulatedSnow st = Num a /\ (0 <= a)%Q) /\
  Forall (fun d => wholeNonNegative (fd_snowDepth d)) (loop_forecast st).

(** The minimum, the average and the maximum temperature of a forecast
    day are in this order. *)
Definition temperaturesOrdered (d : ForecastDay) : Prop :=
  (fd_minTemp d <=? fd_temperature d)%num = true /\
  (fd_temperature d <=? fd_maxTemp d)%num = true.

(** The three statuses in the order of their severity. *)
Definition statusRank (st : Status) : nat :=
  match st with safe => 0 | moderate => 1 | critical => 2 end.

(** The age of an observation [elapsed] milliseconds old, in whole
    minutes, hours or days, by the largest unit that has fully elapsed. *)
Definition ageCount (elapsed unit : Z) (one many : string) : string :=
  if (elapsed / unit =? 1)%Z then one
  else Number_toString (JS.of_Z (elapsed / unit)) ++ many.

Definition ageText (elapsed : Z) : string :=
  if (elapsed <? 60000)%Z then "juuri nyt"
  else if (elapsed <? 3600000)%Z then
    ageCount elapsed 60000 "1 minuutti sitten" " minuuttia sitten"
  else if (elapsed <? 86400000)%Z then
    ageCount elapsed 3600000 "1 tunti sitten" " tuntia sitten"
  else
    ageCount elapsed 86400000 "1 päivä sitten" " päivää sitten".

(** The [case] labels of the [switch] in [getWeatherIcon] of the client's
    [ForecastCard]; any other icon name falls to its [default] case. *)
Definition forecastCardIcons : list string :=
  ["snow"; "rain"; "cloudy"; "sunny"; "partly-cloudy"].

(** A sample of a forecast series whose value is a number and whose time
    cannot be read. *)
Definition unreadableSample (m : string * string) : bool :=
  negb (JS.isNaN (parseFloat (snd m))) &&
  match Date_parse (fst m) with Some _ => false | None => true end.

(** The parameter name of a forecast series, as the parser reads it. *)
Definition seriesParameter (seriesContent : string) : string :=
  match match_observedProperty seriesContent with
  | Some param => String_toLowerCase param
  | None => ""
  end.

(** The parameter names the parser stores as temperatures, as
    precipitation and as weather symbols. *)
Definition isTemperature (paramName : string) : bool :=
  String_includes "temperature" paramName.

Definition isPrecipitation (paramName : string) : bool :=
  negb (String_includes "temperature" paramName) &&
  String_includes "precipitation" paramName.

Definition isWeatherSymbol (paramName : string) : bool :=
  negb (String_includes "temperature" paramName) &&
  negb (String_includes "precipitation" paramName) &&
  String_includes "weathersymbol" paramName.

(** [v] is the value, a number, of a sample in [xmlText] that is dated
    [key] and belongs to a series of a parameter in [isParameter]. *)
Definition forecastSample (xmlText : string) (isParameter : string -> bool)
    (key : string) (v : number) : Prop :=
  exists seriesContent m t,
    In seriesContent (match_series xmlText) /\
    In m (match_measurements seriesContent) /\
    isParameter (seriesParameter seriesContent) = true /\
    parseFloat (snd m) = v /\ JS.isNaN v = false /\
    Date_parse (fst m) = Some t /\ Date_isoDate t = key.

(** What the parser keeps for every date of its result. *)
Definition samplesOf (xmlText : string) (dailyData : gmap string DayData)
    : Prop :=
  forall key day,
    dailyData !! key = Some day ->
    Forall (forecastSample xmlText isTemperature key) (temps day) /\
    Forall (forecastSample xmlText isPrecipitation key) (precip day) /\
    Forall (forecastSample xmlText isWeatherSymbol key) (symbols day) /\
    exists v, forecastSample xmlText (fun _ => true) key v.

(** The answer of the upstream to the forecast request sent in state
    [s]. *)
Definition forecastResponse (lat lon : number) (s : State) : option Response :=
  let today := clock (world s) in
  let midnight := Date_setHours0 today in
  let startTime := Date_setDate midnight (Date_getDate midnight + 1) in
  let endTime := Date_setDate startTime (Date_getDate startTime + 3) in
  fst (fetch (FmiForecast lat lon (JS.of_Z startTime) (JS.of_Z endTime))
         (world s)).

End StateVocabulary.

(** ** The notification route of [server/routes.ts] *)

(** A value of a decoded JSON body as far as the route inspects it:
    absent, [null], a boolean, a number, a string, or an object or
    array. *)
Inductive JsonValue : Type :=
  | JsonUndefined
  | JsonNull
  | JsonBoolean (b : bool)
  | JsonNumber (n : number)
  | JsonString (s : string)
  | JsonObject.

Definition Json_truthy (v : JsonValue) : bool :=
  match v with
  | JsonUndefined | JsonNull => false
  | JsonBoolean b => b
  | JsonNumber n => JS.truthy n
  | JsonString s => String_truthy s
  | JsonObject => true
  end.

(** [typeof v === "string"] and [typeof v === "number"] *)
Definition typeof_string (v : JsonValue) : bool :=
  match v with JsonString _ => true | _ => false end.

Definition typeof_number (v : JsonValue) : bool :=
  match v with JsonNumber _ => true | _ => false end.

(** [v.length] of a string, which is the list of its code units, and
    the number in a value of type number; both are read only behind the
    [typeof] test. *)
Definition Json_length (v : JsonValue) : nat :=
  match v with JsonString s => String.length s | _ => 0 end.

Definition Json_number (v : JsonValue) : number :=
  match v with JsonNumber n => n | _ => NaN end.

(** [v === s] for a string [s], and [list.includes(v)] for a list of
    strings. *)
Definition Json_is (v : JsonValue) (s : string) : bool :=
  match v with JsonString s' => String.eqb s' s | _ => false end.

Definition Json_includes (l : list string) (v : JsonValue) : bool :=
  existsb (Json_is v) l.

(** [req.body], an object decoded from JSON; a field that is absent is
    [JsonUndefined]. *)
Record NotificationBody : Type := mkNotificationBody {
  body_type : JsonValue;
  body_currentLoad : JsonValue;
  body_alertThreshold : JsonValue;
  body_playerId : JsonValue
}.

(** [process.env] *)
Record Environment : Type := mkEnvironment {
  ONESIGNAL_APP_ID : option string;
  ONESIGNAL_REST_API_KEY : option string
}.

(** The request to OneSignal: the [Authorization] header and the fields
    of the JSON body; [headings] and [contents] carry the same text for
    [fi] and [en]. *)
Record PushRequest : Type := mkPushRequest {
  push_authorization : string;
  push_app_id : string;
  push_headings : string;
  push_contents : string;
  push_include_player_ids : list JsonValue
}.

(** The response of OneSignal: [text] is [None] when reading the body
    rejects; [json] is [None] when decoding rejects, [Some None] when the
    body decodes to [null], on which reading [.id] throws, and
    [Some (Some id)] otherwise. *)
Record PushResponse : Type := mkPushResponse {
  push_ok : bool;
  push_text : option string;
  push_json : option (option JsonValue)
}.

(** The answers of the route: [res.status(code).json({ message, error })],
    the answer 503 with [configured: false], and
    [res.json({ success: true, id })]. *)
Inductive NotificationReply : Type :=
  | ReplyMessage (status : Z) (message : string) (error : option string)
  | ReplyNotConfigured (status : Z) (message : string)
  | ReplySuccess (id : JsonValue).

Definition replyStatus (reply : NotificationReply) : Z :=
  match reply with
  | ReplyMessage status _ _ => status
  | ReplyNotConfigured status _ => status
  | ReplySuccess _ => 200
  end.

Section NotificationRoute.

Context {rt : Runtime}.

(** The handler of [POST /api/notifications/send]: its answer and the
    requests it has sent to OneSignal, whose answer to a request is
    [oneSignal], [None] when [fetch] rejects. *)
Definition sendNotificationRoute (env : Environment) (body : NotificationBody)
    (oneSignal : PushRequest -> option PushResponse)
    : NotificationReply * list PushRequest :=
  let type := body_type body in
  let currentLoad := body_currentLoad body in
  let alertThreshold := body_alertThreshold body in
  let playerId := body_playerId body in
  if negb (Json_truthy playerId) || negb (typeof_string playerId) ||
     (Json_length playerId <? 32)%nat
  then (ReplyMessage 400 "Virheellinen tilaus-ID" (Some "invalid_player_id"), [])
  else if negb (Json_truthy type) ||
          negb (Json_includes ["regular"; "wet-snow-warning"] type)
  then (ReplyMessage 400 "Virheellinen ilmoitustyyppi" (Some "invalid_type"), [])
  else if Json_is type "regular" &&
          (negb (typeof_number currentLoad) ||
           (Json_number currentLoad <? 0)%num ||
           (Json_number currentLoad >? 500)%num)
  then (ReplyMessage 400 "Virheellinen lumikuorma" None, [])
  else if Json_is type "regular" &&
          (negb (typeof_number alertThreshold) ||
           (Json_number alertThreshold <? 50)%num ||
           (Json_number alertThreshold >? 200)%num)
  then (ReplyMessage 400 "Virheellinen hälytysraja" None, [])
  else
    let appId := ONESIGNAL_APP_ID env in
    let apiKey := ONESIGNAL_REST_API_KEY env in
    if negb (truthy_name appId) || negb (truthy_name apiKey)
    then (ReplyNotConfigured 503 "Push-ilmoitukset eivät ole käytössä", [])
    else
      let '(headings, message) :=
        if Json_is type "wet-snow-warning" then
          ("Lumivahti: VAROITUS!",
           "Lumi raskastumassa rajusti – lauha + vesisade tulossa. Tarkista katto.")
        else
          ("Lumivahti",
           "Lumikuorma on nyt " ++ Number_toString (Json_number currentLoad) ++
           " kg/m² – lähestyy hälytysrajaa (" ++
           Number_toString (Json_number alertThreshold) ++ " kg/m²)") in
      let notificationPayload :=
        mkPushRequest ("Basic " ++ default "" apiKey) (default "" appId)
          headings message [playerId] in
      let reply :=
        match oneSignal notificationPayload with
        | None => ReplyMessage 500 "Palvelinvirhe" None
        | Some response =>
            if negb (push_ok response) then
              match push_text response with
              | Some errorData =>
                  ReplyMessage 500 "Ilmoituksen lähetys epäonnistui" None
              | None => ReplyMessage 500 "Palvelinvirhe" None
              end
            else
              match push_json response with
              | Some (Some id) => ReplySuccess id
              | _ => ReplyMessage 500 "Palvelinvirhe" None
              end
        end in
      (reply, [notificationPayload]).

(** A request the route accepts: a player id that is a string of at
    least 32 characters and a known type; for a regular alert a load that
    is a number neither below 0 nor above 500 and an alert threshold that
    is a number neither below 50 nor above 200. *)
Definition acceptedNotification (body : NotificationBody) : Prop :=
  (exists player,
     body_playerId body = JsonString player /\ 32 <= String.length player) /\
  (body_type body = JsonString "wet-snow-warning" \/
   body_type body = JsonString "regular" /\
   exists load alert,
     body_currentLoad body = JsonNumber load /\
     body_alertThreshold body = JsonNumber alert /\
     (load <? 0)%num = false /\ (load >? 500)%num = false /\
     (alert <? 50)%num = false /\ (alert >? 200)%num = false).

(** Both credentials of OneSignal are set and not empty. *)
Definition configured (env : Environment) : Prop :=
  exists appId apiKey,
    ONESIGNAL_APP_ID env = Some appId /\ appId <> "" /\
    ONESIGNAL_REST_API_KEY env = Some apiKey /\ apiKey <> "".

End NotificationRoute.

(** ** The notification effect of the client's home page *)

(** The user data the settings page stores under [lumivahti_user], as
    far as the effect reads it: a boolean and a number, each [None] when
    it is absent. *)
Record UserData : Type := mkUserData {
  ud_notificationsEnabled : option bool;
  ud_alertThreshold : option number
}.

(** The calls of [sendNotification]. *)
Inductive NotificationCall : Type :=
  | SendWetSnowWarning
  | SendRegular (currentLoad alertThreshold : number).

(** [lastWarningStateRef.current] and [lastAlertStateRef.current] *)
Record AlertRefs : Type := mkAlertRefs {
  lastWarningStateRef : option bool;
  lastAlertStateRef : bool
}.

Definition initialRefs : AlertRefs := mkAlertRefs None false.

(** What one run of the effect reads: the roof threshold, the answer of
    the snow-data route when there is one, and the stored user data. *)
Record Render : Type := mkRender {
  render_threshold : number;
  render_data : option SnowData;
  render_userData : UserData
}.

(** [userData.alertThreshold || Math.round(threshold * 0.8)] *)
Definition alertThresholdOf (threshold : number) (userData : UserData)
    : number :=
  match ud_alertThreshold userData with
  | Some alertThreshold =>
      if JS.truthy alertThreshold then alertThreshold
      else JS.Math_round (threshold * 0.8)%num
  | None => JS.Math_round (threshold * 0.8)%num
  end.

(** One run of the effect of [Home]: the refs after it and the calls of
    [sendNotification] it makes, in their order. *)
Definition notificationEffect (r : Render) (refs : AlertRefs)
    : AlertRefs * list NotificationCall :=
  match render_data r with
  | None => (refs, [])
  | Some data =>
      let userData := render_userData r in
      if negb (default false (ud_notificationsEnabled userData)) then (refs, [])
      else
        let alertThreshold := alertThresholdOf (render_threshold r) userData in
        let shouldShowWetSnowWarning := sd_heavyWetSnowWarning data in
        let wasWetSnowWarningShown := lastWarningStateRef refs in
        let warning :=
          if shouldShowWetSnowWarning &&
             negb match wasWetSnowWarningShown with
                  | Some true => true
                  | _ => false
                  end
          then [SendWetSnowWarning] else [] in
        let shouldShowRegularAlert :=
          (sd_currentLoad data >=? alertThreshold)%num in
        let wasRegularAlertShown := lastAlertStateRef refs in
        let regular :=
          if shouldShowRegularAlert && negb wasRegularAlertShown &&
             negb shouldShowWetSnowWarning
          then [SendRegular (sd_currentLoad data) alertThreshold] else [] in
        (mkAlertRefs (Some shouldShowWetSnowWarning) shouldShowRegularAlert,
         (warning ++ regular)%list)
  end.

(** The runs of the effect for a sequence of renders of the mounted
    page: the refs at the end and all calls made. *)
Fixpoint runEffects (renders : list Render) (refs : AlertRefs)
    : AlertRefs * list NotificationCall :=
  match renders with
  | [] => (refs, [])
  | r :: rest =>
      let '(refs', calls) := notificationEffect r refs in
      let '(refs'', later) := runEffects rest refs' in
      (refs'', (calls ++ later)%list)
  end.

(** The effect does not return early on [r]: there is data and the
    notifications are enabled. *)
Definition processed (r : Render) : bool :=
  match render_data r with
  | Some _ => default false (ud_notificationsEnabled (render_userData r))
  | None => false
  end.

(** The answer shown in [r] has the heavy wet snow warning; its load is
    at or above the alert threshold. *)
Definition warns (r : Render) : bool :=
  match render_data r with
  | Some data => sd_heavyWetSnowWarning data
  | None => false
  end.

Definition overAlert (r : Render) : bool :=
  match render_data r with
  | Some data =>
      (sd_currentLoad data >=?
       alertThresholdOf (render_threshold r) (render_userData r))%num
  | None => false
  end.

Definition isRegular (call : NotificationCall) : bool :=
  match call with SendRegular _ _ => true | SendWetSnowWarning => false end.

Definition isWetSnowWarning (call : NotificationCall) : bool :=
  match call with SendWetSnowWarning => true | SendRegular _ _ => false end.

(** * Properties *)

(** ** Comparisons of finite numbers *)

Lemma ge_Num (a b : Q) : (Num a >=? Num b)%num = true <-> (b <= a)%Q.
Proof. unfold JS.ge, JS.le. apply Qle_bool_iff. Qed.

Lemma le_Num (a b : Q) : (Num a <=? Num b)%num = true <-> (a <= b)%Q.
Proof. unfold JS.le. apply Qle_bool_iff. Qed.

Lemma lt_Num (a b : Q) : (Num a <? Num b)%num = true <-> (a < b)%Q.
Proof.
  unfold JS.lt. rewrite negb_true_iff.
  destruct (Qle_bool b a) eqn:E.
  - apply Qle_bool_iff in E. split; [discriminate | intros H; exfalso; lra].
  - split; [intros _ | intros _; reflexivity].
    apply Qnot_le_lt. intros H. apply Qle_bool_iff in H. congruence.
Qed.

Lemma gt_Num (a b : Q) : (Num a >? Num b)%num = true <-> (b < a)%Q.
Proof. unfold JS.gt. apply lt_Num. Qed.

Lemma div_Num (a b : Q) :
  ~ (b == 0)%Q -> (Num a / Num b)%num = Num (a / b).
Proof.
  intros Hb. unfold JS.div.
  destruct (Qeq_bool b 0) eqn:E; [|reflexivity].
  apply Qeq_bool_iff in E. contradiction.
Qed.

Lemma percentageOf_Num (load threshold : Q) :
  (0 < threshold)%Q ->
  percentageOf (Num load) (Num threshold) = Num (load / threshold * 100).
Proof.
  intros Ht. unfold percentageOf.
  rewrite div_Num by (intros E; rewrite E in Ht; lra).
  reflexivity.
Qed.

Lemma statusOf_Num (p : Q) :
  (fst (statusOf (Num p)) = critical <-> (100 <= p)%Q) /\
  (fst (statusOf (Num p)) = moderate <-> (80 <= p /\ p < 100)%Q) /\
  (fst (statusOf (Num p)) = safe <-> (p < 80)%Q).
Proof.
  unfold statusOf.
  destruct (Num p >=? 100)%num eqn:E100.
  - apply ge_Num in E100. cbn.
    repeat split; try discriminate; intros; try lra.
  - destruct (Num p >=? 80)%num eqn:E80; cbn.
    + apply ge_Num in E80.
      assert (p < 100)%Q.
      { apply Qnot_le_lt. intros H. apply ge_Num in H. congruence. }
      repeat split; try discriminate; intros; try lra.
    + assert (p < 80)%Q.
      { apply Qnot_le_lt. intros H. apply ge_Num in H. congruence. }
      repeat split; try discriminate; intros; try lra.
Qed.

(** ** Snow load calculator *)

(** C1: for every load and every threshold greater than zero the
    classification of [percentage = load / threshold * 100] is critical
    exactly when [percentage >= 100], moderate exactly when
    [80 <= percentage < 100] and safe exactly when [percentage < 80]; a
    ratio of exactly 0.80 is moderate, 0.7999 is safe and 1.00 is
    critical. *)
Theorem status_boundaries (load threshold : Q) :
  (0 < threshold)%Q ->
  let percentage := (load / threshold * 100)%Q in
  let status := fst (statusOf (percentageOf (Num load) (Num threshold))) in
  (status = critical <-> (100 <= percentage)%Q) /\
  (status = moderate <-> (80 <= percentage /\ percentage < 100)%Q) /\
  (status = safe <-> (percentage < 80)%Q) /\
  ((load / threshold == 0.80)%Q -> status = moderate) /\
  ((load / threshold == 0.7999)%Q -> status = safe) /\
  ((load / threshold == 1.00)%Q -> status = critical).
Proof.
  intros Ht percentage status. subst status.
  rewrite percentageOf_Num by exact Ht. fold percentage.
  destruct (statusOf_Num percentage) as (Hc & Hm & Hs).
  split; [exact Hc|]. split; [exact Hm|]. split; [exact Hs|].
  split; [|split].
  - intros E. apply Hm. unfold percentage. rewrite E. lra.
  - intros E. apply Hs. unfold percentage. rewrite E. lra.
  - intros E. apply Hc. unfold percentage. rewrite E. lra.
Qed.

Lemma status_boundaries_witness :
  (0 < 140)%Q /\
  fst (statusOf (percentageOf (Num 112) (Num 140))) = moderate.
Proof.
  split; [reflexivity|].
  apply (status_boundaries 112 140); reflexivity.
Defined.

Lemma currentLoadOf_Num (depthCm : Q) :
  currentLoadOf (Num depthCm) = JS.of_Z (Qfloor (depthCm * 2.5 + 0.5)).
Proof. reflexivity. Qed.

Lemma is_round_floor (x : Q) : is_round x (Qfloor (x + 0.5)).
Proof.
  unfold is_round.
  pose proof (Qfloor_le (x + 0.5)) as Hle.
  pose proof (Qlt_floor (x + 0.5)) as Hlt.
  rewrite inject_Z_plus in Hlt. change (inject_Z 1) with 1%Q in Hlt.
  split; lra.
Qed.

(** C2: for a snow depth in [0, 500) the load is the depth times 2.5
    rounded to the nearest integer, and the load does not decrease when
    the depth grows. *)
Theorem currentLoad_round_monotone (depthCm depthCm' : Q) :
  (0 <= depthCm)%Q -> (depthCm <= depthCm')%Q -> (depthCm' < 500)%Q ->
  exists load load' : Z,
    currentLoadOf (Num depthCm) = JS.of_Z load /\
    currentLoadOf (Num depthCm') = JS.of_Z load' /\
    is_round (depthCm * 2.5) load /\
    is_round (depthCm' * 2.5) load' /\
    (load <= load')%Z /\
    (currentLoadOf (Num depthCm) <=? currentLoadOf (Num depthCm'))%num = true.
Proof.
  intros H0 Hle H500.
  exists (Qfloor (depthCm * 2.5 + 0.5)), (Qfloor (depthCm' * 2.5 + 0.5)).
  assert (Hmono : (Qfloor (depthCm * 2.5 + 0.5) <= Qfloor (depthCm' * 2.5 + 0.5))%Z).
  { apply Qfloor_resp_le. lra. }
  repeat split; try apply is_round_floor; try exact Hmono.
  rewrite !currentLoadOf_Num. unfold JS.of_Z. apply le_Num.
  rewrite <- Zle_Qle. exact Hmono.
Qed.

Lemma currentLoad_round_monotone_witness :
  exists load load' : Z,
    currentLoadOf (Num 3) = JS.of_Z load /\
    currentLoadOf (Num 30) = JS.of_Z load' /\
    is_round (3 * 2.5) load /\
    is_round (30 * 2.5) load' /\
    (load <= load')%Z /\
    (currentLoadOf (Num 3) <=? currentLoadOf (Num 30))%num = true.
Proof.
  apply (currentLoad_round_monotone 3 30); [discriminate | discriminate | reflexivity].
Defined.

(** ** Precipitation type *)

Lemma le_Num_false (a b : Q) : (Num a <=? Num b)%num = false <-> (b < a)%Q.
Proof.
  rewrite <- not_true_iff_false, le_Num. split.
  - apply Qnot_le_lt.
  - intros H H'. lra.
Qed.

Lemma lt_Num_false (a b : Q) : (Num a <? Num b)%num = false <-> (b <= a)%Q.
Proof.
  rewrite <- not_true_iff_false, lt_Num. split.
  - apply Qnot_lt_le.
  - intros H H'. lra.
Qed.


(** ** Seasonal fallback tables *)

Lemma mockIsWinter_months (month : Z) :
  (0 <= month <= 11)%Z ->
  (mockIsWinter month = true <-> In month winterMonths).
Proof.
  intros Hm. unfold mockIsWinter, winterMonths.
  rewrite orb_true_iff, !Z.leb_le. simpl. lia.
Qed.

Lemma fallbackIsWinter_months (month : Z) :
  (0 <= month <= 11)%Z ->
  (fallbackIsWinter month = true <-> In month (winterMonths ++ [3%Z])).
Proof.
  intros Hm. unfold fallbackIsWinter, winterMonths.
  rewrite orb_true_iff, !Z.leb_le. simpl. lia.
Qed.

(** C9 as stated fails: the forecast fallback counts April (month index
    3) as winter, the depth estimate does not, so the two tables do not
    share the banding November to March. *)
Lemma season_banding_not_shared :
  ~ (forall month : Z, (0 <= month <= 11)%Z ->
       (mockIsWinter month = true <-> In month winterMonths) /\
       (fallbackIsWinter month = true <-> In month winterMonths)).
Proof.
  intros H. destruct (H 3%Z) as [_ [Hf _]]; [lia|].
  specialize (Hf eq_refl). simpl in Hf. lia.
Qed.

(** C9, amended: winter is exactly the months 10, 11, 0, 1, 2 in the depth
    estimate and exactly the months 10, 11, 0, 1, 2, 3 in the forecast
    fallback; the temperature of day [i] of the forecast fallback is
    [baseTemp + (i % 3 - 1) * 2], for each of the three days. *)
Theorem season_banding_and_fallback_temp `{rt : Runtime} (month : Z) :
  (0 <= month <= 11)%Z ->
  (mockIsWinter month = true <-> In month winterMonths) /\
  (fallbackIsWinter month = true <-> In month (winterMonths ++ [3%Z])) /\
  (forall (lat : number) (today : Z) (names : list string) (i : Z),
     fd_temperature (fallbackDay lat today names i) =
     (fallbackBaseTemp lat + JS.of_Z (Z.rem i 3 - 1) * 2)%num) /\
  (forall (lat : number) (today : Z) (names : list string),
     map fd_temperature (getFallbackForecast lat today names) =
     map (fun i => (fallbackBaseTemp lat + JS.of_Z (Z.rem i 3 - 1) * 2)%num)
       [1; 2; 3]%Z).
Proof.
  intros Hm.
  split; [apply mockIsWinter_months; exact Hm|].
  split; [apply fallbackIsWinter_months; exact Hm|].
  split; intros; reflexivity.
Qed.

(** ** Reasoning about computations *)

Section Computations.

Context {rt : Runtime}.

Lemma returns_ret {A : Type} (a : A) (P : A -> Prop) :
  P a -> returns (ret a) P.
Proof. intros Ha s. exists a, s. split; [reflexivity | exact Ha]. Qed.

Lemma returns_bind {A B : Type} (m : M A) (k : A -> M B)
    (Q : A -> Prop) (P : B -> Prop) :
  returns m Q -> (forall a, Q a -> returns (k a) P) -> returns (bind m k) P.
Proof.
  intros Hm Hk s. destruct (Hm s) as (a & s1 & E & Ha).
  destruct (Hk a Ha s1) as (b & s2 & E' & Hb).
  exists b, s2. unfold bind. rewrite E. split; assumption.
Qed.

Lemma returns_weaken {A : Type} (m : M A) (P Q : A -> Prop) :
  returns m P -> (forall a, P a -> Q a) -> returns m Q.
Proof.
  intros Hm HPQ s. destruct (Hm s) as (a & s' & E & Ha).
  exists a, s'. split; [exact E | apply HPQ, Ha].
Qed.

Lemma returns_try_catch {A : Type} (body handler : M A) (P : A -> Prop) :
  ensures body P -> returns handler P -> returns (try_catch body handler) P.
Proof.
  intros Hb Hh s. unfold try_catch.
  destruct (body s) as [[a|] s1] eqn:E.
  - exists a, s1. split; [reflexivity | exact (Hb s a s1 E)].
  - apply Hh.
Qed.

(** A body that never throws makes its handler unreachable. *)
Lemma returns_try_body {A : Type} (body handler : M A) (P : A -> Prop) :
  returns body P -> returns (try_catch body handler) P.
Proof.
  intros Hb s. destruct (Hb s) as (a & s' & E & Ha).
  exists a, s'. unfold try_catch. rewrite E. split; [reflexivity | exact Ha].
Qed.

Lemma ensures_trivial {A : Type} (m : M A) : ensures m (fun _ => True).
Proof. intros s a s' _. exact I. Qed.

Lemma ensures_ret {A : Type} (a : A) (P : A -> Prop) :
  P a -> ensures (ret a) P.
Proof. intros Ha s b s' E. unfold ret in E. congruence. Qed.

Lemma ensures_bind {A B : Type} (m : M A) (k : A -> M B) (P : B -> Prop) :
  (forall a, ensures (k a) P) -> ensures (bind m k) P.
Proof.
  intros Hk s b s' E. unfold bind in E.
  destruct (m s) as [[a|] s1]; [|discriminate].
  exact (Hk a s1 b s' E).
Qed.

Lemma ensures_of_returns {A : Type} (m : M A) (P : A -> Prop) :
  returns m P -> ensures m P.
Proof.
  intros Hm s a s' E. destruct (Hm s) as (a' & s1 & E' & Ha).
  rewrite E in E'. congruence.
Qed.

Lemma returns_new_Date : returns new_Date (fun _ => True).
Proof. intros s. exists (clock (world s)), s. split; [reflexivity | exact I]. Qed.

Lemma returns_cache_set (postalCode : string) (v : option PostalCodeInfo) :
  returns (cache_set postalCode v) (fun _ => True).
Proof. intros s. unfold cache_set. eexists _, _. split; [reflexivity | exact I]. Qed.

Lemma returns_cache_get (postalCode : string) :
  returns (cache_get postalCode) (fun _ => True).
Proof. intros s. unfold cache_get. eexists _, _. split; [reflexivity | exact I]. Qed.

Lemma returns_orElse {A : Type} (attempt : M (option A)) (next : M A)
    (P : A -> Prop) :
  returns attempt (fun r => forall a, r = Some a -> P a) ->
  returns next P ->
  returns (orElse attempt next) P.
Proof.
  intros Ha Hn. unfold orElse.
  apply (returns_bind _ _ _ _ Ha).
  intros [a|] Hr; [apply returns_ret, Hr; reflexivity | exact Hn].
Qed.

End Computations.

Create HintDb returns.

#[local] Hint Resolve returns_ret returns_new_Date returns_cache_set
  returns_cache_get ensures_trivial : returns.

(** ** Every tier absorbs its failures *)

Section Tiers.

Context {rt : Runtime}.

Abbreviation total m := (returns m (fun _ => True)).

Lemma geocodePostalCode_returns (postalCode : string) :
  total (geocodePostalCode postalCode).
Proof.
  unfold geocodePostalCode.
  apply (returns_bind _ _ (fun _ => True)); [auto with returns|].
  intros [info|] _; [auto with returns|].
  apply returns_try_catch; [auto with returns|].
  apply (returns_bind _ _ (fun _ => True)); auto with returns.
Qed.

Lemma getPostalCodeInfo_returns (postalCode : string) :
  total (getPostalCodeInfo postalCode).
Proof.
  unfold getPostalCodeInfo.
  destruct (postalCodeMap !! postalCode); [auto with returns|].
  apply geocodePostalCode_returns.
Qed.

Lemma getMockSnowDepthResult_returns (lat : number) :
  returns (getMockSnowDepthResult lat)
    (fun r => stationName r = None /\ stationDistance r = None /\
              updatedAt r = None /\
              exists month, depth r = mockBaseDepth lat month).
Proof.
  unfold getMockSnowDepthResult.
  apply (returns_bind _ _ (fun _ => True)); [auto with returns|].
  intros now _. apply returns_ret. cbn. eauto.
Qed.

Lemma fetchSnowFromStation_returns (fmisid stationName : string)
    (userLat userLon startTime endTime : number)
    (stationLat stationLon : option number) :
  total (fetchSnowFromStation fmisid stationName userLat userLon
           startTime endTime stationLat stationLon).
Proof.
  unfold fetchSnowFromStation.
  apply returns_try_catch; auto with returns.
Qed.

Lemma parseTimeValuePairSnowResponse_returns (xmlText : string)
    (userLat userLon maxDistance : number) :
  total (parseTimeValuePairSnowResponse xmlText userLat userLon maxDistance).
Proof.
  unfold parseTimeValuePairSnowResponse.
  destruct bestStation; [auto with returns|].
  eapply returns_weaken; [apply getMockSnowDepthResult_returns | auto].
Qed.

Lemma searchStationsInRadius_returns (lat lon radiusKm startTime endTime : number) :
  total (searchStationsInRadius lat lon radiusKm startTime endTime).
Proof.
  unfold searchStationsInRadius.
  apply returns_try_catch; auto with returns.
Qed.

Lemma tryStations_returns (stations : list Station)
    (lat lon startTime endTime : number) :
  total (tryStations stations lat lon startTime endTime).
Proof.
  induction stations as [|station rest IH]; cbn [tryStations].
  - auto with returns.
  - apply (returns_bind _ _ (fun _ => True)).
    + apply fetchSnowFromStation_returns.
    + intros [r|] _; [auto with returns | exact IH].
Qed.

Lemma trySearchRadii_returns (searchRadii : list number)
    (lat lon startTime endTime : number) :
  total (trySearchRadii searchRadii lat lon startTime endTime).
Proof.
  induction searchRadii as [|radiusKm rest IH]; cbn [trySearchRadii].
  - auto with returns.
  - apply (returns_bind _ _ (fun _ => True)).
    + apply searchStationsInRadius_returns.
    + intros [r|] _; [|exact IH].
      destruct (truthy_name (stationName r)); [auto with returns | exact IH].
Qed.

Lemma getSnowDepthWithStationInfo_returns (lat lon : number)
    (postalCode : option string) :
  total (getSnowDepthWithStationInfo lat lon postalCode).
Proof.
  unfold getSnowDepthWithStationInfo.
  apply (returns_bind _ _ (fun _ => True)); [auto with returns|].
  intros now _.
  apply returns_orElse.
  { eapply returns_weaken; [|auto].
    destruct inKilpisjarviArea; [apply tryStations_returns | auto with returns]. }
  apply returns_orElse.
  { eapply returns_weaken; [|auto].
    destruct inInariIvaloArea; [apply tryStations_returns | auto with returns]. }
  apply returns_orElse.
  { eapply returns_weaken; [apply trySearchRadii_returns | auto]. }
  eapply returns_weaken; [apply getMockSnowDepthResult_returns | auto].
Qed.

Lemma getSnowDepth_returns (lat lon : number) : total (getSnowDepth lat lon).
Proof.
  unfold getSnowDepth.
  apply (returns_bind _ _ (fun _ => True)).
  - apply getSnowDepthWithStationInfo_returns.
  - auto with returns.
Qed.

End Tiers.

(** ** Forecast engine *)

Section ForecastProperties.

Context {rt : Runtime}.

Lemma forecastDayStep_length (lat : number) (today : Z)
    (dailyData : gmap string DayData) (st : ForecastLoop) (i : Z) :
  length (loop_forecast (forecastDayStep lat today dailyData st i)) =
  S (length (loop_forecast st)).
Proof.
  unfold forecastDayStep.
  destruct (dailyData !! _) as [dayData|];
    [destruct (0 <? length (temps dayData))%nat|];
    cbn [loop_forecast]; rewrite length_app; cbn; lia.
Qed.

Lemma buildForecast_length (lat : number) (today : Z)
    (dailyData : gmap string DayData) (currentSnowDepth : number) :
  length (loop_forecast (buildForecast lat today dailyData currentSnowDepth)) = 3%nat.
Proof.
  unfold buildForecast, forecastIndices. cbn [foldl].
  rewrite !forecastDayStep_length. reflexivity.
Qed.

Lemma getFallbackForecast_length (lat : number) (today : Z) (names : list string) :
  length (getFallbackForecast lat today names) = 3%nat.
Proof. reflexivity. Qed.

Lemma forecastDayStep_thaw (lat : number) (today : Z)
    (dailyData : gmap string DayData) (st : ForecastLoop) (i : Z) :
  map thaw_date (loop_thawConditions (forecastDayStep lat today dailyData st i)) =
  (map thaw_date (loop_thawConditions st) ++
   if isThawDay today dailyData i then [forecastDateKey today i] else [])%list.
Proof.
  unfold forecastDayStep, isThawDay, usableDayData, forecastDateKey.
  destruct (dailyData !! _) as [dayData|];
    [destruct (0 <? length (temps dayData))%nat|];
    cbn [loop_thawConditions]; try (rewrite app_nil_r; reflexivity).
  fold (dayMaxTemp dayData). fold (dayTotalPrecip dayData).
  destruct (isThawCondition (dayMaxTemp dayData) (dayTotalPrecip dayData)).
  - rewrite map_app. reflexivity.
  - rewrite app_nil_r. reflexivity.
Qed.

Lemma buildForecast_thaw (lat : number) (today : Z)
    (dailyData : gmap string DayData) (currentSnowDepth : number) :
  map thaw_date
    (loop_thawConditions (buildForecast lat today dailyData currentSnowDepth)) =
  map (forecastDateKey today)
    (List.filter (isThawDay today dailyData) forecastIndices).
Proof.
  unfold buildForecast, forecastIndices. cbn [foldl List.filter].
  rewrite !forecastDayStep_thaw. cbn [loop_thawConditions map app].
  destruct (isThawDay today dailyData 1), (isThawDay today dailyData 2),
    (isThawDay today dailyData 3); reflexivity.
Qed.

Lemma isThawCondition_Num (maxTemp totalPrecip : Q) :
  isThawCondition (Num maxTemp) (Num totalPrecip) = true <->
  (1 <= maxTemp)%Q /\ (5 <= totalPrecip)%Q.
Proof.
  unfold isThawCondition. rewrite andb_true_iff, !ge_Num. reflexivity.
Qed.

Lemma getSnowForecastWithThawWarning_returns (lat lon threshold : number) :
  returns (getSnowForecastWithThawWarning lat lon threshold)
    (fun r => length (forecast r) = 3%nat /\
              hasThawConditions r = (0 <? length (thawConditions r))%nat).
Proof.
  unfold getSnowForecastWithThawWarning.
  apply (returns_bind _ _ (fun _ => True)); [auto with returns|].
  intros today _. cbv zeta.
  apply returns_try_catch; [|apply returns_ret; split; reflexivity].
  apply ensures_bind. intros response.
  destruct (negb (resp_ok response)); [apply ensures_ret; split; reflexivity|].
  apply ensures_bind. intros xmlText.
  apply ensures_bind. intros dailyData.
  destruct (size dailyData =? 0)%nat; [apply ensures_ret; split; reflexivity|].
  apply ensures_bind. intros currentSnowDepth.
  apply ensures_ret. cbn [forecast hasThawConditions thawConditions].
  split; [apply buildForecast_length | reflexivity].
Qed.

Lemma forecast_source (lat lon threshold : number) (s : State) :
  exists r s',
    getSnowForecastWithThawWarning lat lon threshold s = (Ok r, s') /\
    match upstreamForecast lat lon s with
    | Some dailyData =>
        exists currentSnowDepth,
          let final :=
            buildForecast lat (clock (world s)) dailyData currentSnowDepth in
          forecast r = loop_forecast final /\
          hasThawConditions r = (0 <? length (loop_thawConditions final))%nat /\
          thawConditions r = loop_thawConditions final
    | None =>
        forecast r = getFallbackForecast lat (clock (world s)) dayNames /\
        hasThawConditions r = false /\
        thawConditions r = []
    end.
Proof.
  unfold upstreamForecast, getSnowForecastWithThawWarning.
  unfold bind at 1. unfold new_Date at 1. cbv zeta.
  unfold try_catch, bind at 1, await_fetch.
  destruct (fetch _ (world s)) as [[response|] w]; cbn [fst];
    [|eexists _, _; split; [reflexivity | repeat split]].
  destruct (resp_ok response); cbn [negb];
    [|eexists _, _; split; [reflexivity | repeat split]].
  unfold bind at 1, await.
  destruct (resp_text response) as [xmlText|];
    [|eexists _, _; split; [reflexivity | repeat split]].
  unfold ret at 1. unfold bind at 1, lift.
  destruct (parseTimeValuePairForecast xmlText) as [dailyData|];
    [|eexists _, _; split; [reflexivity | repeat split]].
  destruct (size dailyData =? 0)%nat;
    [eexists _, _; split; [reflexivity | repeat split]|].
  unfold bind at 1.
  destruct (getSnowDepth_returns lat lon (mkState (geocodeCache s) w))
    as (currentSnowDepth & s1 & E & _).
  rewrite E. eexists _, _. split; [reflexivity|].
  exists currentSnowDepth. repeat split.
Qed.

(** C5: whatever the upstream does, the forecast engine returns, and its
    forecast has exactly three entries; they are the synthetic fallback
    days whenever no upstream data is available. *)
Theorem forecast_has_three_days (lat lon threshold : number) (s : State) :
  exists r s',
    getSnowForecastWithThawWarning lat lon threshold s = (Ok r, s') /\
    length (forecast r) = 3%nat /\
    (upstreamForecast lat lon s = None ->
     forecast r = getFallbackForecast lat (clock (world s)) dayNames).
Proof.
  destruct (forecast_source lat lon threshold s) as (r & s' & E & H).
  exists r, s'. split; [exact E|].
  destruct (upstreamForecast lat lon s) as [dailyData|].
  - destruct H as (depth0 & Hf & _). split; [|discriminate].
    rewrite Hf. apply buildForecast_length.
  - destruct H as (Hf & _). split; [|intros _; exact Hf].
    rewrite Hf. apply getFallbackForecast_length.
Qed.

Lemma rounded_maximum_threshold (warmest : Q) :
  (JS.Math_round (Num warmest) >=? 1)%num = true <-> (0.5 <= warmest)%Q.
Proof.
  cbn [JS.Math_round]. rewrite ge_Num.
  change 1%Q with (inject_Z 1). rewrite <- Zle_Qle.
  pose proof (Qfloor_le (warmest + 0.5)) as Hle.
  pose proof (Qlt_floor (warmest + 0.5)) as Hlt.
  rewrite inject_Z_plus in Hlt. change (inject_Z 1) with 1%Q in Hlt.
  split.
  - intros H. rewrite Zle_Qle in H. change (inject_Z 1) with 1%Q in H. lra.
  - intros H.
    assert (H0 : (inject_Z 0 < inject_Z (Qfloor (warmest + 0.5)))%Q)
      by (change (inject_Z 0) with 0%Q; lra).
    rewrite <- Zlt_Qlt in H0. lia.
Qed.

(** C4, amended: a forecast day with temperature samples is recorded as
    a thaw condition exactly when the maximum of its temperature samples,
    rounded to the nearest whole degree, is at least 1, which is when its
    warmest sample is at least 0.5, and the sum of its precipitation
    samples, before the rounding to one decimal that the forecast shows,
    is at least 5.  A day with warmest sample 1 and 5 mm is recorded, and
    so is one with warmest sample 0.9 and 5 mm; a day with warmest sample
    0.4, one with 4.9 mm and one with 4.96 mm, shown as 5 mm, are not.
    The recorded days are the forecast days that meet this condition, and
    [hasThawConditions] holds exactly when one of the three does. *)
Theorem thaw_detection :
  (forall (dayData : DayData) (warmest total : Q),
     JS.Math_max (temps dayData) = Num warmest ->
     JS.sum (precip dayData) = Num total ->
     (isThawCondition (dayMaxTemp dayData) (dayTotalPrecip dayData) = true <->
      (0.5 <= warmest)%Q /\ (5 <= total)%Q)) /\
  (let recorded (warmest total : number) :=
     isThawCondition (dayMaxTemp (mkDayData [warmest] [total] []))
       (dayTotalPrecip (mkDayData [warmest] [total] [])) in
   recorded 1 5 = true /\
   recorded 0.9 5 = true /\
   recorded 0.4 5 = false /\
   recorded 1 4.9 = false /\
   recorded 1 4.96 = false /\
   (JS.Math_round (4.96 * 10) / 10 >=? 5)%num = true)%num /\
  (forall (today : Z) (dailyData : gmap string DayData) (i : Z),
     isThawDay today dailyData i = true <->
     exists dayData,
       dailyData !! forecastDateKey today i = Some dayData /\
       temps dayData <> [] /\
       (JS.Math_round (JS.Math_max (temps dayData)) >=? 1)%num = true /\
       (JS.sum (precip dayData) >=? 5)%num = true) /\
  (forall (lat lon threshold : number) (s : State),
   exists r s',
     getSnowForecastWithThawWarning lat lon threshold s = (Ok r, s') /\
     match upstreamForecast lat lon s with
     | Some dailyData =>
         let today := clock (world s) in
         map thaw_date (thawConditions r) =
           map (forecastDateKey today)
             (List.filter (isThawDay today dailyData) forecastIndices) /\
         (hasThawConditions r = true <->
          exists i, In i forecastIndices /\ isThawDay today dailyData i = true)
     | None => hasThawConditions r = false
     end).
Proof.
  split.
  { intros dayData warmest total Hmax Hsum.
    unfold dayMaxTemp, dayTotalPrecip, isThawCondition.
    rewrite Hmax, Hsum, andb_true_iff, rounded_maximum_threshold, ge_Num.
    reflexivity. }
  split; [cbv zeta; repeat split|].
  split.
  { intros today dailyData i. unfold isThawDay, usableDayData.
    destruct (dailyData !! forecastDateKey today i) as [dayData|];
      [|split; [discriminate | intros (d & E & _); discriminate E]].
    unfold isThawCondition, dayMaxTemp, dayTotalPrecip.
    destruct (temps dayData) as [|t0 rest] eqn:Etemps; cbn [length Nat.ltb Nat.leb].
    - split; [discriminate|].
      intros (d & E & Hne & _). injection E as <-. congruence.
    - rewrite andb_true_iff. split.
      + intros [H1 H2]. exists dayData.
        split; [reflexivity|]. split; [rewrite Etemps; discriminate|].
        split; assumption.
      + intros (d & E & _ & H1 & H2). injection E as <-.
        split; assumption. }
  intros lat lon threshold s.
  destruct (forecast_source lat lon threshold s) as (r & s' & E & H).
  exists r, s'. split; [exact E|].
  destruct (upstreamForecast lat lon s) as [dailyData|];
    [|destruct H as (_ & H & _); exact H].
  destruct H as (depth0 & _ & Hhas & Hthaw). cbv zeta in *.
  split.
  - rewrite Hthaw. apply buildForecast_thaw.
  - rewrite Hhas, <- (length_map thaw_date), buildForecast_thaw, length_map.
    unfold forecastIndices. cbn [List.filter].
    destruct (isThawDay _ dailyData 1) eqn:E1;
      [split; [intros _; exists 1%Z; cbn; auto | reflexivity]|].
    destruct (isThawDay _ dailyData 2) eqn:E2;
      [split; [intros _; exists 2%Z; cbn; auto | reflexivity]|].
    destruct (isThawDay _ dailyData 3) eqn:E3;
      [split; [intros _; exists 3%Z; cbn; auto | reflexivity]|].
    split; [discriminate|].
    intros (i & Hin & Hi). cbn in Hin.
    destruct Hin as [<-|[<-|[<-|[]]]]; congruence.
Qed.

End ForecastProperties.

(** ** The snow-data route *)

Section RouteProperties.

Context {rt : Runtime}.

Lemma snowDataRoute_outcome (postalCode : string) (threshold : option string)
    (s : State) :
  exists postalInfo s1 reply s',
    getPostalCodeInfo postalCode s = (Ok postalInfo, s1) /\
    snowDataRoute postalCode threshold s = (Ok reply, s') /\
    match postalInfo with
    | None => reply = notFoundReply
    | Some info =>
        exists data,
          reply = ReplyData 200 data /\
          sd_city data = pc_city info /\
          assembled threshold data
    end.
Proof.
  destruct (getPostalCodeInfo_returns postalCode s) as (postalInfo & s1 & E & _).
  exists postalInfo, s1.
  unfold snowDataRoute, try_catch. unfold bind at 1. rewrite E.
  destruct postalInfo as [info|];
    [|eexists _, _; split; [reflexivity | split; reflexivity]].
  match goal with
  | |- context [match ?m s1 with _ => _ end] =>
      assert (Hk : returns m
                (fun reply => exists data,
                   reply = ReplyData 200 data /\
                   sd_city data = pc_city info /\
                   assembled threshold data))
  end.
  { apply (returns_bind _ _ (fun _ => True));
      [apply getSnowDepthWithStationInfo_returns|].
    intros snowResult _. cbv zeta.
    destruct (statusOf _) as [status statusText] eqn:Estatus.
    eapply returns_bind; [apply getSnowForecastWithThawWarning_returns|].
    intros forecastResult [Hlen Hthaw]. cbv beta in Hlen, Hthaw.
    apply (returns_bind _ _ (fun _ => True)).
    { destruct (updatedAt snowResult); [|auto with returns].
      apply (returns_bind _ _ (fun _ => True)); auto with returns. }
    intros updatedAgo _. apply returns_ret.
    eexists. split; [reflexivity|]. split; [reflexivity|].
    unfold assembled. cbn.
    rewrite Estatus, Hthaw. repeat split. exact Hlen. }
  destruct (Hk s1) as (reply & s' & Ek & data & Hreply & Hdata).
  exists reply, s'. rewrite Ek.
  split; [reflexivity|]. split; [reflexivity|].
  exists data. split; assumption.
Qed.

End RouteProperties.

(** ** Order on numbers *)

Section NumberOrder.

Ltac by_cases :=
  intros;
  repeat match goal with
         | x : number |- _ => destruct x
         end;
  cbn in *; try reflexivity; try discriminate; try tauto.

Lemma le_not_NaN (a b : number) :
  (a <=? b)%num = true -> JS.isNaN a = false /\ JS.isNaN b = false.
Proof. by_cases. Qed.

Lemma lt_not_NaN (a b : number) :
  (a <? b)%num = true -> JS.isNaN a = false /\ JS.isNaN b = false.
Proof. by_cases. Qed.

Lemma le_refl (a : number) : JS.isNaN a = false -> (a <=? a)%num = true.
Proof. by_cases. apply Qle_bool_iff. lra. Qed.

Lemma le_trans (a b c : number) :
  (a <=? b)%num = true -> (b <=? c)%num = true -> (a <=? c)%num = true.
Proof.
  by_cases. rewrite Qle_bool_iff in *. lra.
Qed.

Lemma lt_le (a b : number) : (a <? b)%num = true -> (a <=? b)%num = true.
Proof.
  by_cases. rewrite negb_true_iff in *. apply Qle_bool_iff.
  apply Qlt_le_weak, Qnot_le_lt. intros H'. apply Qle_bool_iff in H'. congruence.
Qed.

Lemma not_lt_le (a b : number) :
  JS.isNaN a = false -> JS.isNaN b = false ->
  (a <? b)%num = false -> (b <=? a)%num = true.
Proof.
  by_cases. rewrite negb_false_iff in *. assumption.
Qed.

Lemma gt_not_le (a b : number) :
  (a >? b)%num = true -> (a <=? b)%num = false.
Proof.
  unfold JS.gt. by_cases.
  rewrite negb_true_iff in *. assumption.
Qed.

Lemma le_Num_lt_Infinity (a : number) (m : Q) :
  (a <=? Num m)%num = true -> (a <? Infinity)%num = true.
Proof. by_cases. Qed.

End NumberOrder.

(** ** Station search *)

Section StationSearch.

Context {rt : Runtime}.

Variables userLat userLon : number.
Variable maxKm : Q.

Abbreviation candidate := (stationCandidate userLat userLon (Num maxKm)).
Abbreviation step := (seriesStep userLat userLon (Num maxKm)).

Lemma stationCandidate_within (seriesContent : string) (d : number)
    (r : SnowDepthResult) :
  candidate seriesContent = Some (d, r) -> (d <=? Num maxKm)%num = true.
Proof.
  unfold candidate, stationCandidate.
  destruct (match_pos seriesContent) as [pos|]; [|discriminate].
  cbv zeta.
  destruct (_ <=? Num maxKm)%num eqn:E; [|discriminate].
  destruct (latestMeasurement seriesContent) as [[t|] [v|]]; try discriminate.
  intros H. injection H as <- _. exact E.
Qed.

Lemma candidates_within (l : list string) (d : number) (r : SnowDepthResult) :
  In (d, r) (omap candidate l) -> (d <=? Num maxKm)%num = true.
Proof.
  intros H. apply list_elem_of_In, list_elem_of_omap in H.
  destruct H as (x & _ & Hx). exact (stationCandidate_within x d r Hx).
Qed.

Lemma seriesStep_closest (l : list string)
    (acc : option SnowDepthResult * number) (seriesContent : string) :
  closest (omap candidate l) acc ->
  closest (omap candidate (l ++ [seriesContent])%list) (step acc seriesContent).
Proof.
  intros Hacc. rewrite omap_app. cbn [omap list_omap].
  unfold step, seriesStep, candidate at 2, stationCandidate.
  destruct acc as [bestResult bestDistance].
  destruct (match_pos seriesContent) as [pos|];
    [|rewrite app_nil_r; exact Hacc].
  cbv zeta.
  set (distance := calculateDistance _ _ _ _).
  destruct (distance >? Num maxKm)%num eqn:Efar.
  { rewrite (gt_not_le _ _ Efar), app_nil_r. exact Hacc. }
  destruct (latestMeasurement seriesContent) as [[latestTime|] [latestValue|]];
    try (destruct (distance <=? Num maxKm)%num; rewrite app_nil_r; exact Hacc).
  destruct (distance <? bestDistance)%num eqn:Ecloser.
  - (* a closer station replaces the best one *)
    destruct (lt_not_NaN _ _ Ecloser) as [Hd _].
    assert (Hin : (distance <=? Num maxKm)%num = true).
    { apply not_lt_le; [reflexivity | exact Hd | exact Efar]. }
    rewrite Hin. cbn [closest]. split.
    + apply in_or_app. right. left. reflexivity.
    + intros d' r' H. apply in_app_or in H as [H|[H|[]]].
      * destruct bestResult as [r|]; cbn [closest] in Hacc.
        -- apply le_trans with bestDistance; [apply lt_le, Ecloser|].
           apply (proj2 Hacc d' r' H).
        -- destruct Hacc as [_ Hnil]. fold candidate in H.
           rewrite Hnil in H. destruct H.
      * injection H as <- _. apply le_refl, Hd.
  - (* the best one stays *)
    destruct (distance <=? Num maxKm)%num eqn:Hin;
      [|rewrite app_nil_r; exact Hacc].
    destruct bestResult as [r|]; cbn [closest] in *.
    + destruct Hacc as [Hbest Hmin]. split.
      * apply in_or_app. left. exact Hbest.
      * intros d' r' H. apply in_app_or in H as [H|[H|[]]].
        -- apply (Hmin d' r' H).
        -- injection H as <- _. apply not_lt_le; [| |exact Ecloser].
           ++ apply (le_not_NaN _ _ Hin).
           ++ apply (le_not_NaN _ _ (candidates_within l _ _ Hbest)).
    + destruct Hacc as [-> _].
      rewrite (le_Num_lt_Infinity _ _ Hin) in Ecloser. discriminate.
Qed.

Lemma foldl_closest (l prefix : list string)
    (acc : option SnowDepthResult * number) :
  closest (omap candidate prefix) acc ->
  closest (omap candidate (prefix ++ l)%list) (foldl step acc l).
Proof.
  revert prefix acc.
  induction l as [|seriesContent l IH]; intros prefix acc Hacc.
  - rewrite app_nil_r. exact Hacc.
  - cbn [foldl].
    replace (prefix ++ seriesContent :: l)%list
      with ((prefix ++ [seriesContent]) ++ l)%list
      by (rewrite <- app_assoc; reflexivity).
    apply IH, seriesStep_closest, Hacc.
Qed.

Lemma bestStation_closest (xmlText : string) :
  closest (stationCandidates xmlText userLat userLon (Num maxKm))
    (foldl step (None, Infinity) (match_series xmlText)).
Proof.
  apply (foldl_closest (match_series xmlText) [] (None, Infinity)).
  cbn. split; reflexivity.
Qed.

End StationSearch.

Section BoundingBoxSearch.

Context {rt : Runtime}.

Lemma searchStationsInRadius_world (lat lon radiusKm startTime endTime : number)
    (s : State) :
  let latDelta := (radiusKm / 111)%num in
  let lonDelta := (radiusKm / (111 * Math_cos (lat * Math_PI / 180)))%num in
  world (snd (searchStationsInRadius lat lon radiusKm startTime endTime s)) =
  snd (fetch (FmiSnowByBbox (lon - lonDelta) (lat - latDelta)
                (lon + lonDelta) (lat + latDelta) startTime endTime)
         (world s)).
Proof.
  cbv zeta. unfold searchStationsInRadius, try_catch.
  unfold bind at 1. unfold await_fetch.
  destruct (fetch _ (world s)) as [[response|] w]; [|reflexivity].
  destruct (resp_ok response); [|reflexivity]. cbn [negb].
  unfold bind at 1, await.
  destruct (resp_text response) as [xmlText|]; [|reflexivity].
  unfold ret at 1. unfold bind at 1.
  destruct (parseTimeValuePairSnowResponse_returns xmlText lat lon radiusKm
              (mkState (geocodeCache s) w)) as (r & s1 & E & _).
  rewrite E.
  assert (Hw : world s1 = w).
  { revert E. unfold parseTimeValuePairSnowResponse, getMockSnowDepthResult,
      bind, new_Date, ret.
    destruct bestStation; intros E; injection E as _ <-; reflexivity. }
  destruct (negb (truthy_name (stationName r))); cbn; exact Hw.
Qed.

Lemma searchStationsInRadius_selects (lat lon radiusKm startTime endTime : number)
    (s : State) (response : Response) (w : World) (xmlText : string) :
  let latDelta := (radiusKm / 111)%num in
  let lonDelta := (radiusKm / (111 * Math_cos (lat * Math_PI / 180)))%num in
  fetch (FmiSnowByBbox (lon - lonDelta) (lat - latDelta)
           (lon + lonDelta) (lat + latDelta) startTime endTime)
    (world s) = (Some response, w) ->
  resp_ok response = true ->
  resp_text response = Some xmlText ->
  fst (searchStationsInRadius lat lon radiusKm startTime endTime s) =
  Ok match bestStation xmlText lat lon radiusKm with
     | Some r => if truthy_name (stationName r) then Some r else None
     | None => None
     end.
Proof.
  cbv zeta. intros Efetch Eok Etext.
  unfold searchStationsInRadius, try_catch.
  unfold bind at 1. unfold await_fetch. rewrite Efetch, Eok. cbn [negb].
  unfold bind at 1, await. rewrite Etext. unfold ret at 1.
  unfold bind at 1, parseTimeValuePairSnowResponse.
  destruct (bestStation xmlText lat lon radiusKm) as [r|].
  - unfold ret at 1. destruct (truthy_name (stationName r)); reflexivity.
  - unfold getMockSnowDepthResult, bind, new_Date, ret. reflexivity.
Qed.

(** C7: the bounding box of a search of radius [radiusKm] around
    [(lat, lon)] reaches [radiusKm / 111] degrees of latitude and
    [radiusKm / (111 * cos(lat in radians))] degrees of longitude to each
    side; of the stations of the response that lie within the radius and
    have a valid measurement, the search takes one at the smallest
    distance, wherever it stands in the response. *)
Theorem nearest_station_in_bbox (lat lon radiusKm startTime endTime : number)
    (s : State) (xmlText : string) (maxKm : Q) :
  let latDelta := (radiusKm / 111)%num in
  let lonDelta := (radiusKm / (111 * Math_cos (lat * Math_PI / 180)))%num in
  let request :=
    FmiSnowByBbox (lon - lonDelta) (lat - latDelta)
      (lon + lonDelta) (lat + latDelta) startTime endTime in
  world (snd (searchStationsInRadius lat lon radiusKm startTime endTime s)) =
    snd (fetch request (world s)) /\
  (forall response w body,
     fetch request (world s) = (Some response, w) ->
     resp_ok response = true ->
     resp_text response = Some body ->
     fst (searchStationsInRadius lat lon radiusKm startTime endTime s) =
     Ok match bestStation body lat lon radiusKm with
        | Some r => if truthy_name (stationName r) then Some r else None
        | None => None
        end) /\
  let candidates := stationCandidates xmlText lat lon (Num maxKm) in
  match bestStation xmlText lat lon (Num maxKm) with
  | Some r =>
      exists d,
        In (d, r) candidates /\
        forall d' r', In (d', r') candidates -> (d <=? d')%num = true
  | None => candidates = []
  end.
Proof.
  cbv zeta.
  split; [apply searchStationsInRadius_world|].
  split; [intros response w body; apply searchStationsInRadius_selects|].
  pose proof (bestStation_closest lat lon maxKm xmlText) as H.
  unfold bestStation.
  destruct (foldl _ _ _) as [[r|] bestDistance]; cbn [fst closest] in *.
  - exists bestDistance. exact H.
  - exact (proj2 H).
Qed.

End BoundingBoxSearch.

(** ** Degradation to the seasonal estimate *)

Section Unavailable.

Context {rt : Runtime}.

(** No request gets an [ok] answer: it is rejected or answered with an
    HTTP error status. *)
Hypothesis unavailable :
  forall req w,
    match fst (fetch req w) with
    | Some response => resp_ok response = false
    | None => True
    end.

Lemma fetchSnowFromStation_unavailable (fmisid stationName : string)
    (userLat userLon startTime endTime : number)
    (stationLat stationLon : option number) :
  returns (fetchSnowFromStation fmisid stationName userLat userLon
             startTime endTime stationLat stationLon)
    (fun r => r = None).
Proof.
  intros s. unfold fetchSnowFromStation, try_catch.
  unfold bind at 1. unfold await_fetch.
  pose proof (unavailable (FmiSnowByStation fmisid startTime endTime) (world s)) as H.
  destruct (fetch _ (world s)) as [[response|] w]; cbn [fst] in H.
  - rewrite H. eexists _, _. split; reflexivity.
  - eexists _, _. split; reflexivity.
Qed.

Lemma searchStationsInRadius_unavailable
    (lat lon radiusKm startTime endTime : number) :
  returns (searchStationsInRadius lat lon radiusKm startTime endTime)
    (fun r => r = None).
Proof.
  intros s. unfold searchStationsInRadius, try_catch.
  unfold bind at 1. unfold await_fetch.
  match goal with
  | |- context [fetch ?req (world s)] =>
      pose proof (unavailable req (world s)) as H;
      destruct (fetch req (world s)) as [[response|] w]; cbn [fst] in H
  end.
  - rewrite H. eexists _, _. split; reflexivity.
  - eexists _, _. split; reflexivity.
Qed.

Lemma tryStations_unavailable (stations : list Station)
    (lat lon startTime endTime : number) :
  returns (tryStations stations lat lon startTime endTime) (fun r => r = None).
Proof.
  induction stations as [|station rest IH]; cbn [tryStations].
  - apply returns_ret. reflexivity.
  - eapply returns_bind; [apply fetchSnowFromStation_unavailable|].
    intros r ->. exact IH.
Qed.

Lemma trySearchRadii_unavailable (searchRadii : list number)
    (lat lon startTime endTime : number) :
  returns (trySearchRadii searchRadii lat lon startTime endTime)
    (fun r => r = None).
Proof.
  induction searchRadii as [|radiusKm rest IH]; cbn [trySearchRadii].
  - apply returns_ret. reflexivity.
  - eapply returns_bind; [apply searchStationsInRadius_unavailable|].
    intros r ->. exact IH.
Qed.

Lemma getSnowDepthWithStationInfo_unavailable (lat lon : number)
    (postalCode : option string) :
  returns (getSnowDepthWithStationInfo lat lon postalCode)
    (fun r => stationName r = None /\ stationDistance r = None /\
              updatedAt r = None /\
              exists month, depth r = mockBaseDepth lat month).
Proof.
  unfold getSnowDepthWithStationInfo.
  apply (returns_bind _ _ (fun _ => True)); [auto with returns|].
  intros now _.
  apply returns_orElse.
  { destruct inKilpisjarviArea.
    - eapply returns_weaken; [apply tryStations_unavailable|].
      intros r -> a; discriminate.
    - apply returns_ret. discriminate. }
  apply returns_orElse.
  { destruct inInariIvaloArea.
    - eapply returns_weaken; [apply tryStations_unavailable|].
      intros r -> a; discriminate.
    - apply returns_ret. discriminate. }
  apply returns_orElse.
  { eapply returns_weaken; [apply trySearchRadii_unavailable|].
    intros r -> a; discriminate. }
  apply getMockSnowDepthResult_returns.
Qed.

End Unavailable.

(** ** Answers of the route *)

Section RouteAnswers.

Context {rt : Runtime}.

(** C6: the route never throws and never answers with its own error
    reply: it answers 404 [postal_code_not_found] when the postal code
    cannot be resolved and 200 with the snow data otherwise.  Each tier
    below it returns whatever its upstream does, and when no request gets
    an [ok] answer the station locator ends at the seasonal estimate. *)
Theorem route_never_throws (postalCode : string) (threshold : option string)
    (s : State) :
  (exists postalInfo s1 reply s',
     getPostalCodeInfo postalCode s = (Ok postalInfo, s1) /\
     snowDataRoute postalCode threshold s = (Ok reply, s') /\
     match postalInfo with
     | None => reply = notFoundReply
     | Some info =>
         exists data, reply = ReplyData 200 data /\ sd_city data = pc_city info
     end) /\
  returns (geocodePostalCode postalCode) (fun _ => True) /\
  (forall fmisid name lat lon startTime endTime stationLat stationLon,
     returns (fetchSnowFromStation fmisid name lat lon startTime endTime
                stationLat stationLon) (fun _ => True)) /\
  (forall lat lon radiusKm startTime endTime,
     returns (searchStationsInRadius lat lon radiusKm startTime endTime)
       (fun _ => True)) /\
  (forall lat lon code,
     returns (getSnowDepthWithStationInfo lat lon code) (fun _ => True)) /\
  (forall lat lon userThreshold,
     returns (getSnowForecastWithThawWarning lat lon userThreshold)
       (fun _ => True)) /\
  ((forall req w,
      match fst (fetch req w) with
      | Some response => resp_ok response = false
      | None => True
      end) ->
   forall lat lon code,
     returns (getSnowDepthWithStationInfo lat lon code)
       (fun r => stationName r = None /\ stationDistance r = None /\
                 updatedAt r = None /\
                 exists month, depth r = mockBaseDepth lat month)).
Proof.
  split.
  { destruct (snowDataRoute_outcome postalCode threshold s)
      as (postalInfo & s1 & reply & s' & E1 & E2 & H).
    exists postalInfo, s1, reply, s'. split; [exact E1|]. split; [exact E2|].
    destruct postalInfo as [info|]; [|exact H].
    destruct H as (data & Hreply & Hcity & _). exists data. split; assumption. }
  split; [apply geocodePostalCode_returns|].
  split; [intros; apply fetchSnowFromStation_returns|].
  split; [intros; apply searchStationsInRadius_returns|].
  split; [intros; apply getSnowDepthWithStationInfo_returns|].
  split.
  { intros. eapply returns_weaken;
      [apply getSnowForecastWithThawWarning_returns | auto]. }
  intros Hdown lat lon code.
  apply getSnowDepthWithStationInfo_unavailable, Hdown.
Qed.

Lemma snowDataRoute_unresolved (postalCode : string)
    (threshold : option string) (s s1 : State) :
  getPostalCodeInfo postalCode s = (Ok None, s1) ->
  snowDataRoute postalCode threshold s = (Ok notFoundReply, s1).
Proof.
  intros E. unfold snowDataRoute, try_catch. unfold bind at 1.
  rewrite E. reflexivity.
Qed.

Lemma snowDataRoute_resolved (postalCode : string) (threshold : option string)
    (s s1 : State) (info : PostalCodeInfo) :
  getPostalCodeInfo postalCode s = (Ok (Some info), s1) ->
  exists snowResult s2 forecastResult s3 updatedAgo,
    getSnowDepthWithStationInfo (pc_lat info) (pc_lon info) (Some postalCode) s1 =
      (Ok snowResult, s2) /\
    getSnowForecastWithThawWarning (pc_lat info) (pc_lon info)
      (userThresholdOf threshold) s2 = (Ok forecastResult, s3) /\
    hasThawConditions forecastResult =
      (0 <? length (thawConditions forecastResult))%nat /\
    let currentLoad := currentLoadOf (depth snowResult) in
    let userThreshold := userThresholdOf threshold in
    let percentage := percentageOf currentLoad userThreshold in
    let distanceFromKuopio :=
      calculateDistance (pc_lat info) (pc_lon info)
        (fst KUOPIO_CENTER) (snd KUOPIO_CENTER) in
    snowDataRoute postalCode threshold s =
      (Ok (ReplyData 200
             (mkSnowData currentLoad (depth snowResult) userThreshold
                (fst (statusOf percentage)) (snd (statusOf percentage))
                (forecast forecastResult)
                (pc_city info)
                (JS.Math_round distanceFromKuopio)
                (distanceFromKuopio <=? 80)%num
                (showHeavyWetSnowWarningOf currentLoad userThreshold
                   (hasThawConditions forecastResult))
                (thawConditions forecastResult)
                (mkStationInfo (stationName snowResult)
                   (stationDistance snowResult) updatedAgo))),
       s3).
Proof.
  intros E1.
  destruct (getSnowDepthWithStationInfo_returns (pc_lat info) (pc_lon info)
              (Some postalCode) s1) as (snowResult & s2 & E2 & _).
  destruct (getSnowForecastWithThawWarning_returns (pc_lat info) (pc_lon info)
              (userThresholdOf threshold) s2)
    as (forecastResult & s3 & E3 & _ & Hthaw).
  exists snowResult, s2, forecastResult, s3.
  exists match updatedAt snowResult with
         | Some t => Some (updatedAgoOf (clock (world s3)) t)
         | None => None
         end.
  split; [exact E2|]. split; [exact E3|]. split; [exact Hthaw|].
  cbv zeta. unfold snowDataRoute, try_catch.
  unfold bind at 1. rewrite E1. cbv zeta.
  unfold bind at 1. rewrite E2.
  destruct (statusOf _) as [status statusText]. cbn [fst snd].
  unfold bind at 1. rewrite E3.
  destruct (updatedAt snowResult); reflexivity.
Qed.

(** C3: for every request whose postal code is resolved the route
    answers 200 with data in which the load is the rounded depth times
    2.5, the threshold the one of the request, and the heavy wet snow
    warning is set exactly when the load is at least 60 % of the threshold
    and the forecast engine, called for the place, reports a
    thaw-condition day; an unresolved postal code is answered 404.  Load
    90 against threshold 140 warns with a thaw day and not without, load
    80 against 140 does not warn even with thaw days. *)
Theorem heavy_wet_snow_warning (postalCode : string) (threshold : option string)
    (s : State) :
  (exists postalInfo s1,
     getPostalCodeInfo postalCode s = (Ok postalInfo, s1) /\
     match postalInfo with
     | None => snowDataRoute postalCode threshold s = (Ok notFoundReply, s1)
     | Some info =>
         exists snowResult s2 forecastResult s3 data,
           getSnowDepthWithStationInfo (pc_lat info) (pc_lon info)
             (Some postalCode) s1 = (Ok snowResult, s2) /\
           getSnowForecastWithThawWarning (pc_lat info) (pc_lon info)
             (userThresholdOf threshold) s2 = (Ok forecastResult, s3) /\
           snowDataRoute postalCode threshold s = (Ok (ReplyData 200 data), s3) /\
           sd_currentLoad data = currentLoadOf (depth snowResult) /\
           sd_threshold data = userThresholdOf threshold /\
           sd_thawConditions data = thawConditions forecastResult /\
           (sd_heavyWetSnowWarning data = true <->
            (sd_currentLoad data / sd_threshold data * 100 >=? 60)%num = true /\
            hasThawConditions forecastResult = true) /\
           (hasThawConditions forecastResult = true <->
            thawConditions forecastResult <> [])
     end) /\
  (forall hasThaw (load thresholdKg : number),
     showHeavyWetSnowWarningOf load thresholdKg hasThaw = true <->
     (load / thresholdKg * 100 >=? 60)%num = true /\ hasThaw = true) /\
  showHeavyWetSnowWarningOf 90 140 true = true /\
  showHeavyWetSnowWarningOf 90 140 false = false /\
  showHeavyWetSnowWarningOf 80 140 true = false.
Proof.
  split.
  { destruct (getPostalCodeInfo_returns postalCode s) as (postalInfo & s1 & E1 & _).
    exists postalInfo, s1. split; [exact E1|].
    destruct postalInfo as [info|].
    - destruct (snowDataRoute_resolved postalCode threshold s s1 info E1)
        as (snowResult & s2 & forecastResult & s3 & updatedAgo & E2 & E3 & Hthaw & E).
      cbv zeta in E.
      eexists snowResult, s2, forecastResult, s3, _.
      split; [exact E2|]. split; [exact E3|]. split; [exact E|].
      cbn [sd_currentLoad sd_threshold sd_thawConditions sd_heavyWetSnowWarning].
      split; [reflexivity|]. split; [reflexivity|]. split; [reflexivity|].
      split.
      + unfold showHeavyWetSnowWarningOf. apply andb_true_iff.
      + rewrite Hthaw.
        destruct (thawConditions forecastResult); cbn;
          split; congruence.
    - apply snowDataRoute_unresolved, E1. }
  split.
  { intros. unfold showHeavyWetSnowWarningOf. apply andb_true_iff. }
  repeat split.
Qed.

(** C10: without a [threshold] query parameter the threshold is 140:
    for every request without it whose postal code is resolved the route
    answers 200 with data whose threshold is 140, the forecast engine is
    called with 140, and the status and the heavy wet snow warning are
    computed from the percentage of the load against 140; an unresolved
    postal code is answered 404. *)
Theorem default_threshold (postalCode : string) (s : State) :
  userThresholdOf None = 140%num /\
  exists postalInfo s1,
    getPostalCodeInfo postalCode s = (Ok postalInfo, s1) /\
    match postalInfo with
    | None => snowDataRoute postalCode None s = (Ok notFoundReply, s1)
    | Some info =>
        exists snowResult s2 forecastResult s3 data,
          getSnowDepthWithStationInfo (pc_lat info) (pc_lon info)
            (Some postalCode) s1 = (Ok snowResult, s2) /\
          getSnowForecastWithThawWarning (pc_lat info) (pc_lon info) 140 s2 =
            (Ok forecastResult, s3) /\
          snowDataRoute postalCode None s = (Ok (ReplyData 200 data), s3) /\
          let percentage := (currentLoadOf (depth snowResult) / 140 * 100)%num in
          sd_currentLoad data = currentLoadOf (depth snowResult) /\
          sd_threshold data = 140%num /\
          (sd_status data, sd_statusText data) = statusOf percentage /\
          sd_heavyWetSnowWarning data =
            (percentage >=? 60)%num && hasThawConditions forecastResult
    end.
Proof.
  split; [reflexivity|].
  destruct (getPostalCodeInfo_returns postalCode s) as (postalInfo & s1 & E1 & _).
  exists postalInfo, s1. split; [exact E1|].
  destruct postalInfo as [info|].
  - destruct (snowDataRoute_resolved postalCode None s s1 info E1)
      as (snowResult & s2 & forecastResult & s3 & updatedAgo & E2 & E3 & _ & E).
    cbv zeta in E. cbn [userThresholdOf] in E2, E3, E.
    eexists snowResult, s2, forecastResult, s3, _.
    split; [exact E2|]. split; [exact E3|]. split; [exact E|].
    cbv zeta.
    cbn [sd_currentLoad sd_threshold sd_status sd_statusText
         sd_heavyWetSnowWarning].
    split; [reflexivity|]. split; [reflexivity|].
    split; [|reflexivity].
    unfold percentageOf. destruct (statusOf _); reflexivity.
  - apply snowDataRoute_unresolved, E1.
Qed.

End RouteAnswers.

(** ** Concrete runs *)

Lemma season_banding_and_fallback_temp_witness :
  (0 <= 3 <= 11)%Z /\
  (mockIsWinter 3 = true <-> In 3%Z winterMonths) /\
  (fallbackIsWinter 3 = true <-> In 3%Z (winterMonths ++ [3%Z])).
Proof.
  split; [lia|].
  destruct (@season_banding_and_fallback_temp Fixture.runtime 3 ltac:(lia))
    as (Hmock & Hfallback & _).
  split; [exact Hmock | exact Hfallback].
Defined.

(** The maximum compared with 1 is the rounded one: a day whose warmest
    sample is 0.9 has [maxTemp = 1]. *)
Example rounded_maximum_meets_threshold :
  dayMaxTemp (mkDayData [0.9%num] [5%num] []) = 1%num /\
  isThawCondition (dayMaxTemp (mkDayData [0.9%num] [5%num] []))
    (dayTotalPrecip (mkDayData [0.9%num] [5%num] [])) = true.
Proof. split; reflexivity. Qed.

(** C4 as stated fails, whether the maximum temperature and the total
    precipitation of a day are read as those of its samples or as those
    the forecast shows.  A day whose warmest sample is 0.9, with 5 mm, is
    recorded as a thaw condition although 0.9 is below 1; a day shown
    with maximum 1 and 5 mm, whose samples sum to 4.96 mm, is not
    recorded. *)
Lemma thaw_detection_not_on_day_values :
  ~ (forall (dailyData : gmap string DayData) (dayData : DayData),
       dailyData !! "d1" = Some dayData ->
       temps dayData <> [] ->
       (In "d1" (map thaw_date
                   (loop_thawConditions
                      (@buildForecast Fixture.runtime 61 0 dailyData 0))) <->
        (JS.Math_max (temps dayData) >=? 1)%num = true /\
        (JS.sum (precip dayData) >=? 5)%num = true)) /\
  ~ (forall (dailyData : gmap string DayData) (d : ForecastDay),
       let final := @buildForecast Fixture.runtime 61 0 dailyData 0 in
       In d (loop_forecast final) ->
       (In (fd_date d) (map thaw_date (loop_thawConditions final)) <->
        (fd_maxTemp d >=? 1)%num = true /\
        (fd_precipAmount d >=? 5)%num = true)).
Proof.
  split.
  - intros H.
    destruct (H {[ "d1" := mkDayData [0.9]%num [5]%num [] ]}
                (mkDayData [0.9]%num [5]%num []))
      as [Hrecorded _].
    + apply lookup_singleton_eq.
    + discriminate.
    + assert (Hin : In "d1"
                      (map thaw_date
                         (loop_thawConditions
                            (@buildForecast Fixture.runtime 61 0
                               {[ "d1" := mkDayData [0.9]%num [5]%num [] ]} 0))))
        by (vm_compute; left; reflexivity).
      destruct (Hrecorded Hin) as [Hmax _]. vm_compute in Hmax.
      discriminate Hmax.
  - intros H.
    set (dailyData := {[ "d1" := mkDayData [1]%num [4.96]%num [] ]}
                      : gmap string DayData).
    assert (Hd : exists d,
               In d (loop_forecast
                       (@buildForecast Fixture.runtime 61 0 dailyData 0)) /\
               (fd_maxTemp d >=? 1)%num = true /\
               (fd_precipAmount d >=? 5)%num = true /\
               ~ In (fd_date d)
                   (map thaw_date
                      (loop_thawConditions
                         (@buildForecast Fixture.runtime 61 0 dailyData 0)))).
    { vm_compute. eexists. split; [left; reflexivity|].
      split; [reflexivity|]. split; [reflexivity|]. intros []. }
    destruct Hd as (d & Hin & Hmax & Hprecip & Hnot).
    apply Hnot. apply (H dailyData d Hin). split; assumption.
Qed.

(** Without a network, a postal code of the static table is answered
    from the seasonal tables. *)
Example offline_route_degrades :
  exists data,
    fst (@snowDataRoute Fixture.offline "00100" None (@mkState Fixture.offline ∅ tt)) =
      Ok (ReplyData 200 data) /\
    sd_city data = "Helsinki" /\
    si_name (sd_stationInfo data) = None /\
    sd_snowDepth data = mockBaseDepth 60.1699 0 /\
    sd_threshold data = 140%num /\
    sd_status data = safe /\
    length (sd_forecast data) = 3%nat.
Proof. eexists. vm_compute. repeat split. Qed.

(** Without a network, an unknown postal code is not found. *)
Example offline_route_not_found :
  fst (@snowDataRoute Fixture.offline "12345" (Some "140") (@mkState Fixture.offline ∅ tt)) =
  Ok notFoundReply.
Proof. vm_compute. reflexivity. Qed.

(** A station at depth 36 gives load 90; with threshold 140 and a forecast
    whose first day has temperatures 1 and 0 and precipitation 2 + 3, the
    route warns of heavy wet snow. *)
Example route_warns_of_heavy_wet_snow :
  let observation := Fixture.okText "Kilpis;69 21;snow;d1=36" in
  let forecastBody :=
    Fixture.okText
      "t;1 1;temperature;d1=1;d1=0;d2=3|p;1 1;precipitation;d1=2;d1=3;d2=1" in
  exists data,
    fst (@snowDataRoute Fixture.runtime "99100" (Some "140")
           (Fixture.start [observation; forecastBody; observation])) =
      Ok (ReplyData 200 data) /\
    sd_currentLoad data = 90%num /\
    sd_heavyWetSnowWarning data = true /\
    map thaw_date (sd_thawConditions data) = ["d1"] /\
    map fd_precipType (sd_forecast data) = [sleet; rain; none].
Proof. eexists. vm_compute. repeat split. Qed.

(** A forecast body with a sample at an invalid date makes the parser
    throw; the engine answers with the fallback forecast. *)
Example unparseable_forecast_falls_back :
  let s := Fixture.start [Fixture.okText "t;1 1;temperature;d1=1;dx=0"] in
  exists r,
    fst (@getSnowForecastWithThawWarning Fixture.runtime 61 25 140 s) = Ok r /\
    forecast r = @getFallbackForecast Fixture.runtime 61 0 dayNames /\
    hasThawConditions r = false.
Proof. eexists. vm_compute. repeat split. Qed.

(** The closer station wins although it comes second in the response;
    a series without a valid measurement is passed over. *)
Example second_station_is_selected :
  let body :=
    "far;60 30;snow;d1=10|near;60 25;snow;d1=20|nearest;60 24;snow;d1=x" in
  option_map stationName
    (@bestStation Fixture.runtime body 60 24 1000000000) = Some (Some "near") /\
  map (fun c => stationName (snd c))
    (@stationCandidates Fixture.runtime body 60 24 1000000000) =
  [Some "far"; Some "near"].
Proof. vm_compute. split; reflexivity. Qed.

(** A search of 25 km around (60, 24) sends one request, for the box
    that reaches [25 / 111] degrees north and south and
    [25 / (111 * cos)] degrees east and west. *)
Example search_sends_bounding_box :
  Fixture.sent
    (world (snd (@searchStationsInRadius Fixture.runtime 60 24 25 0 7
                   (Fixture.start [])))) =
  [FmiSnowByBbox (24 - 25 / (111 * 1)) (60 - 25 / 111)
     (24 + 25 / (111 * 1)) (60 + 25 / 111) 0 7]%num.
Proof. reflexivity. Qed.

(** Without a network no request gets an [ok] answer, and the station
    locator ends at the seasonal estimate. *)
Lemma route_never_throws_witness :
  (forall req w,
     match fst (@fetch Fixture.offline req w) with
     | Some response => resp_ok response = false
     | None => True
     end) /\
  @returns Fixture.offline _
    (@getSnowDepthWithStationInfo Fixture.offline 61 25 None)
    (fun r => stationName r = None /\ stationDistance r = None /\
              updatedAt r = None /\
              exists month, depth r = mockBaseDepth 61 month).
Proof.
  split; [intros req w; exact I|].
  destruct (@route_never_throws Fixture.offline "00100" None
              (@mkState Fixture.offline ∅ tt))
    as (_ & _ & _ & _ & _ & _ & Hdown).
  apply Hdown. intros req w. exact I.
Defined.

(** A rejected forecast request is answered with the fallback forecast. *)
Lemma forecast_has_three_days_witness :
  let s := @mkState Fixture.offline ∅ tt in
  @upstreamForecast Fixture.offline 61 25 s = None /\
  exists r s',
    @getSnowForecastWithThawWarning Fixture.offline 61 25 140 s = (Ok r, s') /\
    length (forecast r) = 3%nat /\
    forecast r = @getFallbackForecast Fixture.offline 61 0 dayNames.
Proof.
  cbv zeta. split; [reflexivity|].
  destruct (@forecast_has_three_days Fixture.offline 61 25 140
              (@mkState Fixture.offline ∅ tt))
    as (r & s' & E & Hlen & Hfallback).
  exists r, s'. split; [exact E|]. split; [exact Hlen|].
  apply Hfallback. reflexivity.
Defined.

(** An [ok] answer with two stations: the search returns the closer one,
    which comes second. *)
Lemma nearest_station_in_bbox_witness :
  let body := "far;60 30;snow;d1=10|near;60 25;snow;d1=20" in
  let s := Fixture.start [Fixture.okText body] in
  exists r,
    fst (@searchStationsInRadius Fixture.runtime 60 24 1000000000 0 7 s) =
      Ok (Some r) /\
    stationName r = Some "near".
Proof.
  cbv zeta.
  destruct (@nearest_station_in_bbox Fixture.runtime 60 24 1000000000 0 7
              (Fixture.start
                 [Fixture.okText "far;60 30;snow;d1=10|near;60 25;snow;d1=20"])
              "" 0%Q)
    as (_ & Hselect & _).
  eexists. split.
  - rewrite (Hselect _ _ _ eq_refl eq_refl eq_refl). vm_compute. reflexivity.
  - reflexivity.
Defined.

(** * Further properties *)

(** ** The geocode cache *)

Section GeocodeCache.

Context {rt : Runtime}.

(** What a call of [geocodePostalCode] does to the state: a cached
    postal code is answered from the cache and nothing changes; otherwise
    the answer is stored under the postal code. *)
Lemma geocodePostalCode_cache (postalCode : string) (s : State) :
  exists r w,
    geocodePostalCode postalCode s =
      (Ok r,
       mkState
         match geocodeCache s !! postalCode with
         | Some _ => geocodeCache s
         | None => <[postalCode := r]> (geocodeCache s)
         end
         w) /\
    forall v, geocodeCache s !! postalCode = Some v -> r = v /\ w = world s.
Proof.
  unfold geocodePostalCode. unfold bind at 1. unfold cache_get at 1.
  destruct (geocodeCache s !! postalCode) as [v|] eqn:Ecache.
  { exists v, (world s). destruct s. split; [reflexivity|].
    intros v' Hv. injection Hv as <-. split; reflexivity. }
  unfold try_catch. unfold bind at 1. unfold await_fetch.
  destruct (fetch _ (world s)) as [[response|] w]; cbn [geocodeCache world];
    [|eexists _, _; split; [reflexivity | discriminate]].
  destruct (resp_ok response); cbn [negb];
    [|eexists _, _; split; [reflexivity | discriminate]].
  unfold bind at 1, await.
  destruct (resp_json response) as [[|[result|]]|];
    try (eexists _, _; split; [reflexivity | discriminate]).
  unfold ret at 1, property_of, ret at 1, bind at 1, lift, bind at 1.
  destruct (cityOfDisplayName (cand_display_name result)) as [city|];
    eexists _, _; (split; [reflexivity | discriminate]).
Qed.

(** X1: a second lookup of the same postal code gives the answer of the
    first, found or not found, and leaves the state as it is: it sends
    no request. *)
Theorem getPostalCodeInfo_second_lookup (postalCode : string) (s : State) :
  let first := getPostalCodeInfo postalCode s in
  getPostalCodeInfo postalCode (snd first) = first.
Proof.
  cbv zeta. unfold getPostalCodeInfo.
  destruct (postalCodeMap !! postalCode) as [info|]; [reflexivity|].
  destruct (geocodePostalCode_cache postalCode s) as (r & w & E & H).
  rewrite E. cbn [snd].
  match goal with
  | |- geocodePostalCode postalCode ?s1 = _ =>
      destruct (geocodePostalCode_cache postalCode s1) as (r' & w' & E' & H')
  end.
  rewrite E'. cbn [geocodeCache world] in *.
  destruct (geocodeCache s !! postalCode) as [v|] eqn:Ecache.
  - rewrite Ecache in *.
    destruct (H v eq_refl) as [-> ->]. destruct (H' v eq_refl) as [-> ->].
    reflexivity.
  - rewrite lookup_insert_eq in *.
    destruct (H' r eq_refl) as [-> ->]. reflexivity.
Qed.

Lemma cache_step_refl (postalCode : string) (s : State) :
  cache_step postalCode s s.
Proof. left. reflexivity. Qed.

Lemma cache_step_trans (postalCode : string) (s1 s2 s3 : State) :
  cache_step postalCode s1 s2 -> cache_step postalCode s2 s3 ->
  cache_step postalCode s1 s3.
Proof.
  intros [E12|(Hnone & v & E12)] [E23|(Hnone' & v' & E23)].
  - left. congruence.
  - right. rewrite E12 in *. eauto.
  - right. rewrite E23. eauto.
  - rewrite E12, lookup_insert_eq in Hnone'. discriminate.
Qed.

Lemma keeps_cache_ret {A : Type} (postalCode : string) (a : A) :
  keeps_cache postalCode (ret a).
Proof. intros s. apply cache_step_refl. Qed.

Lemma keeps_cache_bind {A B : Type} (postalCode : string) (m : M A)
    (k : A -> M B) :
  keeps_cache postalCode m -> (forall a, keeps_cache postalCode (k a)) ->
  keeps_cache postalCode (bind m k).
Proof.
  intros Hm Hk s. specialize (Hm s). unfold bind.
  destruct (m s) as [[a|] s1]; cbn [snd] in *; [|exact Hm].
  eapply cache_step_trans; [exact Hm | apply Hk].
Qed.

Lemma keeps_cache_try_catch {A : Type} (postalCode : string)
    (body handler : M A) :
  keeps_cache postalCode body -> keeps_cache postalCode handler ->
  keeps_cache postalCode (try_catch body handler).
Proof.
  intros Hb Hh s. specialize (Hb s). unfold try_catch.
  destruct (body s) as [[a|] s1]; cbn [snd] in *; [exact Hb|].
  eapply cache_step_trans; [exact Hb | apply Hh].
Qed.

Lemma keeps_cache_await_fetch (postalCode : string) (req : Request) :
  keeps_cache postalCode (await_fetch req).
Proof.
  intros s. unfold await_fetch.
  destruct (fetch req (world s)) as [[response|] w]; left; reflexivity.
Qed.

Lemma keeps_cache_pure {A : Type} (postalCode : string) (m : M A) :
  (forall s, snd (m s) = s) -> keeps_cache postalCode m.
Proof. intros H s. rewrite H. apply cache_step_refl. Qed.

Lemma keeps_cache_geocodePostalCode (postalCode : string) :
  keeps_cache postalCode (geocodePostalCode postalCode).
Proof.
  intros s.
  destruct (geocodePostalCode_cache postalCode s) as (r & w & E & _).
  rewrite E. cbn [snd]. unfold cache_step. cbn [geocodeCache].
  destruct (geocodeCache s !! postalCode); [left; reflexivity|].
  right. split; [reflexivity|]. exists r. reflexivity.
Qed.

End GeocodeCache.

Create HintDb cache.

#[local] Hint Resolve keeps_cache_ret keeps_cache_await_fetch
  keeps_cache_geocodePostalCode : cache.

#[local] Hint Extern 2 (keeps_cache _ (await _)) =>
  apply keeps_cache_pure; intros ?; unfold await, ret, throw;
  match goal with |- context [match ?o with _ => _ end] => destruct o end;
  reflexivity : cache.

Section RouteCache.

Context {rt : Runtime}.

Variable postalCode : string.

Lemma keeps_cache_new_Date : keeps_cache postalCode new_Date.
Proof. apply keeps_cache_pure. reflexivity. Qed.

Lemma keeps_cache_getMockSnowDepthResult (lat : number) :
  keeps_cache postalCode (getMockSnowDepthResult lat).
Proof. apply keeps_cache_pure. reflexivity. Qed.

Lemma keeps_cache_fetchSnowFromStation (fmisid stationName : string)
    (userLat userLon startTime endTime : number)
    (stationLat stationLon : option number) :
  keeps_cache postalCode
    (fetchSnowFromStation fmisid stationName userLat userLon
       startTime endTime stationLat stationLon).
Proof.
  unfold fetchSnowFromStation.
  apply keeps_cache_try_catch; [|auto with cache].
  apply keeps_cache_bind; [auto with cache|]. intros response.
  destruct (negb (resp_ok response)); [auto with cache|].
  apply keeps_cache_bind; [auto with cache|]. intros xmlText.
  match goal with
  | |- keeps_cache _ (let '(_, _) := ?e in _) =>
      destruct e as [finalStationLat finalStationLon]
  end.
  destruct (latestMeasurement xmlText) as [[t|] [v|]]; auto with cache.
Qed.

Lemma keeps_cache_searchStationsInRadius
    (lat lon radiusKm startTime endTime : number) :
  keeps_cache postalCode
    (searchStationsInRadius lat lon radiusKm startTime endTime).
Proof.
  unfold searchStationsInRadius. cbv zeta.
  apply keeps_cache_try_catch; [|auto with cache].
  apply keeps_cache_bind; [auto with cache|]. intros response.
  destruct (negb (resp_ok response)); [auto with cache|].
  apply keeps_cache_bind; [auto with cache|]. intros xmlText.
  apply keeps_cache_bind.
  - unfold parseTimeValuePairSnowResponse.
    destruct bestStation;
      [auto with cache | apply keeps_cache_getMockSnowDepthResult].
  - intros result. destruct (negb _); auto with cache.
Qed.

Lemma keeps_cache_tryStations (stations : list Station)
    (lat lon startTime endTime : number) :
  keeps_cache postalCode (tryStations stations lat lon startTime endTime).
Proof.
  induction stations as [|station rest IH]; cbn [tryStations];
    [auto with cache|].
  apply keeps_cache_bind; [apply keeps_cache_fetchSnowFromStation|].
  intros [r|]; [auto with cache | exact IH].
Qed.

Lemma keeps_cache_trySearchRadii (searchRadii : list number)
    (lat lon startTime endTime : number) :
  keeps_cache postalCode (trySearchRadii searchRadii lat lon startTime endTime).
Proof.
  induction searchRadii as [|radiusKm rest IH]; cbn [trySearchRadii];
    [auto with cache|].
  apply keeps_cache_bind; [apply keeps_cache_searchStationsInRadius|].
  intros [r|]; [|exact IH].
  destruct (truthy_name (stationName r)); [auto with cache | exact IH].
Qed.

Lemma keeps_cache_orElse {A : Type} (attempt : M (option A)) (next : M A) :
  keeps_cache postalCode attempt -> keeps_cache postalCode next ->
  keeps_cache postalCode (orElse attempt next).
Proof.
  intros Ha Hn. unfold orElse. apply keeps_cache_bind; [exact Ha|].
  intros [a|]; [auto with cache | exact Hn].
Qed.

Lemma keeps_cache_getSnowDepthWithStationInfo (lat lon : number)
    (code : option string) :
  keeps_cache postalCode (getSnowDepthWithStationInfo lat lon code).
Proof.
  unfold getSnowDepthWithStationInfo.
  apply keeps_cache_bind; [apply keeps_cache_new_Date|]. intros now.
  repeat apply keeps_cache_orElse.
  - destruct inKilpisjarviArea; [apply keeps_cache_tryStations | auto with cache].
  - destruct inInariIvaloArea; [apply keeps_cache_tryStations | auto with cache].
  - apply keeps_cache_trySearchRadii.
  - apply keeps_cache_getMockSnowDepthResult.
Qed.

Lemma keeps_cache_getSnowForecastWithThawWarning (lat lon threshold : number) :
  keeps_cache postalCode (getSnowForecastWithThawWarning lat lon threshold).
Proof.
  unfold getSnowForecastWithThawWarning.
  apply keeps_cache_bind; [apply keeps_cache_new_Date|]. intros today.
  cbv zeta.
  apply keeps_cache_try_catch; [|auto with cache].
  apply keeps_cache_bind; [auto with cache|]. intros response.
  destruct (negb (resp_ok response)); [auto with cache|].
  apply keeps_cache_bind; [auto with cache|]. intros xmlText.
  apply keeps_cache_bind; [apply keeps_cache_pure; reflexivity|].
  intros dailyData.
  destruct (size dailyData =? 0)%nat; [auto with cache|].
  apply keeps_cache_bind; [|auto with cache].
  unfold getSnowDepth.
  apply keeps_cache_bind;
    [apply keeps_cache_getSnowDepthWithStationInfo | auto with cache].
Qed.

Lemma keeps_cache_snowDataRoute (threshold : option string) :
  keeps_cache postalCode (snowDataRoute postalCode threshold).
Proof.
  unfold snowDataRoute.
  apply keeps_cache_try_catch; [|auto with cache].
  apply keeps_cache_bind.
  { unfold getPostalCodeInfo.
    destruct (postalCodeMap !! postalCode); auto with cache. }
  intros [postalInfo|]; [|auto with cache]. cbv zeta.
  apply keeps_cache_bind; [apply keeps_cache_getSnowDepthWithStationInfo|].
  intros snowResult. destruct (statusOf _) as [status statusText].
  apply keeps_cache_bind; [apply keeps_cache_getSnowForecastWithThawWarning|].
  intros forecastResult.
  apply keeps_cache_bind; [|auto with cache].
  destruct (updatedAt snowResult); [|auto with cache].
  apply keeps_cache_bind; [apply keeps_cache_new_Date | auto with cache].
Qed.


End RouteCache.

(** ** Selection of the latest measurement *)

Section Measurements.

Context {rt : Runtime}.

Lemma validMeasurement_range (m : string * string) :
  validMeasurement m = true ->
  exists q, parseFloat (snd m) = Num q /\ (0 <= q)%Q /\ (q < 500)%Q.
Proof.
  unfold validMeasurement. cbv zeta.
  destruct (parseFloat (snd m)) as [q| | |]; try discriminate.
  rewrite !andb_true_iff, ge_Num, lt_Num. intros [[_ H0] H500]. eauto.
Qed.

Lemma measurementStep_invalid (acc : option Date * option number)
    (m : string * string) :
  validMeasurement m = false -> measurementStep acc m = acc.
Proof.
  unfold validMeasurement, measurementStep. cbv zeta.
  destruct acc as [latestTime latestValue], m as [timeStr valueStr].
  cbn [snd]. intros ->. reflexivity.
Qed.

Lemma measurementStep_valid (latestTime : option Date)
    (latestValue : option number) (m : string * string) :
  validMeasurement m = true ->
  measurementStep (latestTime, latestValue) m =
  if match latestTime with
     | None => true
     | Some latest => Date_gt (Date_parse (fst m)) latest
     end
  then (Some (Date_parse (fst m)), Some (parseFloat (snd m)))
  else (latestTime, latestValue).
Proof.
  unfold validMeasurement, measurementStep. cbv zeta.
  destruct m as [timeStr valueStr]. cbn [fst snd]. intros ->. reflexivity.
Qed.

(** X3: the parser reports a value exactly when some measurement of the
    series is valid; the value and the time it reports are those of one
    valid measurement, and the value lies in [0, 500). *)
Theorem latestMeasurement_valid (content : string) :
  match latestMeasurement content with
  | (Some time, Some value) =>
      exists m,
        In m (match_measurements content) /\
        validMeasurement m = true /\
        time = Date_parse (fst m) /\
        value = parseFloat (snd m) /\
        exists q, value = Num q /\ (0 <= q)%Q /\ (q < 500)%Q
  | (None, None) =>
      forall m, In m (match_measurements content) -> validMeasurement m = false
  | _ => False
  end.
Proof.
  unfold latestMeasurement.
  induction (match_measurements content) as [|m ms IH] using rev_ind.
  - cbn. intros m [].
  - rewrite foldl_snoc.
    destruct (foldl measurementStep (None, None) ms) as [latestTime latestValue].
    destruct (validMeasurement m) eqn:Evalid.
    + rewrite (measurementStep_valid _ _ _ Evalid).
      assert (Hnew : exists m',
                In m' (ms ++ [m])%list /\ validMeasurement m' = true /\
                Date_parse (fst m) = Date_parse (fst m') /\
                parseFloat (snd m) = parseFloat (snd m') /\
                exists q, parseFloat (snd m) = Num q /\ (0 <= q)%Q /\ (q < 500)%Q).
      { exists m. split; [apply in_or_app; right; left; reflexivity|].
        split; [exact Evalid|]. split; [reflexivity|]. split; [reflexivity|].
        apply validMeasurement_range, Evalid. }
      destruct latestTime as [latest|]; [|exact Hnew].
      destruct (Date_gt (Date_parse (fst m)) latest); [exact Hnew|].
      destruct latestValue as [value|]; [|exact IH].
      destruct IH as (m' & Hin & H). exists m'.
      split; [apply in_or_app; left; exact Hin | exact H].
    + rewrite (measurementStep_invalid _ _ Evalid).
      destruct latestTime as [latest|], latestValue as [value|];
        try exact IH.
      * destruct IH as (m' & Hin & H). exists m'.
        split; [apply in_or_app; left; exact Hin | exact H].
      * intros m' Hin. apply in_app_or in Hin as [Hin|[<-|[]]];
          [apply IH, Hin | exact Evalid].
Qed.

Lemma Date_gt_Some (a b : Z) : Date_gt (Some a) (Some b) = true <-> (b < a)%Z.
Proof.
  unfold Date_gt, Date_getTime, JS.of_Z. rewrite gt_Num, <- Zlt_Qlt. reflexivity.
Qed.

Lemma Date_gt_invalid (time : Date) : Date_gt time None = false.
Proof. unfold Date_gt. cbn. destruct (Date_getTime time); reflexivity. Qed.

Lemma foldl_measurementStep_invalid (ms : list (string * string))
    (acc : option Date * option number) :
  (forall m, In m ms -> validMeasurement m = false) ->
  foldl measurementStep acc ms = acc.
Proof.
  revert acc. induction ms as [|m ms IH]; intros acc H; [reflexivity|].
  cbn [foldl]. rewrite measurementStep_invalid by (apply H; left; reflexivity).
  apply IH. intros m' Hin. apply H. right. exact Hin.
Qed.

Lemma latest_of_valid_dates (ms : list (string * string)) :
  (forall m, In m ms -> validMeasurement m = true -> Date_parse (fst m) <> None) ->
  (foldl measurementStep (None, None) ms = (None, None) /\
   forall m, In m ms -> validMeasurement m = false) \/
  exists before m after t,
    ms = (before ++ m :: after)%list /\
    validMeasurement m = true /\
    Date_parse (fst m) = Some t /\
    foldl measurementStep (None, None) ms =
      (Some (Some t), Some (parseFloat (snd m))) /\
    (forall m', In m' before -> validMeasurement m' = true ->
       exists t', Date_parse (fst m') = Some t' /\ (t' < t)%Z) /\
    (forall m', In m' after -> validMeasurement m' = true ->
       exists t', Date_parse (fst m') = Some t' /\ (t' <= t)%Z).
Proof.
  induction ms as [|x ms IH] using rev_ind; intros Hdates.
  { left. split; [reflexivity | intros m []]. }
  rewrite foldl_snoc.
  assert (Hms : forall m, In m ms -> validMeasurement m = true ->
                  Date_parse (fst m) <> None).
  { intros m Hin. apply Hdates, in_or_app. left. exact Hin. }
  specialize (IH Hms).
  destruct (validMeasurement x) eqn:Ex.
  - (* a valid measurement, with a valid date *)
    destruct (Date_parse (fst x)) as [tx|] eqn:Etx;
      [|exfalso; apply (Hdates x);
        [apply in_or_app; right; left; reflexivity | exact Ex | exact Etx]].
    right.
    destruct IH as [[E Hnone]|(before & m & after & t & -> & Hm & Et & E & Hb & Ha)];
      rewrite E, (measurementStep_valid _ _ _ Ex), Etx.
    + exists ms, x, [], tx. repeat split; try assumption.
      * intros m' Hin Hv. rewrite (Hnone m' Hin) in Hv. discriminate.
      * intros m' [].
    + destruct (Date_gt (Some tx) (Some t)) eqn:Egt.
      * apply Date_gt_Some in Egt.
        exists (before ++ m :: after)%list, x, [], tx.
        repeat split; try assumption; [|intros m' []].
        intros m' Hin Hv. apply in_app_or in Hin as [Hin|[<-|Hin]].
        -- destruct (Hb m' Hin Hv) as (t' & Et' & Hlt). exists t'. split; [exact Et' | lia].
        -- exists t. split; [exact Et | exact Egt].
        -- destruct (Ha m' Hin Hv) as (t' & Et' & Hle). exists t'. split; [exact Et' | lia].
      * assert (Hle : (tx <= t)%Z).
        { destruct (Z.le_gt_cases tx t) as [H|H]; [exact H|].
          apply Date_gt_Some in H. congruence. }
        exists before, m, (after ++ [x])%list, t.
        split; [rewrite <- app_assoc; reflexivity|].
        repeat split; try assumption.
        intros m' Hin Hv. apply in_app_or in Hin as [Hin|[<-|[]]].
        -- apply (Ha m' Hin Hv).
        -- exists tx. split; [exact Etx | exact Hle].
  - (* an invalid measurement changes nothing *)
    rewrite (measurementStep_invalid _ _ Ex).
    destruct IH as [[E Hnone]|(before & m & after & t & -> & Hm & Et & E & Hb & Ha)].
    + left. split; [exact E|].
      intros m Hin. apply in_app_or in Hin as [Hin|[<-|[]]];
        [apply Hnone, Hin | exact Ex].
    + right. exists before, m, (after ++ [x])%list, t.
      split; [rewrite <- app_assoc; reflexivity|].
      repeat split; try assumption.
      intros m' Hin Hv. apply in_app_or in Hin as [Hin|[<-|[]]].
      * apply (Ha m' Hin Hv).
      * congruence.
Qed.

(** X4: when every valid measurement of a series has a readable time,
    the parser reports the measurement with the latest time, and of
    several with that time the first in the document: the valid
    measurements before it are older, those after it are not newer. *)
Theorem latestMeasurement_first_latest (content : string) :
  (forall m, In m (match_measurements content) ->
             validMeasurement m = true -> Date_parse (fst m) <> None) ->
  (latestMeasurement content = (None, None) /\
   forall m, In m (match_measurements content) -> validMeasurement m = false) \/
  exists before m after t,
    match_measurements content = (before ++ m :: after)%list /\
    validMeasurement m = true /\
    Date_parse (fst m) = Some t /\
    latestMeasurement content = (Some (Some t), Some (parseFloat (snd m))) /\
    (forall m', In m' before -> validMeasurement m' = true ->
       exists t', Date_parse (fst m') = Some t' /\ (t' < t)%Z) /\
    (forall m', In m' after -> validMeasurement m' = true ->
       exists t', Date_parse (fst m') = Some t' /\ (t' <= t)%Z).
Proof.
  intros Hdates. unfold latestMeasurement.
  apply latest_of_valid_dates, Hdates.
Qed.

Lemma foldl_measurementStep_stuck (ms : list (string * string)) (value : number) :
  foldl measurementStep (Some None, Some value) ms = (Some None, Some value).
Proof.
  induction ms as [|m ms IH]; [reflexivity|]. cbn [foldl].
  destruct (validMeasurement m) eqn:Em.
  - rewrite (measurementStep_valid _ _ _ Em), Date_gt_invalid. exact IH.
  - rewrite (measurementStep_invalid _ _ Em). exact IH.
Qed.

(** X5: when the first valid measurement of a series has an unreadable
    time, the parser reports that measurement, with an invalid date,
    whatever follows it: no later measurement replaces it. *)
Theorem latestMeasurement_unreadable_time (content : string)
    (before after : list (string * string)) (m : string * string) :
  match_measurements content = (before ++ m :: after)%list ->
  (forall m', In m' before -> validMeasurement m' = false) ->
  validMeasurement m = true ->
  Date_parse (fst m) = None ->
  latestMeasurement content = (Some None, Some (parseFloat (snd m))).
Proof.
  intros E Hbefore Hm Htime. unfold latestMeasurement.
  rewrite E, foldl_app, (foldl_measurementStep_invalid _ _ Hbefore).
  cbn [foldl]. rewrite (measurementStep_valid _ _ _ Hm), Htime.
  apply foldl_measurementStep_stuck.
Qed.

End Measurements.

Lemma latestMeasurement_first_latest_witness :
  let content := "Kilpis;69 21;snow;d1=40;d3=50;d3=60;d2=30" in
  (forall m, In m (@match_measurements Fixture.runtime content) ->
             @validMeasurement Fixture.runtime m = true ->
             @Date_parse Fixture.runtime (fst m) <> None) /\
  @latestMeasurement Fixture.runtime content =
    (Some (Some (3 * Fixture.day)%Z), Some 50%num).
Proof.
  cbv zeta.
  assert (H : forall m,
             In m (@match_measurements Fixture.runtime
                     "Kilpis;69 21;snow;d1=40;d3=50;d3=60;d2=30") ->
             @validMeasurement Fixture.runtime m = true ->
             @Date_parse Fixture.runtime (fst m) <> None).
  { intros m Hin _. vm_compute in Hin.
    destruct Hin as [<-|[<-|[<-|[<-|[]]]]]; discriminate. }
  split; [exact H|].
  destruct (@latestMeasurement_first_latest Fixture.runtime _ H)
    as [[E _]|(before & m & after & t & _ & _ & _ & E & _)];
    vm_compute; reflexivity.
Defined.

Lemma latestMeasurement_unreadable_time_witness :
  @latestMeasurement Fixture.runtime "Kilpis;69 21;snow;d1=900;dx=10;d2=20" =
  (Some None, Some 10%num).
Proof.
  apply (@latestMeasurement_unreadable_time Fixture.runtime
           "Kilpis;69 21;snow;d1=900;dx=10;d2=20"
           [("d1", "900")] [("d2", "20")] ("dx", "10")).
  - reflexivity.
  - intros m' [<-|[]]. reflexivity.
  - reflexivity.
  - reflexivity.
Defined.

(** ** What the station locator returns *)

Section LocatorResults.

Context {rt : Runtime}.

Lemma Math_round_depthInRange (q : Q) :
  (0 <= q)%Q -> (q < 500)%Q -> depthInRange (JS.Math_round (Num q)).
Proof.
  intros H0 H500. exists (Qfloor (q + 0.5)). split; [reflexivity|].
  pose proof (Qfloor_le (q + 0.5)) as Hle.
  pose proof (Qlt_floor (q + 0.5)) as Hlt.
  rewrite inject_Z_plus in Hlt. change (inject_Z 1) with 1%Q in Hlt.
  split.
  - assert (H : (inject_Z (-1) < inject_Z (Qfloor (q + 0.5)))%Q)
      by (change (inject_Z (-1)) with (-1)%Q; lra).
    rewrite <- Zlt_Qlt in H. lia.
  - assert (H : (inject_Z (Qfloor (q + 0.5)) < inject_Z 501)%Q)
      by (change (inject_Z 501) with 501%Q; lra).
    rewrite <- Zlt_Qlt in H. lia.
Qed.

Lemma mockBaseDepth_depthInRange (lat : number) (month : Z) :
  depthInRange (mockBaseDepth lat month).
Proof.
  unfold mockBaseDepth. cbv zeta.
  repeat match goal with
         | |- context [if ?b then _ else _] => destruct b
         end;
    match goal with
    | |- depthInRange (Num (?n # 1)) =>
        exists n; split; [reflexivity | lia]
    end.
Qed.

Lemma latestMeasurement_depthInRange (content : string) (time : Date)
    (value : number) :
  latestMeasurement content = (Some time, Some value) ->
  depthInRange (JS.Math_round value).
Proof.
  intros E. pose proof (latestMeasurement_valid content) as H.
  rewrite E in H. destruct H as (_ & _ & _ & _ & _ & q & -> & H0 & H500).
  apply Math_round_depthInRange; assumption.
Qed.

Lemma getMockSnowDepthResult_wellFormed (lat : number) :
  returns (getMockSnowDepthResult lat) wellFormed.
Proof.
  eapply returns_weaken; [apply getMockSnowDepthResult_returns|].
  intros r (Hn & Hd & Hu & month & Hdepth). split.
  - right. repeat split; try assumption. exists lat, month. exact Hdepth.
  - rewrite Hdepth. apply mockBaseDepth_depthInRange.
Qed.

Lemma fetchSnowFromStation_wellFormed (fmisid stationName : string)
    (userLat userLon startTime endTime : number)
    (stationLat stationLon : option number) :
  returns (fetchSnowFromStation fmisid stationName userLat userLon
             startTime endTime stationLat stationLon)
    (fun o => forall r, o = Some r -> wellFormed r).
Proof.
  unfold fetchSnowFromStation.
  apply returns_try_catch; [|apply returns_ret; discriminate].
  apply ensures_bind. intros response.
  destruct (negb (resp_ok response)); [apply ensures_ret; discriminate|].
  apply ensures_bind. intros xmlText.
  match goal with
  | |- ensures (let '(_, _) := ?e in _) _ =>
      destruct e as [finalStationLat finalStationLon]
  end.
  destruct (latestMeasurement xmlText) as [[time|] [value|]] eqn:E;
    apply ensures_ret; try discriminate.
  intros r Hr. injection Hr as <-. split.
  - left. cbn. eexists _, _, _. repeat split.
  - cbn. apply (latestMeasurement_depthInRange _ _ _ E).
Qed.

Lemma seriesStep_wellFormed (userLat userLon maxDistance : number)
    (acc : option SnowDepthResult * number) (seriesContent : string) :
  (forall r, fst acc = Some r -> wellFormed r) ->
  forall r, fst (seriesStep userLat userLon maxDistance acc seriesContent) = Some r ->
            wellFormed r.
Proof.
  intros Hacc. unfold seriesStep.
  destruct acc as [bestResult bestDistance].
  destruct (match_pos seriesContent) as [pos|]; [|exact Hacc].
  cbv zeta. destruct (_ >? maxDistance)%num; [exact Hacc|].
  destruct (latestMeasurement seriesContent) as [[time|] [value|]] eqn:E;
    try exact Hacc.
  destruct (_ <? bestDistance)%num; [|exact Hacc].
  intros r Hr. injection Hr as <-. split.
  - left. cbn. eexists _, _, _. repeat split.
  - cbn. apply (latestMeasurement_depthInRange _ _ _ E).
Qed.

Lemma bestStation_wellFormed (xmlText : string)
    (userLat userLon maxDistance : number) (r : SnowDepthResult) :
  bestStation xmlText userLat userLon maxDistance = Some r -> wellFormed r.
Proof.
  unfold bestStation. revert r.
  induction (match_series xmlText) as [|x l IH] using rev_ind; [discriminate|].
  rewrite foldl_snoc. apply seriesStep_wellFormed. exact IH.
Qed.

Lemma searchStationsInRadius_wellFormed
    (lat lon radiusKm startTime endTime : number) :
  returns (searchStationsInRadius lat lon radiusKm startTime endTime)
    (fun o => forall r, o = Some r -> wellFormed r).
Proof.
  unfold searchStationsInRadius. cbv zeta.
  apply returns_try_catch; [|apply returns_ret; discriminate].
  apply ensures_bind. intros response.
  destruct (negb (resp_ok response)); [apply ensures_ret; discriminate|].
  apply ensures_bind. intros xmlText.
  unfold parseTimeValuePairSnowResponse.
  destruct (bestStation xmlText lat lon radiusKm) as [best|] eqn:E.
  - unfold bind, ret. intros s o s' H.
    destruct (negb (truthy_name (stationName best)));
      injection H as <- _; [discriminate|].
    intros r Hr. injection Hr as <-. apply (bestStation_wellFormed _ _ _ _ _ E).
  - intros s o s' H. unfold bind in H.
    destruct (getMockSnowDepthResult_wellFormed lat s) as (r0 & s0 & E0 & Hr0).
    rewrite E0 in H.
    destruct (negb (truthy_name (stationName r0)));
      injection H as <- _; [discriminate|].
    intros r Hr. injection Hr as <-. exact Hr0.
Qed.

Lemma tryStations_wellFormed (stations : list Station)
    (lat lon startTime endTime : number) :
  returns (tryStations stations lat lon startTime endTime)
    (fun o => forall r, o = Some r -> wellFormed r).
Proof.
  induction stations as [|station rest IH]; cbn [tryStations].
  - apply returns_ret. discriminate.
  - eapply returns_bind; [apply fetchSnowFromStation_wellFormed|].
    intros [r|] Hr; [|exact IH].
    apply returns_ret. intros r' E. injection E as <-. apply Hr. reflexivity.
Qed.

Lemma trySearchRadii_wellFormed (searchRadii : list number)
    (lat lon startTime endTime : number) :
  returns (trySearchRadii searchRadii lat lon startTime endTime)
    (fun o => forall r, o = Some r -> wellFormed r).
Proof.
  induction searchRadii as [|radiusKm rest IH]; cbn [trySearchRadii].
  - apply returns_ret. discriminate.
  - eapply returns_bind; [apply searchStationsInRadius_wellFormed|].
    intros [r|] Hr; [|exact IH].
    destruct (truthy_name (stationName r)); [|exact IH].
    apply returns_ret. intros r' E. injection E as <-. apply Hr. reflexivity.
Qed.

Lemma getSnowDepthWithStationInfo_wellFormed (lat lon : number)
    (postalCode : option string) :
  returns (getSnowDepthWithStationInfo lat lon postalCode) wellFormed.
Proof.
  unfold getSnowDepthWithStationInfo.
  apply (returns_bind _ _ (fun _ => True)); [auto with returns|].
  intros now _.
  apply returns_orElse.
  { destruct inKilpisjarviArea;
      [apply tryStations_wellFormed | apply returns_ret; discriminate]. }
  apply returns_orElse.
  { destruct inInariIvaloArea;
      [apply tryStations_wellFormed | apply returns_ret; discriminate]. }
  apply returns_orElse; [apply trySearchRadii_wellFormed|].
  apply getMockSnowDepthResult_wellFormed.
Qed.

Lemma currentLoadOf_range (depthCm : Z) :
  (0 <= depthCm <= 500)%Z ->
  exists load : Z,
    currentLoadOf (JS.of_Z depthCm) = JS.of_Z load /\ (0 <= load <= 1250)%Z.
Proof.
  intros [H0 H500]. exists (Qfloor (inject_Z depthCm * 2.5 + 0.5)).
  split; [reflexivity|].
  rewrite Zle_Qle in H0, H500.
  change (inject_Z 0) with 0%Q in H0. change (inject_Z 500) with 500%Q in H500.
  pose proof (Qfloor_le (inject_Z depthCm * 2.5 + 0.5)) as Hle.
  pose proof (Qlt_floor (inject_Z depthCm * 2.5 + 0.5)) as Hlt.
  rewrite inject_Z_plus in Hlt. change (inject_Z 1) with 1%Q in Hlt.
  set (f := Qfloor (inject_Z depthCm * 2.5 + 0.5)) in *.
  split.
  - assert (H : (inject_Z (-1) < inject_Z f)%Q)
      by (change (inject_Z (-1)) with (-1)%Q; lra).
    rewrite <- Zlt_Qlt in H. lia.
  - assert (H : (inject_Z f < inject_Z 1251)%Q)
      by (change (inject_Z 1251) with 1251%Q; lra).
    rewrite <- Zlt_Qlt in H. lia.
Qed.

Lemma snowDataRoute_measured (postalCode : string) (threshold : option string) :
  returns (snowDataRoute postalCode threshold)
    (fun reply => forall status data,
                    reply = ReplyData status data -> measured data).
Proof.
  unfold snowDataRoute. apply returns_try_body.
  apply (returns_bind _ _ (fun _ => True)); [apply getPostalCodeInfo_returns|].
  intros [info|] _; [|apply returns_ret; discriminate]. cbv zeta.
  eapply returns_bind; [apply getSnowDepthWithStationInfo_wellFormed|].
  intros snowResult [Hstation (depthCm & Hdepth & Hrange)].
  destruct (statusOf _) as [status statusText].
  apply (returns_bind _ _ (fun _ => True)).
  { eapply returns_weaken;
      [apply getSnowForecastWithThawWarning_returns | auto]. }
  intros forecastResult _.
  apply (returns_bind _ _
           (fun ago => match updatedAt snowResult with
                       | Some _ => exists text, ago = Some text
                       | None => ago = None
                       end)).
  { destruct (updatedAt snowResult); [|apply returns_ret; reflexivity].
    apply (returns_bind _ _ (fun _ => True)); [auto with returns|].
    intros now _. apply returns_ret. eauto. }
  intros updatedAgo Hago. apply returns_ret.
  intros status' data E. injection E as _ <-. unfold measured. cbn.
  split.
  - destruct (currentLoadOf_range depthCm Hrange) as (load & Hload & Hbound).
    exists depthCm, load. rewrite Hdepth. repeat split; tauto.
  - destruct Hstation as [(name & distance & time & Hn & Hd & Ht)
                         |(Hn & Hd & Ht & Hmock)].
    + left. rewrite Ht in Hago. destruct Hago as (text & ->).
      exists name, distance, text. repeat split; assumption.
    + right. rewrite Ht in Hago. repeat split; assumption.
Qed.

Lemma snowDataRoute_measured_at (postalCode : string)
    (threshold : option string) (s : State) :
  exists reply s',
    snowDataRoute postalCode threshold s = (Ok reply, s') /\
    forall status data, reply = ReplyData status data -> measured data.
Proof. apply snowDataRoute_measured. Qed.

(** X6: in every answer with data the snow depth is a whole number of
    centimetres from 0 to 500 and the load a whole number from 0 to
    1250. *)
Theorem route_depth_and_load_range (postalCode : string)
    (threshold : option string) (s : State) :
  exists reply s',
    snowDataRoute postalCode threshold s = (Ok reply, s') /\
    forall status data,
      reply = ReplyData status data ->
      exists depthCm load : Z,
        sd_snowDepth data = JS.of_Z depthCm /\ (0 <= depthCm <= 500)%Z /\
        sd_currentLoad data = JS.of_Z load /\ (0 <= load <= 1250)%Z.
Proof.
  destruct (snowDataRoute_measured_at postalCode threshold s)
    as (reply & s' & E & H).
  exists reply, s'. split; [exact E|].
  intros status data Hreply. exact (proj1 (H status data Hreply)).
Qed.


End LocatorResults.

(** ** Distance of a station found by the bounding-box search *)

Section SearchRadius.

Context {rt : Runtime}.

Lemma Math_round_le_whole (d : number) (radiusKm : Z) :
  JS.isNaN d = false -> (d >? JS.of_Z radiusKm)%num = false ->
  (JS.Math_round d <=? JS.of_Z radiusKm)%num = true.
Proof.
  unfold JS.gt, JS.of_Z. destruct d as [q| | |]; try discriminate.
  - intros _ H. apply lt_Num_false in H. cbn [JS.Math_round]. apply le_Num.
    pose proof (Qfloor_le (q + 0.5)) as Hle.
    assert (Hlt : (inject_Z (Qfloor (q + 0.5)) < inject_Z (radiusKm + 1))%Q).
    { rewrite inject_Z_plus. change (inject_Z 1) with 1%Q. lra. }
    rewrite <- Zlt_Qlt in Hlt. rewrite <- Zle_Qle. lia.
  - reflexivity.
Qed.

Lemma seriesStep_withinRadius (userLat userLon maxDistance : number)
    (acc : option SnowDepthResult * number) (seriesContent : string) :
  (forall r, fst acc = Some r -> withinRadius maxDistance r) ->
  forall r, fst (seriesStep userLat userLon maxDistance acc seriesContent) = Some r ->
            withinRadius maxDistance r.
Proof.
  intros Hacc. unfold seriesStep.
  destruct acc as [bestResult bestDistance].
  destruct (match_pos seriesContent) as [pos|]; [|exact Hacc].
  cbv zeta. set (distance := calculateDistance _ _ _ _).
  destruct (distance >? maxDistance)%num eqn:Efar; [exact Hacc|].
  destruct (latestMeasurement seriesContent) as [[time|] [value|]];
    try exact Hacc.
  destruct (distance <? bestDistance)%num eqn:Ecloser; [|exact Hacc].
  intros r Hr. injection Hr as <-.
  eexists _, distance. cbn. repeat split; [|exact Efar].
  apply (lt_not_NaN _ _ Ecloser).
Qed.

Lemma bestStation_withinRadius (xmlText : string)
    (userLat userLon maxDistance : number) (r : SnowDepthResult) :
  bestStation xmlText userLat userLon maxDistance = Some r ->
  withinRadius maxDistance r.
Proof.
  unfold bestStation. revert r.
  induction (match_series xmlText) as [|x l IH] using rev_ind; [discriminate|].
  rewrite foldl_snoc. apply seriesStep_withinRadius. exact IH.
Qed.

(** X8: a station returned by the bounding-box search of a whole number
    of kilometres has a name that is not empty and a reported distance of
    at most that radius. *)
Theorem searchStationsInRadius_within (lat lon : number) (radiusKm : Z)
    (startTime endTime : number) (s : State) :
  exists found s',
    searchStationsInRadius lat lon (JS.of_Z radiusKm) startTime endTime s =
      (Ok found, s') /\
    forall r,
      found = Some r ->
      exists name distance,
        stationName r = Some name /\ name <> "" /\
        stationDistance r = Some distance /\
        (distance <=? JS.of_Z radiusKm)%num = true.
Proof.
  revert s.
  change (returns
            (searchStationsInRadius lat lon (JS.of_Z radiusKm) startTime endTime)
            (fun found => forall r, found = Some r ->
               exists name distance,
                 stationName r = Some name /\ name <> "" /\
                 stationDistance r = Some distance /\
                 (distance <=? JS.of_Z radiusKm)%num = true)).
  unfold searchStationsInRadius. cbv zeta.
  apply returns_try_catch; [|apply returns_ret; discriminate].
  apply ensures_bind. intros response.
  destruct (negb (resp_ok response)); [apply ensures_ret; discriminate|].
  apply ensures_bind. intros xmlText.
  unfold parseTimeValuePairSnowResponse.
  destruct (bestStation xmlText lat lon (JS.of_Z radiusKm)) as [best|] eqn:E.
  - unfold bind, ret. intros s o s' H.
    destruct (truthy_name (stationName best)) eqn:Ename; cbn [negb] in H;
      injection H as <- _; [|discriminate].
    intros r Hr. injection Hr as <-.
    destruct (bestStation_withinRadius _ _ _ _ _ E) as (name & d & Hn & Hd & Hnan & Hfar).
    exists name, (JS.Math_round d). split; [exact Hn|]. split.
    + rewrite Hn in Ename. cbn in Ename. intros ->. discriminate.
    + split; [exact Hd|]. apply Math_round_le_whole; assumption.
  - intros s o s' H. unfold bind in H.
    destruct (getMockSnowDepthResult_returns lat s)
      as (r0 & s0 & E0 & Hname & _).
    rewrite E0, Hname in H. cbn in H. injection H as <- _. discriminate.
Qed.

End SearchRadius.

(** ** The days of a forecast *)

Section ForecastDays.

Context {rt : Runtime}.

Lemma forecastDayStep_dates (lat : number) (today : Z)
    (dailyData : gmap string DayData) (st : ForecastLoop) (i : Z) :
  map fd_date (loop_forecast (forecastDayStep lat today dailyData st i)) =
  (map fd_date (loop_forecast st) ++ [forecastDateKey today i])%list.
Proof.
  unfold forecastDayStep, forecastDateKey.
  destruct (dailyData !! _) as [dayData|];
    [destruct (0 <? length (temps dayData))%nat|];
    cbn [loop_forecast]; rewrite map_app; reflexivity.
Qed.

Lemma forecast_date_keys (lat lon threshold : number) (s : State) :
  exists r s',
    getSnowForecastWithThawWarning lat lon threshold s = (Ok r, s') /\
    map fd_date (forecast r) =
    map (forecastDateKey (clock (world s))) [1; 2; 3]%Z.
Proof.
  destruct (forecast_source lat lon threshold s) as (r & s' & E & H).
  exists r, s'. split; [exact E|].
  destruct (upstreamForecast lat lon s) as [dailyData|].
  - destruct H as (depth0 & -> & _).
    unfold buildForecast, forecastIndices. cbn [foldl].
    rewrite !forecastDayStep_dates. reflexivity.
  - destruct H as (-> & _). reflexivity.
Qed.


Lemma rounded_precip_meets_threshold (totalPrecip : number) :
  (totalPrecip >=? 5)%num = true ->
  (JS.Math_round (totalPrecip * 10) / 10 >=? 5)%num = true.
Proof.
  destruct totalPrecip as [q| | |]; try discriminate; [|reflexivity].
  intros H. apply ge_Num in H. cbn [JS.mul JS.Math_round].
  rewrite div_Num by discriminate. apply ge_Num.
  pose proof (Qlt_floor (q * 10 + 0.5)) as Hlt.
  rewrite inject_Z_plus in Hlt. change (inject_Z 1) with 1%Q in Hlt.
  assert (Hz : (inject_Z 49 < inject_Z (Qfloor (q * 10 + 0.5)))%Q)
    by (change (inject_Z 49) with 49%Q; lra).
  rewrite <- Zlt_Qlt in Hz.
  assert (H50 : (inject_Z 50 <= inject_Z (Qfloor (q * 10 + 0.5)))%Q)
    by (rewrite <- Zle_Qle; lia).
  change (inject_Z 50) with 50%Q in H50.
  apply Qle_shift_div_l; [reflexivity | lra].
Qed.

Lemma forecastDayStep_thawOfDay (lat : number) (today : Z)
    (dailyData : gmap string DayData) (st : ForecastLoop) (i : Z) :
  Forall (thawOfDay (loop_forecast st)) (loop_thawConditions st) ->
  let st' := forecastDayStep lat today dailyData st i in
  Forall (thawOfDay (loop_forecast st')) (loop_thawConditions st').
Proof.
  intros Hst. cbv zeta.
  assert (Hold : forall day,
            Forall (thawOfDay (loop_forecast st ++ [day])%list)
              (loop_thawConditions st)).
  { intros day. eapply Forall_impl; [exact Hst|].
    intros t ((d & Hin & H) & Hmax). split; [|exact Hmax].
    exists d. split; [apply in_or_app; left; exact Hin | exact H]. }
  unfold forecastDayStep.
  destruct (dailyData !! _) as [dayData|];
    [destruct (0 <? length (temps dayData))%nat|];
    cbn [loop_forecast loop_thawConditions]; try apply Hold.
  destruct (isThawCondition _ _) eqn:Ethaw; [|apply Hold].
  apply Forall_app. split; [apply Hold|].
  constructor; [|constructor].
  unfold isThawCondition in Ethaw. apply andb_true_iff in Ethaw as [Hmax Hprecip].
  split; [|split; [exact Hmax | exact (rounded_precip_meets_threshold _ Hprecip)]].
  eexists. split; [apply in_or_app; right; left; reflexivity|].
  repeat split.
Qed.

(** X10: every thaw condition the forecast engine reports repeats the
    date, the maximum temperature and the precipitation amount of one of
    the forecast days it returns, and the values it shows are at least 1
    degree and at least 5 mm: rounding the precipitation never takes a
    reported condition below the threshold. *)
Theorem thaw_conditions_of_forecast_days (lat lon threshold : number)
    (s : State) :
  exists r s',
    getSnowForecastWithThawWarning lat lon threshold s = (Ok r, s') /\
    forall t,
      In t (thawConditions r) ->
      (exists d,
         In d (forecast r) /\ fd_date d = thaw_date t /\
         fd_maxTemp d = thaw_maxTemp t /\
         fd_precipAmount d = thaw_totalPrecip t) /\
      (thaw_maxTemp t >=? 1)%num = true /\
      (thaw_totalPrecip t >=? 5)%num = true.
Proof.
  destruct (forecast_source lat lon threshold s) as (r & s' & E & H).
  exists r, s'. split; [exact E|].
  destruct (upstreamForecast lat lon s) as [dailyData|].
  - destruct H as (depth0 & -> & _ & ->).
    apply List.Forall_forall.
    unfold buildForecast, forecastIndices. cbn [foldl].
    repeat apply forecastDayStep_thawOfDay. constructor.
  - destruct H as (_ & _ & ->). intros t [].
Qed.

End ForecastDays.

(** ** The projected snow depth *)

Section SnowProjection.

Context {rt : Runtime}.

Lemma foldl_add_finite (xs : list number) (a : Q) :
  Forall finite xs -> finite (foldl JS.add (Num a) xs).
Proof.
  revert a. induction xs as [|x xs IH]; intros a H; [exists a; reflexivity|].
  inversion H as [|? ? [q ->] Hxs]; subst. cbn [foldl JS.add]. apply IH, Hxs.
Qed.

Lemma sum_finite (xs : list number) : Forall finite xs -> finite (JS.sum xs).
Proof. apply foldl_add_finite. Qed.

Lemma Math_round_wholeNonNegative (a : Q) :
  (0 <= a)%Q -> wholeNonNegative (JS.Math_round (Num a)).
Proof.
  intros Ha. exists (Qfloor (a + 0.5)). split; [reflexivity|].
  pose proof (Qlt_floor (a + 0.5)) as Hlt.
  rewrite inject_Z_plus in Hlt. change (inject_Z 1) with 1%Q in Hlt.
  assert (H : (inject_Z (-1) < inject_Z (Qfloor (a + 0.5)))%Q)
    by (change (inject_Z (-1)) with (-1)%Q; lra).
  rewrite <- Zlt_Qlt in H. lia.
Qed.

(** Melting never takes the accumulated depth below zero. *)
Lemma melt_nonnegative (a : Q) (avgTemp : number) :
  (avgTemp >? 2)%num = true ->
  exists a', JS.Math_max [0%num; (Num a - (avgTemp - 2) * 2)%num] = Num a' /\
             (0 <= a')%Q.
Proof.
  destruct avgTemp as [v| | |]; try discriminate; intros _.
  - unfold JS.Math_max. cbn.
    destruct (Qle_bool _ _) eqn:E; cbn.
    + exists 0%Q. split; [reflexivity | lra].
    + eexists. split; [reflexivity|].
      apply Qlt_le_weak, Qnot_le_lt. intros H. apply Qle_bool_iff in H.
      congruence.
  - exists 0%Q. split; [reflexivity | lra].
Qed.

Lemma forecastDayStep_depthNonNegative (lat : number) (today : Z)
    (dailyData : gmap string DayData) (st : ForecastLoop) (i : Z) :
  (forall key day, dailyData !! key = Some day -> Forall finite (precip day)) ->
  depthNonNegative st ->
  depthNonNegative (forecastDayStep lat today dailyData st i).
Proof.
  intros Hfinite ((a & Ea & Ha) & Hdays). unfold forecastDayStep.
  destruct (dailyData !! _) as [dayData|] eqn:Eday;
    [destruct (0 <? length (temps dayData))%nat|].
  2,3: split; cbn [loop_accumulatedSnow loop_forecast]; [eauto|];
       apply Forall_app; split; [exact Hdays|]; constructor; [|constructor];
       cbn [fd_snowDepth]; rewrite Ea; apply Math_round_wholeNonNegative, Ha.
  cbv zeta. cbn [loop_accumulatedSnow loop_forecast].
  destruct (sum_finite _ (Hfinite _ _ Eday)) as (p & Ep). rewrite Ep, Ea.
  set (avgTemp := JS.Math_round (JS.sum (temps dayData) / _)%num).
  assert (Hacc : exists a',
            (if (avgTemp <? 0)%num && (Num p >? 0)%num then (Num a + Num p)%num
             else if (avgTemp >? 2)%num
                  then JS.Math_max [0%num; (Num a - (avgTemp - 2) * 2)%num]
                  else Num a) = Num a' /\ (0 <= a')%Q).
  { destruct ((avgTemp <? 0)%num && (Num p >? 0)%num) eqn:Esnow.
    - apply andb_true_iff in Esnow as [_ Hp]. apply gt_Num in Hp.
      exists (a + p)%Q. split; [reflexivity | lra].
    - destruct (avgTemp >? 2)%num eqn:Emelt;
        [apply melt_nonnegative, Emelt | eauto]. }
  destruct Hacc as (a' & -> & Ha').
  split; [eauto|].
  apply Forall_app. split; [exact Hdays|]. constructor; [|constructor].
  cbn [fd_snowDepth]. apply Math_round_wholeNonNegative, Ha'.
Qed.

(** X13: when the precipitation samples are finite numbers and the
    starting depth is not negative, every day of the forecast built from
    them shows a whole snow depth that is not negative, however warm the
    days are. *)
Theorem forecast_snow_depth_nonnegative (lat : number) (today : Z)
    (dailyData : gmap string DayData) (currentSnowDepth : Q) :
  (0 <= currentSnowDepth)%Q ->
  (forall key day, dailyData !! key = Some day -> Forall finite (precip day)) ->
  forall d,
    In d (loop_forecast (buildForecast lat today dailyData (Num currentSnowDepth))) ->
    exists z : Z, fd_snowDepth d = JS.of_Z z /\ (0 <= z)%Z.
Proof.
  intros Hdepth Hfinite. apply List.Forall_forall.
  unfold buildForecast, forecastIndices. cbn [foldl].
  match goal with
  | |- Forall _ (loop_forecast ?st) =>
      enough (H : depthNonNegative st) by exact (proj2 H)
  end.
  repeat apply forecastDayStep_depthNonNegative; try exact Hfinite.
  split; [exists currentSnowDepth; split; [reflexivity | exact Hdepth]|].
  constructor.
Qed.

End SnowProjection.

Lemma forecast_snow_depth_nonnegative_witness :
  let dailyData : gmap string DayData :=
    {[ "d1" := mkDayData [8%num; 12%num] [0%num] [] ]} in
  map fd_snowDepth
    (loop_forecast (@buildForecast Fixture.runtime 61 0 dailyData 3)) =
  [0%num; 0%num; 0%num] /\
  forall d,
    In d (loop_forecast (@buildForecast Fixture.runtime 61 0 dailyData 3)) ->
    exists z : Z, fd_snowDepth d = JS.of_Z z /\ (0 <= z)%Z.
Proof.
  cbv zeta. split; [vm_compute; reflexivity|].
  apply (@forecast_snow_depth_nonnegative Fixture.runtime 61 0
           {[ "d1" := mkDayData [8%num; 12%num] [0%num] [] ]} 3).
  - discriminate.
  - intros key day H. apply lookup_singleton_Some in H as [_ <-].
    cbn. constructor; [exists 0%Q; reflexivity | constructor].
Defined.

(** ** Minimum, average and maximum temperature *)

Section Temperatures.

Context {rt : Runtime}.

Lemma finite_list (xs : list number) :
  Forall finite xs -> exists qs, xs = map Num qs.
Proof.
  induction 1 as [|x xs [q ->] _ (qs & ->)]; [exists []; reflexivity|].
  exists (q :: qs). reflexivity.
Qed.

Lemma foldl_max_Num (qs : list Q) (a : Q) :
  exists m, foldl JS.Math_max2 (Num a) (map Num qs) = Num m /\
            (a <= m)%Q /\ forall q, In q qs -> (q <= m)%Q.
Proof.
  revert a. induction qs as [|q qs IH]; intros a.
  { exists a. split; [reflexivity|]. split; [lra | intros q []]. }
  cbn [map foldl]. unfold JS.Math_max2 at 2. cbn [JS.isNaN orb].
  destruct (Num a <? Num q)%num eqn:E.
  - apply lt_Num in E. destruct (IH q) as (m & -> & Hq & Hall).
    exists m. split; [reflexivity|]. split; [lra|].
    intros q' [<-|Hin]; [exact Hq | apply Hall, Hin].
  - apply lt_Num_false in E. destruct (IH a) as (m & -> & Ha & Hall).
    exists m. split; [reflexivity|]. split; [exact Ha|].
    intros q' [<-|Hin]; [lra | apply Hall, Hin].
Qed.

Lemma foldl_min_Num (qs : list Q) (a : Q) :
  exists m, foldl JS.Math_min2 (Num a) (map Num qs) = Num m /\
            (m <= a)%Q /\ forall q, In q qs -> (m <= q)%Q.
Proof.
  revert a. induction qs as [|q qs IH]; intros a.
  { exists a. split; [reflexivity|]. split; [lra | intros q []]. }
  cbn [map foldl]. unfold JS.Math_min2 at 2. cbn [JS.isNaN orb].
  destruct (Num q <? Num a)%num eqn:E.
  - apply lt_Num in E. destruct (IH q) as (m & -> & Hq & Hall).
    exists m. split; [reflexivity|]. split; [lra|].
    intros q' [<-|Hin]; [exact Hq | apply Hall, Hin].
  - apply lt_Num_false in E. destruct (IH a) as (m & -> & Ha & Hall).
    exists m. split; [reflexivity|]. split; [exact Ha|].
    intros q' [<-|Hin]; [lra | apply Hall, Hin].
Qed.

Lemma foldl_add_bounds (qs : list Q) (a lo hi : Q) :
  (forall q, In q qs -> (lo <= q)%Q /\ (q <= hi)%Q) ->
  exists total,
    foldl JS.add (Num a) (map Num qs) = Num total /\
    (a + inject_Z (Z.of_nat (length qs)) * lo <= total)%Q /\
    (total <= a + inject_Z (Z.of_nat (length qs)) * hi)%Q.
Proof.
  revert a. induction qs as [|q qs IH]; intros a Hqs.
  { exists a. split; [reflexivity|]. cbn [length Z.of_nat].
    change (inject_Z (Z.of_nat 0)) with 0%Q. split; lra. }
  cbn [map foldl JS.add].
  destruct (IH (a + q)%Q) as (total & -> & Hlo & Hhi).
  { intros q' Hin. apply Hqs. right. exact Hin. }
  exists total. split; [reflexivity|].
  destruct (Hqs q (or_introl eq_refl)) as [Hq1 Hq2].
  cbn [length]. rewrite Nat2Z.inj_succ. unfold Z.succ. rewrite inject_Z_plus.
  change (inject_Z 1) with 1%Q.
  set (n := inject_Z (Z.of_nat (length qs))) in *.
  split.
  - assert (Eq : ((n + 1) * lo == n * lo + lo)%Q) by ring. rewrite Eq. lra.
  - assert (Eq : ((n + 1) * hi == n * hi + hi)%Q) by ring. rewrite Eq. lra.
Qed.

Lemma Math_round_monotone (x y : Q) :
  (x <= y)%Q -> (JS.Math_round (Num x) <=? JS.Math_round (Num y))%num = true.
Proof.
  intros H. cbn [JS.Math_round]. apply le_Num. rewrite <- Zle_Qle.
  apply Qfloor_resp_le. lra.
Qed.

(** The rounded minimum, average and maximum of temperatures that are
    finite numbers. *)
Lemma rounded_temperatures_ordered (q0 : Q) (qs : list Q) :
  let temps := map Num (q0 :: qs) in
  let average :=
    (JS.sum temps / JS.of_Z (Z.of_nat (length temps)))%num in
  (JS.Math_round (JS.Math_min temps) <=? JS.Math_round average)%num = true /\
  (JS.Math_round average <=? JS.Math_round (JS.Math_max temps))%num = true.
Proof.
  cbv zeta. unfold JS.Math_min, JS.Math_max, JS.sum.
  cbn [map foldl]. change (JS.Math_min2 Infinity (Num q0)) with (Num q0).
  change (JS.Math_max2 NegInfinity (Num q0)) with (Num q0).
  destruct (foldl_min_Num qs q0) as (lo & -> & Hlo0 & Hlo).
  destruct (foldl_max_Num qs q0) as (hi & -> & Hhi0 & Hhi).
  cbn [JS.add length]. rewrite length_map.
  destruct (foldl_add_bounds qs (0 + q0) lo hi) as (total & -> & Htl & Hth).
  { intros q Hin. split; [apply Hlo | apply Hhi]; exact Hin. }
  rewrite Nat2Z.inj_succ. unfold Z.succ, JS.of_Z.
  rewrite inject_Z_plus. change (inject_Z 1) with 1%Q.
  set (n := inject_Z (Z.of_nat (length qs))) in *.
  assert (Hn : (0 <= n)%Q).
  { unfold n. change 0%Q with (inject_Z 0). rewrite <- Zle_Qle. lia. }
  rewrite div_Num by lra.
  split; apply Math_round_monotone.
  - apply Qle_shift_div_l; [lra|].
    assert (Eq : (lo * (n + 1) == n * lo + lo)%Q) by ring. rewrite Eq. lra.
  - apply Qle_shift_div_r; [lra|].
    assert (Eq : (hi * (n + 1) == n * hi + hi)%Q) by ring. rewrite Eq. lra.
Qed.

Lemma forecastDayStep_temperaturesOrdered (lat : number) (today : Z)
    (dailyData : gmap string DayData) (st : ForecastLoop) (i : Z) :
  (forall key day, dailyData !! key = Some day -> Forall finite (temps day)) ->
  Forall temperaturesOrdered (loop_forecast st) ->
  Forall temperaturesOrdered
    (loop_forecast (forecastDayStep lat today dailyData st i)).
Proof.
  intros Hfinite Hdays. unfold forecastDayStep.
  destruct (dailyData !! _) as [dayData|] eqn:Eday;
    [destruct (0 <? length (temps dayData))%nat eqn:Elen|].
  2,3: cbn [loop_forecast]; apply Forall_app; split; [exact Hdays|];
       constructor; [|constructor];
       destruct (lat >? 64)%num; split; reflexivity.
  cbv zeta. cbn [loop_forecast].
  apply Forall_app. split; [exact Hdays|]. constructor; [|constructor].
  unfold temperaturesOrdered. cbn [fd_minTemp fd_temperature fd_maxTemp].
  destruct (finite_list _ (Hfinite _ _ Eday)) as ([|q0 qs] & E); rewrite E in *.
  - discriminate.
  - apply rounded_temperatures_ordered.
Qed.

(** X12: when the temperature samples are finite numbers, every day of
    the forecast built from them has its minimum, average and maximum
    temperature in this order, also after each has been rounded. *)
Theorem forecast_temperatures_ordered (lat : number) (today : Z)
    (dailyData : gmap string DayData) (currentSnowDepth : number) :
  (forall key day, dailyData !! key = Some day -> Forall finite (temps day)) ->
  forall d,
    In d (loop_forecast (buildForecast lat today dailyData currentSnowDepth)) ->
    (fd_minTemp d <=? fd_temperature d)%num = true /\
    (fd_temperature d <=? fd_maxTemp d)%num = true.
Proof.
  intros Hfinite. apply List.Forall_forall.
  unfold buildForecast, forecastIndices. cbn [foldl].
  repeat apply forecastDayStep_temperaturesOrdered; try exact Hfinite.
  constructor.
Qed.

End Temperatures.

Lemma forecast_temperatures_ordered_witness :
  let dailyData : gmap string DayData :=
    {[ "d1" := mkDayData [-0.4; -0.4; 0.6]%num [] [] ]} in
  map (fun d => (fd_minTemp d, fd_temperature d, fd_maxTemp d))
    (loop_forecast (@buildForecast Fixture.runtime 61 0 dailyData 3)) =
  [(0, 0, 1); (-6, -3, -1); (-6, -3, -1)]%num /\
  forall d,
    In d (loop_forecast (@buildForecast Fixture.runtime 61 0 dailyData 3)) ->
    (fd_minTemp d <=? fd_temperature d)%num = true /\
    (fd_temperature d <=? fd_maxTemp d)%num = true.
Proof.
  cbv zeta. split; [vm_compute; reflexivity|].
  apply (@forecast_temperatures_ordered Fixture.runtime 61 0
           {[ "d1" := mkDayData [-0.4; -0.4; 0.6]%num [] [] ]} 3).
  intros key day H. apply lookup_singleton_Some in H as [_ <-].
  cbn. repeat constructor; eexists; reflexivity.
Defined.

(** ** Load, threshold and status *)

Section StatusOrder.

Context {rt : Runtime}.

Lemma percentage_monotone (load load' threshold : Q) :
  (load <= load')%Q -> (0 < threshold)%Q ->
  (load / threshold * 100 <= load' / threshold * 100)%Q.
Proof.
  intros Hle Ht.
  apply Qmult_le_compat_r; [|discriminate].
  unfold Qdiv. apply Qmult_le_compat_r; [exact Hle|].
  apply Qlt_le_weak, Qinv_lt_0_compat, Ht.
Qed.

Lemma statusOf_monotone (p p' : Q) :
  (p <= p')%Q ->
  statusRank (fst (statusOf (Num p))) <= statusRank (fst (statusOf (Num p'))).
Proof.
  intros Hle. unfold statusOf.
  destruct (Num p >=? 100)%num eqn:E100.
  { apply ge_Num in E100.
    assert (E : (Num p' >=? 100)%num = true) by (apply ge_Num; lra).
    rewrite E. reflexivity. }
  destruct (Num p' >=? 100)%num; [destruct (Num p >=? 80)%num; cbn; lia|].
  destruct (Num p >=? 80)%num eqn:E80; [|destruct (Num p' >=? 80)%num; cbn; lia].
  apply ge_Num in E80.
  assert (E : (Num p' >=? 80)%num = true) by (apply ge_Num; lra).
  rewrite E. reflexivity.
Qed.

(** X11: against a threshold above zero, deeper snow never gives a lower
    status, and a heavy wet snow warning raised at some depth is raised
    at every greater depth under the same forecast. *)
Theorem status_monotone_in_depth (depthCm depthCm' threshold : Q)
    (hasThaw : bool) :
  (depthCm <= depthCm')%Q -> (0 < threshold)%Q ->
  let load := currentLoadOf (Num depthCm) in
  let load' := currentLoadOf (Num depthCm') in
  statusRank (fst (statusOf (percentageOf load (Num threshold)))) <=
  statusRank (fst (statusOf (percentageOf load' (Num threshold)))) /\
  (showHeavyWetSnowWarningOf load (Num threshold) hasThaw = true ->
   showHeavyWetSnowWarningOf load' (Num threshold) hasThaw = true).
Proof.
  intros Hle Ht. cbv zeta. rewrite !currentLoadOf_Num. unfold JS.of_Z.
  assert (Hload : (inject_Z (Qfloor (depthCm * 2.5 + 0.5)) <=
                   inject_Z (Qfloor (depthCm' * 2.5 + 0.5)))%Q).
  { rewrite <- Zle_Qle. apply Qfloor_resp_le. lra. }
  pose proof (percentage_monotone _ _ _ Hload Ht) as Hp.
  split.
  - rewrite !percentageOf_Num by exact Ht. apply statusOf_monotone, Hp.
  - unfold showHeavyWetSnowWarningOf.
    fold (percentageOf (Num (inject_Z (Qfloor (depthCm * 2.5 + 0.5))))
            (Num threshold)).
    fold (percentageOf (Num (inject_Z (Qfloor (depthCm' * 2.5 + 0.5))))
            (Num threshold)).
    rewrite !percentageOf_Num by exact Ht.
    rewrite !andb_true_iff. intros [H60 Hthaw]. split; [|exact Hthaw].
    apply ge_Num. apply ge_Num in H60. lra.
Qed.

Lemma statusOf_below_zero (load : Z) (threshold : number) :
  (0 <= load)%Z ->
  JS.isNaN threshold = true \/ (threshold <? 0)%num = true ->
  statusOf (percentageOf (JS.of_Z load) threshold) = (safe, "Turvallinen") /\
  forall hasThaw,
    showHeavyWetSnowWarningOf (JS.of_Z load) threshold hasThaw = false.
Proof.
  intros Hload Hthr.
  unfold showHeavyWetSnowWarningOf.
  fold (percentageOf (JS.of_Z load) threshold).
  assert (Hsafe : forall p : Q, (p <= 0)%Q ->
            statusOf (Num p) = (safe, "Turvallinen") /\
            (Num p >=? 60)%num = false).
  { intros p Hp. unfold statusOf.
    assert (E100 : (Num p >=? 100)%num = false)
      by (apply not_true_iff_false; rewrite ge_Num; lra).
    assert (E80 : (Num p >=? 80)%num = false)
      by (apply not_true_iff_false; rewrite ge_Num; lra).
    assert (E60 : (Num p >=? 60)%num = false)
      by (apply not_true_iff_false; rewrite ge_Num; lra).
    rewrite E100, E80. split; [reflexivity | exact E60]. }
  assert (Hl : (0 <= inject_Z load)%Q)
    by (change 0%Q with (inject_Z 0); rewrite <- Zle_Qle; exact Hload).
  destruct threshold as [q| | |];
    try (destruct Hthr as [Hthr|Hthr]; discriminate Hthr).
  - destruct Hthr as [Hthr|Hthr]; [discriminate Hthr|].
    apply lt_Num in Hthr.
    unfold percentageOf, JS.of_Z.
    rewrite div_Num by (intros E; rewrite E in Hthr; lra).
    cbn [JS.mul].
    destruct (Hsafe (inject_Z load / q * 100)%Q) as [Hst H60].
    { assert (H : (inject_Z load / q <= 0)%Q).
      { unfold Qdiv.
        assert (Hinv : (/ q < 0)%Q).
        { assert (H' : (0 < / - q)%Q) by (apply Qinv_lt_0_compat; lra).
          assert (Eq : (/ q == - / - q)%Q) by (field; lra).
          rewrite Eq. lra. }
        assert (H' : (0 <= inject_Z load * - / q)%Q)
          by (apply Qmult_le_0_compat; lra).
        lra. }
      lra. }
    split; [exact Hst|]. intros hasThaw. change (Num 60) with 60%num.
    rewrite H60. reflexivity.
  - split; [reflexivity|]. intros hasThaw. reflexivity.
  - split; [reflexivity|]. intros hasThaw. reflexivity.
Qed.

(** X14: when the [threshold] parameter is present and [parseInt] reads
    no number from it, or a number below zero, every request whose postal
    code is resolved is answered 200 with status safe and without heavy
    wet snow warning, whatever the load and the forecast.  (A threshold
    of zero is left out: what the code answers then depends on the sign
    of the zero, which a [number] does not carry.) *)
Theorem threshold_negative_or_unreadable (postalCode t : string) (s : State) :
  String_truthy t = true ->
  JS.isNaN (parseInt t) = true \/ (parseInt t <? 0)%num = true ->
  exists postalInfo s1,
    getPostalCodeInfo postalCode s = (Ok postalInfo, s1) /\
    match postalInfo with
    | None => snowDataRoute postalCode (Some t) s = (Ok notFoundReply, s1)
    | Some info =>
        exists data s',
          snowDataRoute postalCode (Some t) s = (Ok (ReplyData 200 data), s') /\
          sd_threshold data = parseInt t /\
          sd_status data = safe /\
          sd_statusText data = "Turvallinen" /\
          sd_heavyWetSnowWarning data = false
    end.
Proof.
  intros Htruthy Hthr.
  destruct (getPostalCodeInfo_returns postalCode s) as (postalInfo & s1 & E1 & _).
  exists postalInfo, s1. split; [exact E1|].
  destruct postalInfo as [info|];
    [|apply snowDataRoute_unresolved; exact E1].
  destruct (snowDataRoute_resolved postalCode (Some t) s s1 info E1)
    as (snowResult & s2 & forecastResult & s3 & updatedAgo & E2 & _ & _ & E).
  cbv zeta in E. cbn [userThresholdOf] in E. rewrite Htruthy in E.
  destruct (getSnowDepthWithStationInfo_wellFormed (pc_lat info) (pc_lon info)
              (Some postalCode) s1)
    as (snowResult' & s2' & E2' & _ & depthCm & Hdepth & Hrange).
  rewrite E2 in E2'. injection E2' as <- <-.
  destruct (currentLoadOf_range depthCm Hrange) as (load & Hload & Hbound).
  rewrite Hdepth in E. rewrite Hload in E.
  destruct (statusOf_below_zero load (parseInt t) (proj1 Hbound) Hthr)
    as [Hstatus Hwarn].
  rewrite Hstatus, Hwarn in E. cbn [fst snd] in E.
  eexists _, _. split; [exact E|]. cbn. repeat split.
Qed.

End StatusOrder.

Lemma status_monotone_in_depth_witness :
  statusRank (fst (statusOf (percentageOf (currentLoadOf 40) 140))) <=
  statusRank (fst (statusOf (percentageOf (currentLoadOf 50) 140))) /\
  fst (statusOf (percentageOf (currentLoadOf 40) 140)) = safe /\
  fst (statusOf (percentageOf (currentLoadOf 50) 140)) = moderate.
Proof.
  split; [|split; reflexivity].
  apply (status_monotone_in_depth 40 50 140 true); [discriminate | reflexivity].
Defined.

(** Without a network the threshold [abc], which is no number, gives a
    safe answer without warning for the postal code 00100. *)
Lemma threshold_negative_or_unreadable_witness :
  exists data s',
    @snowDataRoute Fixture.offline "00100" (Some "abc")
      (@mkState Fixture.offline ∅ tt) = (Ok (ReplyData 200 data), s') /\
    sd_threshold data = NaN /\ sd_status data = safe /\
    sd_heavyWetSnowWarning data = false.
Proof.
  destruct (@threshold_negative_or_unreadable Fixture.offline "00100" "abc"
              (@mkState Fixture.offline ∅ tt) eq_refl (or_introl eq_refl))
    as (postalInfo & s1 & E1 & H).
  assert (Hknown : exists info,
            fst (@getPostalCodeInfo Fixture.offline "00100"
                   (@mkState Fixture.offline ∅ tt)) = Ok (Some info))
    by (eexists; vm_compute; reflexivity).
  destruct Hknown as (info & Hknown).
  rewrite E1 in Hknown. cbn [fst] in Hknown. injection Hknown as ->.
  destruct H as (data & s' & E & Hthr & Hstatus & _ & Hwarn).
  exists data, s'. split; [exact E|].
  split; [exact Hthr|]. split; [exact Hstatus | exact Hwarn].
Defined.

(** Without a network the threshold [0], read as zero, makes the seasonal
    depth of Helsinki in January critical. *)
Example zero_threshold_is_critical :
  exists data,
    fst (@snowDataRoute Fixture.offline "00100" (Some "0")
           (@mkState Fixture.offline ∅ tt)) = Ok (ReplyData 200 data) /\
    sd_threshold data = 0%num /\ sd_status data = critical.
Proof. eexists. vm_compute. repeat split. Qed.

(** ** Age of the observation *)

Section ObservationAge.

Context {rt : Runtime}.

Lemma Math_floor_div (x : Q) (a m : Z) :
  (x == inject_Z a)%Q -> (0 < m)%Z ->
  JS.Math_floor (Num x / JS.of_Z m)%num = JS.of_Z (a / m).
Proof.
  intros Hx Hm. unfold JS.of_Z.
  rewrite div_Num.
  2:{ intros E. change 0%Q with (inject_Z 0) in E.
      rewrite inject_Z_injective in E. lia. }
  cbn [JS.Math_floor]. do 2 f_equal.
  rewrite Zdiv_Qdiv. apply Qfloor_comp. rewrite Hx. reflexivity.
Qed.

Lemma Math_floor_div_whole (a m : Z) :
  (0 < m)%Z -> JS.Math_floor (JS.of_Z a / JS.of_Z m)%num = JS.of_Z (a / m).
Proof. intros Hm. apply Math_floor_div; [reflexivity | exact Hm]. Qed.

Lemma ge_of_Z (a b : Z) : (JS.of_Z a >=? JS.of_Z b)%num = (b <=? a)%Z.
Proof.
  unfold JS.of_Z. apply eq_true_iff_eq.
  rewrite ge_Num, <- Zle_Qle. symmetry. apply Z.leb_le.
Qed.

Lemma eqb_of_Z (a b : Z) : JS.eqb (JS.of_Z a) (JS.of_Z b) = (a =? b)%Z.
Proof.
  unfold JS.eqb, JS.of_Z. apply eq_true_iff_eq.
  rewrite andb_true_iff, !le_Num, <- !Zle_Qle, Z.eqb_eq. lia.
Qed.

(** X15: the age of an observation is counted in whole elapsed minutes,
    hours or days, rounded down, by the largest unit that has fully
    elapsed; an observation less than a minute old, one dated in the
    future and one whose time cannot be read are all shown as
    [juuri nyt]. *)
Theorem updatedAgo_whole_units (now : Z) (updatedAt : Date) :
  updatedAgoOf now updatedAt =
    match updatedAt with
    | Some t => ageText (now - t)
    | None => "juuri nyt"
    end /\
  forall t, updatedAt = Some t -> (now - t < 60000)%Z ->
            updatedAgoOf now updatedAt = "juuri nyt".
Proof.
  assert (Hmain : updatedAgoOf now updatedAt =
                  match updatedAt with
                  | Some t => ageText (now - t)
                  | None => "juuri nyt"
                  end).
  { destruct updatedAt as [t|]; [|reflexivity].
    unfold updatedAgoOf. cbv zeta.
    set (d := (now - t)%Z).
    assert (Hd : (JS.of_Z now - Date_getTime (Some t))%num =
                 Num (inject_Z now + - inject_Z t)) by reflexivity.
    rewrite Hd.
    assert (Hx : (inject_Z now + - inject_Z t == inject_Z d)%Q).
    { unfold d, Z.sub. rewrite inject_Z_plus, inject_Z_opp. reflexivity. }
    rewrite !(Math_floor_div _ d) by (exact Hx || reflexivity).
    change (1000 * 60 * 60)%Z with 3600000%Z.
    change (1000 * 60)%Z with 60000%Z.
    change 24%num with (JS.of_Z 24). change 1%num with (JS.of_Z 1).
    rewrite Math_floor_div_whole by reflexivity.
    rewrite !ge_of_Z, !eqb_of_Z.
    assert (Hdays : (d / 3600000 / 24 = d / 86400000)%Z).
    { rewrite Z.div_div by lia. reflexivity. }
    rewrite Hdays.
    unfold ageText, ageCount.
    pose proof (Z.div_mod d 60000 ltac:(discriminate)) as Hm1.
    pose proof (Z.mod_pos_bound d 60000 ltac:(reflexivity)) as Hm2.
    pose proof (Z.div_mod d 3600000 ltac:(discriminate)) as Hh1.
    pose proof (Z.mod_pos_bound d 3600000 ltac:(reflexivity)) as Hh2.
    destruct (24 <=? d / 3600000)%Z eqn:E24.
    { apply Z.leb_le in E24.
      assert (E1 : (d <? 60000)%Z = false) by (apply Z.ltb_ge; lia).
      assert (E2 : (d <? 3600000)%Z = false) by (apply Z.ltb_ge; lia).
      assert (E3 : (d <? 86400000)%Z = false) by (apply Z.ltb_ge; lia).
      rewrite E1, E2, E3. reflexivity. }
    apply Z.leb_gt in E24.
    assert (E3 : (d <? 86400000)%Z = true) by (apply Z.ltb_lt; lia).
    destruct (1 <=? d / 3600000)%Z eqn:Eh.
    { apply Z.leb_le in Eh.
      assert (E1 : (d <? 60000)%Z = false) by (apply Z.ltb_ge; lia).
      assert (E2 : (d <? 3600000)%Z = false) by (apply Z.ltb_ge; lia).
      rewrite E1, E2, E3. reflexivity. }
    apply Z.leb_gt in Eh.
    assert (E2 : (d <? 3600000)%Z = true) by (apply Z.ltb_lt; lia).
    destruct (1 <=? d / 60000)%Z eqn:Em.
    { apply Z.leb_le in Em.
      assert (E1 : (d <? 60000)%Z = false) by (apply Z.ltb_ge; lia).
      rewrite E1, E2. reflexivity. }
    apply Z.leb_gt in Em.
    assert (E1 : (d <? 60000)%Z = true) by (apply Z.ltb_lt; lia).
    rewrite E1. reflexivity. }
  split; [exact Hmain|].
  intros t -> Hlt. rewrite Hmain. unfold ageText.
  apply Z.ltb_lt in Hlt. rewrite Hlt. reflexivity.
Qed.

End ObservationAge.

(** ** Icons of the forecast *)

Section ForecastIcons.

Context {rt : Runtime}.

Lemma getWeatherIconFromSymbol_known (symbol temp precipAmount : number) :
  In (getWeatherIconFromSymbol symbol temp precipAmount) forecastCardIcons.
Proof.
  unfold getWeatherIconFromSymbol, forecastCardIcons.
  repeat match goal with
         | |- context [if ?b then _ else _] => destruct b
         end;
    cbn; tauto.
Qed.

Lemma forecastDayStep_icons (lat : number) (today : Z)
    (dailyData : gmap string DayData) (st : ForecastLoop) (i : Z) :
  Forall (fun d => In (fd_icon d) forecastCardIcons) (loop_forecast st) ->
  Forall (fun d => In (fd_icon d) forecastCardIcons)
    (loop_forecast (forecastDayStep lat today dailyData st i)).
Proof.
  intros Hst. unfold forecastDayStep.
  destruct (dailyData !! _) as [dayData|];
    [destruct (0 <? length (temps dayData))%nat|];
    cbn [loop_forecast]; apply Forall_app; (split; [exact Hst|]);
    (apply List.Forall_cons; [|apply List.Forall_nil]); cbn [fd_icon].
  - apply getWeatherIconFromSymbol_known.
  - cbn. tauto.
  - cbn. tauto.
Qed.

Lemma fallbackDay_icon (lat : number) (today : Z) (names : list string) (i : Z) :
  In (fd_icon (fallbackDay lat today names i)) forecastCardIcons.
Proof.
  unfold fallbackDay. cbn [fd_icon].
  destruct (fallbackIsWinter _); cbn; tauto.
Qed.

Lemma forecast_icons_known (lat lon threshold : number) :
  returns (getSnowForecastWithThawWarning lat lon threshold)
    (fun r => Forall (fun d => In (fd_icon d) forecastCardIcons) (forecast r)).
Proof.
  intros s.
  destruct (forecast_source lat lon threshold s) as (r & s' & E & H).
  exists r, s'. split; [exact E|].
  destruct (upstreamForecast lat lon s) as [dailyData|].
  - destruct H as (depth0 & -> & _).
    unfold buildForecast, forecastIndices. cbn [foldl].
    repeat apply forecastDayStep_icons. constructor.
  - destruct H as (-> & _).
    unfold getFallbackForecast, forecastIndices. cbn [foldl app].
    repeat (apply List.Forall_cons; [apply fallbackDay_icon|]).
    apply List.Forall_nil.
Qed.

(** X16: every icon name in the forecast of an answer with data is one
    the client's forecast card has a case for: the card never falls to
    its default icon. *)
Theorem route_forecast_icons (postalCode : string)
    (threshold : option string) (s : State) :
  exists reply s',
    snowDataRoute postalCode threshold s = (Ok reply, s') /\
    forall status data,
      reply = ReplyData status data ->
      forall d, In d (sd_forecast data) -> In (fd_icon d) forecastCardIcons.
Proof.
  revert s.
  change (returns (snowDataRoute postalCode threshold)
            (fun reply => forall status data,
               reply = ReplyData status data ->
               forall d, In d (sd_forecast data) ->
                         In (fd_icon d) forecastCardIcons)).
  unfold snowDataRoute. apply returns_try_body.
  apply (returns_bind _ _ (fun _ => True)); [apply getPostalCodeInfo_returns|].
  intros [info|] _; [|apply returns_ret; discriminate]. cbv zeta.
  apply (returns_bind _ _ (fun _ => True));
    [apply getSnowDepthWithStationInfo_returns|].
  intros snowResult _.
  destruct (statusOf _) as [status statusText].
  eapply returns_bind; [apply forecast_icons_known|].
  intros forecastResult Hicons. cbv beta in Hicons.
  apply (returns_bind _ _ (fun _ => True)).
  { destruct (updatedAt snowResult); [|auto with returns].
    apply (returns_bind _ _ (fun _ => True)); auto with returns. }
  intros updatedAgo _. apply returns_ret.
  intros status' data E. injection E as _ <-. cbn [sd_forecast].
  apply List.Forall_forall. exact Hicons.
Qed.

End ForecastIcons.

(** ** The forecast parser *)

Section ForecastParser.

Context {rt : Runtime}.

Lemma fold_outcome_snoc {A B : Type} (f : A -> B -> outcome A)
    (l : list B) (b : B) (a : A) :
  fold_outcome f (l ++ [b]) a =
  match fold_outcome f l a with Ok x => f x b | Throw => Throw end.
Proof. unfold fold_outcome. rewrite foldl_snoc. reflexivity. Qed.

Lemma fold_outcome_Throw {A B : Type} (f : A -> B -> outcome A)
    (bad : B -> Prop) (l : list B) :
  (forall a b, In b l -> (f a b = Throw <-> bad b)) ->
  forall a, fold_outcome f l a = Throw <-> exists b, In b l /\ bad b.
Proof.
  induction l as [|b l IH] using rev_ind; intros Hf a.
  - split; [discriminate | intros (b & [] & _)].
  - rewrite fold_outcome_snoc.
    assert (IH' := IH (fun a0 b0 H => Hf a0 b0 (in_or_app _ _ _ (or_introl H))) a).
    destruct (fold_outcome f l a) as [x|].
    + rewrite (Hf x b) by (apply in_or_app; right; left; reflexivity).
      split.
      * intros Hb. exists b.
        split; [apply in_or_app; right; left; reflexivity | exact Hb].
      * intros (b' & Hin & Hb').
        apply in_app_or in Hin as [Hin|[<-|[]]]; [|exact Hb'].
        exfalso. assert (E : Ok x = Throw) by (apply IH'; eauto).
        discriminate E.
    + split; [|reflexivity]. intros _.
      destruct (proj1 IH' eq_refl) as (b' & Hin & Hb').
      exists b'. split; [apply in_or_app; left; exact Hin | exact Hb'].
Qed.

Lemma fold_outcome_invariant {A B : Type} (f : A -> B -> outcome A)
    (I : A -> Prop) (l : list B) :
  (forall a b a', In b l -> I a -> f a b = Ok a' -> I a') ->
  forall a a', I a -> fold_outcome f l a = Ok a' -> I a'.
Proof.
  induction l as [|b l IH] using rev_ind; intros Hf a a' Ha.
  - intros E. injection E as <-. exact Ha.
  - rewrite fold_outcome_snoc.
    destruct (fold_outcome f l a) as [x|] eqn:E; [|discriminate].
    apply Hf; [apply in_or_app; right; left; reflexivity|].
    apply (IH (fun a0 b0 a0' H => Hf a0 b0 a0' (in_or_app _ _ _ (or_introl H)))
              a x Ha E).
Qed.

Lemma forecastMeasurementStep_Throw (paramName : string)
    (dailyData : gmap string DayData) (m : string * string) :
  forecastMeasurementStep paramName dailyData m = Throw <->
  unreadableSample m = true.
Proof.
  unfold forecastMeasurementStep, unreadableSample, toISODate.
  destruct m as [timeStr valueStr]. cbn [fst snd].
  destruct (JS.isNaN (parseFloat valueStr)); cbn [negb andb];
    [split; discriminate|].
  destruct (Date_parse timeStr); split; try discriminate; reflexivity.
Qed.

Lemma forecastSeriesStep_Throw (dailyData : gmap string DayData)
    (seriesContent : string) :
  forecastSeriesStep dailyData seriesContent = Throw <->
  exists m, In m (match_measurements seriesContent) /\ unreadableSample m = true.
Proof.
  unfold forecastSeriesStep.
  apply (fold_outcome_Throw _ (fun m => unreadableSample m = true)).
  intros a b _. apply forecastMeasurementStep_Throw.
Qed.

Lemma parser_throws_iff (xmlText : string) :
  parseTimeValuePairForecast xmlText = Throw <->
  exists seriesContent m,
    In seriesContent (match_series xmlText) /\
    In m (match_measurements seriesContent) /\
    unreadableSample m = true.
Proof.
  unfold parseTimeValuePairForecast.
  rewrite (fold_outcome_Throw _
             (fun seriesContent =>
                exists m, In m (match_measurements seriesContent) /\
                          unreadableSample m = true)).
  - split.
    + intros (seriesContent & Hin & m & Hm & Hbad). eauto.
    + intros (seriesContent & m & Hin & Hm & Hbad). eauto.
  - intros a b _. apply forecastSeriesStep_Throw.
Qed.

(** X17: the forecast parser throws exactly when the response holds a
    sample whose value is a number and whose time cannot be read; a
    sample whose value is no number is skipped whatever its time. *)
Theorem parseTimeValuePairForecast_throws (xmlText : string) :
  parseTimeValuePairForecast xmlText = Throw <->
  exists seriesContent m,
    In seriesContent (match_series xmlText) /\
    In m (match_measurements seriesContent) /\
    unreadableSample m = true.
Proof. apply parser_throws_iff. Qed.

Lemma upstreamForecast_unreadable (lat lon : number) (s : State)
    (response : Response) (xmlText : string) :
  forecastResponse lat lon s = Some response ->
  resp_text response = Some xmlText ->
  parseTimeValuePairForecast xmlText = Throw ->
  upstreamForecast lat lon s = None.
Proof.
  unfold forecastResponse, upstreamForecast. cbv zeta.
  intros -> -> ->. destruct (resp_ok response); reflexivity.
Qed.

(** X18: one sample with a value and an unreadable time in the response
    to the forecast request discards the whole response: the engine
    answers with the seasonal fallback forecast and no thaw condition. *)
Theorem forecast_discarded_on_unreadable_time (lat lon threshold : number)
    (s : State) (response : Response) (xmlText seriesContent : string)
    (m : string * string) :
  forecastResponse lat lon s = Some response ->
  resp_text response = Some xmlText ->
  In seriesContent (match_series xmlText) ->
  In m (match_measurements seriesContent) ->
  unreadableSample m = true ->
  exists r s',
    getSnowForecastWithThawWarning lat lon threshold s = (Ok r, s') /\
    forecast r = getFallbackForecast lat (clock (world s)) dayNames /\
    hasThawConditions r = false /\
    thawConditions r = [].
Proof.
  intros Hresponse Htext Hseries Hm Hbad.
  destruct (forecast_source lat lon threshold s) as (r & s' & E & H).
  exists r, s'. split; [exact E|].
  rewrite (upstreamForecast_unreadable lat lon s response xmlText) in H;
    [exact H | exact Hresponse | exact Htext |].
  apply parser_throws_iff. eauto.
Qed.

End ForecastParser.

(** The response of the example has the sample [dx=0], dated by no day. *)
Lemma forecast_discarded_on_unreadable_time_witness :
  let s := Fixture.start [Fixture.okText "t;1 1;temperature;d1=1;dx=0"] in
  exists r s',
    @getSnowForecastWithThawWarning Fixture.runtime 61 25 140 s = (Ok r, s') /\
    forecast r = @getFallbackForecast Fixture.runtime 61 0 dayNames /\
    hasThawConditions r = false /\
    thawConditions r = [].
Proof.
  cbv zeta.
  apply (@forecast_discarded_on_unreadable_time Fixture.runtime 61 25 140
           (Fixture.start [Fixture.okText "t;1 1;temperature;d1=1;dx=0"])
           (mkResponse true 200%num (Some "t;1 1;temperature;d1=1;dx=0") None)
           "t;1 1;temperature;d1=1;dx=0" "t;1 1;temperature;d1=1;dx=0"
           ("dx", "0")).
  - reflexivity.
  - reflexivity.
  - vm_compute. left. reflexivity.
  - vm_compute. right. left. reflexivity.
  - reflexivity.
Defined.

(** ** Where the samples of a parsed forecast come from *)

Section ForecastSamples.

Context {rt : Runtime}.

Lemma forecastMeasurementStep_samples (xmlText seriesContent : string)
    (dailyData dailyData' : gmap string DayData) (m : string * string) :
  In seriesContent (match_series xmlText) ->
  In m (match_measurements seriesContent) ->
  samplesOf xmlText dailyData ->
  forecastMeasurementStep (seriesParameter seriesContent) dailyData m =
    Ok dailyData' ->
  samplesOf xmlText dailyData'.
Proof.
  intros Hseries Hm Hdata. unfold forecastMeasurementStep.
  destruct m as [timeStr valueStr].
  destruct (JS.isNaN (parseFloat valueStr)) eqn:Enan.
  { intros E. injection E as <-. exact Hdata. }
  unfold toISODate. destruct (Date_parse timeStr) as [t|] eqn:Et; [|discriminate].
  intros E. injection E as <-.
  assert (Hsample : forall isParameter,
            isParameter (seriesParameter seriesContent) = true ->
            forecastSample xmlText isParameter (Date_isoDate t)
              (parseFloat valueStr)).
  { intros isParameter Hparam.
    exists seriesContent, (timeStr, valueStr), t.
    split; [exact Hseries|]. split; [exact Hm|]. split; [exact Hparam|].
    split; [reflexivity|]. split; [exact Enan|]. split; [exact Et | reflexivity]. }
  intros key day Hlookup.
  destruct (decide (Date_isoDate t = key)) as [<-|Hne];
    [|rewrite lookup_insert_ne in Hlookup by exact Hne;
      exact (Hdata _ _ Hlookup)].
  rewrite lookup_insert_eq in Hlookup. injection Hlookup as <-.
  set (day0 := default (mkDayData [] [] []) (dailyData !! Date_isoDate t)).
  assert (Hold :
            Forall (forecastSample xmlText isTemperature (Date_isoDate t))
              (temps day0) /\
            Forall (forecastSample xmlText isPrecipitation (Date_isoDate t))
              (precip day0) /\
            Forall (forecastSample xmlText isWeatherSymbol (Date_isoDate t))
              (symbols day0)).
  { unfold day0. destruct (dailyData !! Date_isoDate t) as [d|] eqn:E0.
    - destruct (Hdata _ _ E0) as (H1 & H2 & H3 & _). cbn [default]. tauto.
    - cbn. split; [|split]; apply List.Forall_nil. }
  destruct Hold as (H1 & H2 & H3).
  assert (Hlast : exists v,
            forecastSample xmlText (fun _ => true) (Date_isoDate t) v)
    by (eexists; apply Hsample; reflexivity).
  assert (Hsnoc : forall isParameter l,
            isParameter (seriesParameter seriesContent) = true ->
            Forall (forecastSample xmlText isParameter (Date_isoDate t)) l ->
            Forall (forecastSample xmlText isParameter (Date_isoDate t))
              (l ++ [parseFloat valueStr])%list).
  { intros isParameter l Hparam Hl. apply Forall_app. split; [exact Hl|].
    apply List.Forall_cons; [apply Hsample, Hparam | apply List.Forall_nil]. }
  destruct (String_includes "temperature" (seriesParameter seriesContent))
    eqn:E1.
  { cbn [temps precip symbols].
    split; [apply Hsnoc; [exact E1 | exact H1]|]. tauto. }
  destruct (String_includes "precipitation" (seriesParameter seriesContent))
    eqn:E2.
  { cbn [temps precip symbols]. split; [exact H1|].
    split; [apply Hsnoc; [|exact H2]|tauto].
    unfold isPrecipitation. rewrite E1, E2. reflexivity. }
  destruct (String_includes "weathersymbol" (seriesParameter seriesContent))
    eqn:E3; [|tauto].
  cbn [temps precip symbols]. split; [exact H1|]. split; [exact H2|].
  split; [apply Hsnoc; [|exact H3] | exact Hlast].
  unfold isWeatherSymbol. rewrite E1, E2, E3. reflexivity.
Qed.

Lemma forecastSeriesStep_samples (xmlText seriesContent : string)
    (dailyData dailyData' : gmap string DayData) :
  In seriesContent (match_series xmlText) ->
  samplesOf xmlText dailyData ->
  forecastSeriesStep dailyData seriesContent = Ok dailyData' ->
  samplesOf xmlText dailyData'.
Proof.
  intros Hseries. unfold forecastSeriesStep.
  fold (seriesParameter seriesContent).
  apply fold_outcome_invariant.
  intros a m a' Hm. apply (forecastMeasurementStep_samples _ _ _ _ _ Hseries Hm).
Qed.

(** X19: in the result of the forecast parser every temperature of a date
    is the value of a sample of a temperature series dated that day, every
    precipitation amount the value of a sample of a precipitation series
    dated that day, likewise for the weather symbols; no stored value is
    NaN, and a date is present only when some sample with a value is dated
    to it. *)
Theorem parsed_forecast_samples (xmlText : string)
    (dailyData : gmap string DayData) :
  parseTimeValuePairForecast xmlText = Ok dailyData ->
  forall key day,
    dailyData !! key = Some day ->
    Forall (forecastSample xmlText isTemperature key) (temps day) /\
    Forall (forecastSample xmlText isPrecipitation key) (precip day) /\
    Forall (forecastSample xmlText isWeatherSymbol key) (symbols day) /\
    exists v, forecastSample xmlText (fun _ => true) key v.
Proof.
  unfold parseTimeValuePairForecast.
  apply (fold_outcome_invariant forecastSeriesStep (samplesOf xmlText)).
  - intros a seriesContent a' Hseries.
    apply forecastSeriesStep_samples, Hseries.
  - intros key day Hlookup. rewrite lookup_empty in Hlookup. discriminate.
Qed.

End ForecastSamples.

(** A response with a temperature and a precipitation series; the sample
    [d2=x] has no value and is skipped. *)
Lemma parsed_forecast_samples_witness :
  let xmlText :=
    "t;1 1;temperature;d1=1;d2=x;d2=3|p;1 1;precipitation;d1=2" in
  exists dailyData,
    @parseTimeValuePairForecast Fixture.runtime xmlText = Ok dailyData /\
    dailyData !! "d1" = Some (mkDayData [1%num] [2%num] []) /\
    dailyData !! "d2" = Some (mkDayData [3%num] [] []) /\
    forall key day,
      dailyData !! key = Some day ->
      Forall (@forecastSample Fixture.runtime xmlText isTemperature key)
        (temps day).
Proof.
  cbv zeta.
  destruct (@parseTimeValuePairForecast Fixture.runtime
              "t;1 1;temperature;d1=1;d2=x;d2=3|p;1 1;precipitation;d1=2")
    as [dailyData|] eqn:E; [|vm_compute in E; discriminate E].
  exists dailyData. split; [reflexivity|].
  split; [|split].
  - vm_compute in E. injection E as <-. vm_compute. reflexivity.
  - vm_compute in E. injection E as <-. vm_compute. reflexivity.
  - intros key day Hlookup.
    exact (proj1 (@parsed_forecast_samples Fixture.runtime _ _ E key day Hlookup)).
Defined.

(** ** The notification route *)

Section NotificationRouteProperties.

Context {rt : Runtime}.

Lemma playerId_accepted (v : JsonValue) :
  negb (Json_truthy v) || negb (typeof_string v) ||
  (Json_length v <? 32)%nat = false <->
  exists player, v = JsonString player /\ 32 <= String.length player.
Proof.
  destruct v as [| |b|n|s|]; cbn [Json_truthy typeof_string Json_length negb];
    try (rewrite ?orb_true_r; cbn;
         split; [discriminate | intros (player & E & _); discriminate E]).
  rewrite orb_false_r. split.
  - intros H. apply orb_false_iff in H as [_ H]. apply Nat.ltb_ge in H. eauto.
  - intros (player & E & H). injection E as ->.
    apply orb_false_iff. split; [|apply Nat.ltb_ge, H].
    destruct player; [cbn in H; lia | reflexivity].
Qed.

Lemma type_accepted (v : JsonValue) :
  negb (Json_truthy v) ||
  negb (Json_includes ["regular"; "wet-snow-warning"] v) = false <->
  v = JsonString "regular" \/ v = JsonString "wet-snow-warning".
Proof.
  destruct v as [| |b|n|s|];
    cbn [Json_truthy Json_includes Json_is existsb negb orb];
    try (rewrite ?orb_true_r; cbn;
         split; [discriminate | intros [E|E]; discriminate E]).
  rewrite orb_false_r. split.
  - intros H. apply orb_false_iff in H as [_ H].
    apply negb_false_iff, orb_true_iff in H as [H|H];
      apply String.eqb_eq in H; subst; auto.
  - intros [E|E]; injection E as ->; reflexivity.
Qed.

Lemma number_accepted (v : JsonValue) (low high : number) :
  negb (typeof_number v) || (Json_number v <? low)%num ||
  (Json_number v >? high)%num = false <->
  exists n, v = JsonNumber n /\
            (n <? low)%num = false /\ (n >? high)%num = false.
Proof.
  destruct v as [| |b|n|s|]; cbn [typeof_number Json_number negb orb];
    try (split; [discriminate | intros (n' & E & _); discriminate E]).
  split.
  - intros H. apply orb_false_iff in H as [H1 H2]. eauto.
  - intros (n' & E & H1 & H2). injection E as ->. rewrite H1, H2. reflexivity.
Qed.

Lemma configured_iff (env : Environment) :
  negb (truthy_name (ONESIGNAL_APP_ID env)) ||
  negb (truthy_name (ONESIGNAL_REST_API_KEY env)) = false <->
  configured env.
Proof.
  unfold configured, truthy_name, String_truthy.
  destruct (ONESIGNAL_APP_ID env) as [appId|],
           (ONESIGNAL_REST_API_KEY env) as [apiKey|]; cbn [negb orb].
  - rewrite !negb_involutive. split.
    + intros H. apply orb_false_iff in H as [H1 H2].
      apply String.eqb_neq in H1, H2. eauto 6.
    + intros (a & k & E1 & H1 & E2 & H2). injection E1 as <-. injection E2 as <-.
      apply String.eqb_neq in H1, H2. rewrite H1, H2. reflexivity.
  - rewrite orb_true_r.
    split; [discriminate | intros (a & k & _ & _ & E & _); discriminate E].
  - split; [discriminate | intros (a & k & E & _); discriminate E].
  - split; [discriminate | intros (a & k & E & _); discriminate E].
Qed.

(** The answers of OneSignal, case by case. *)
Ltac reply_cases oneSignal :=
  let response := fresh "response" in
  let response' := fresh "response" in
  let id0 := fresh "id" in
  let Eok := fresh "Eok" in
  let Ejson := fresh "Ejson" in
  let E := fresh "E" in
  let Hok := fresh "Hok" in
  let Hjson := fresh "Hjson" in
  match goal with
  | |- context [oneSignal ?request] =>
      destruct (oneSignal request) as [response|]
  end;
  [destruct (push_ok response) eqn:Eok; cbn [negb];
   [destruct (push_json response) as [[id0|]|] eqn:Ejson
   |destruct (push_text response)]
  |];
  (split;
   [intros ?; split;
    [intros E;
     first [discriminate E
           |injection E as <-; exists response;
            repeat split; try assumption; reflexivity]
    |intros (response' & E & Hok & Hjson);
     first [discriminate E | injection E as <-; congruence]]
   |first [left; eexists; reflexivity | right; reflexivity]]).

(** X20: every request to the notification route ends in one of three
    ways.  A request that is not acceptable is answered 400 and nothing
    is sent; an acceptable one without both credentials is answered 503
    and nothing is sent; otherwise exactly one request goes to OneSignal,
    with the credentials of the environment and for the player of the
    request only, and the answer is the success answer with the id
    OneSignal returned exactly when OneSignal answered [ok] with a body
    that decodes to a value other than [null], and 500 in every other
    case.  The route itself never throws. *)
Theorem notification_route_outcomes (env : Environment)
    (body : NotificationBody) (oneSignal : PushRequest -> option PushResponse) :
  let reply := fst (sendNotificationRoute env body oneSignal) in
  let sent := snd (sendNotificationRoute env body oneSignal) in
  (~ acceptedNotification body /\ sent = [] /\ replyStatus reply = 400%Z) \/
  (acceptedNotification body /\ ~ configured env /\
   sent = [] /\ replyStatus reply = 503%Z) \/
  (acceptedNotification body /\ configured env /\
   exists request,
     sent = [request] /\
     push_include_player_ids request = [body_playerId body] /\
     ONESIGNAL_APP_ID env = Some (push_app_id request) /\
     (exists apiKey,
        ONESIGNAL_REST_API_KEY env = Some apiKey /\
        push_authorization request = "Basic " ++ apiKey) /\
     (forall id,
        reply = ReplySuccess id <->
        exists response,
          oneSignal request = Some response /\
          push_ok response = true /\
          push_json response = Some (Some id)) /\
     ((exists id, reply = ReplySuccess id) \/ replyStatus reply = 500%Z)).
Proof.
  cbv zeta. unfold sendNotificationRoute. cbv zeta.
  destruct (negb (Json_truthy (body_playerId body)) || _ || _) eqn:Eplayer.
  { left. split; [|split; reflexivity].
    intros [Hplayer _]. apply playerId_accepted in Hplayer. congruence. }
  apply playerId_accepted in Eplayer.
  destruct (negb (Json_truthy (body_type body)) || _) eqn:Etype.
  { left. split; [|split; reflexivity].
    intros [_ Htype].
    assert (H : body_type body = JsonString "regular" \/
                body_type body = JsonString "wet-snow-warning") by tauto.
    apply type_accepted in H. congruence. }
  apply type_accepted in Etype.
  assert (Hkind :
            (Json_is (body_type body) "regular" = true /\
             Json_is (body_type body) "wet-snow-warning" = false /\
             body_type body = JsonString "regular") \/
            (Json_is (body_type body) "regular" = false /\
             Json_is (body_type body) "wet-snow-warning" = true /\
             body_type body = JsonString "wet-snow-warning")).
  { destruct Etype as [E|E]; rewrite E; [left | right]; repeat split. }
  assert (Hregular : body_type body <> JsonString "wet-snow-warning" ->
            body_type body = JsonString "regular") by (intros; tauto).
  destruct Hkind as [(Ereg & Ewet & Hty)|(Ereg & Ewet & Hty)];
    rewrite Ereg, Ewet; cbn [andb].
  - destruct (negb (typeof_number (body_currentLoad body)) || _ || _) eqn:Eload.
    { left. split; [|split; reflexivity].
      intros [_ [Hw|(_ & load & alert & E1 & _ & H1 & H2 & _)]];
        [rewrite Hty in Hw; discriminate Hw|].
      assert (H : exists n, body_currentLoad body = JsonNumber n /\
                            (n <? 0)%num = false /\ (n >? 500)%num = false)
        by eauto.
      apply number_accepted in H. congruence. }
    apply number_accepted in Eload.
    destruct (negb (typeof_number (body_alertThreshold body)) || _ || _)
      eqn:Ealert.
    { left. split; [|split; reflexivity].
      intros [_ [Hw|(_ & load & alert & _ & E2 & _ & _ & H1 & H2)]];
        [rewrite Hty in Hw; discriminate Hw|].
      assert (H : exists n, body_alertThreshold body = JsonNumber n /\
                            (n <? 50)%num = false /\ (n >? 200)%num = false)
        by eauto.
      apply number_accepted in H. congruence. }
    apply number_accepted in Ealert.
    assert (Haccepted : acceptedNotification body).
    { split; [exact Eplayer|]. right. split; [exact Hty|].
      destruct Eload as (load & E1 & H1 & H2).
      destruct Ealert as (alert & E2 & H3 & H4).
      exists load, alert. tauto. }
    destruct (negb (truthy_name (ONESIGNAL_APP_ID env)) || _) eqn:Eenv.
    { right. left. split; [exact Haccepted|]. split; [|split; reflexivity].
      intros H. apply configured_iff in H. congruence. }
    apply configured_iff in Eenv.
    right. right. split; [exact Haccepted|]. split; [exact Eenv|].
    destruct Eenv as (appId & apiKey & -> & _ & -> & _).
    eexists. split; [reflexivity|]. cbn [snd fst default].
    split; [reflexivity|]. split; [reflexivity|].
    split; [eexists; split; reflexivity|].
    reply_cases oneSignal.
  - assert (Haccepted : acceptedNotification body).
    { split; [exact Eplayer|]. left. exact Hty. }
    destruct (negb (truthy_name (ONESIGNAL_APP_ID env)) || _) eqn:Eenv.
    { right. left. split; [exact Haccepted|]. split; [|split; reflexivity].
      intros H. apply configured_iff in H. congruence. }
    apply configured_iff in Eenv.
    right. right. split; [exact Haccepted|]. split; [exact Eenv|].
    destruct Eenv as (appId & apiKey & -> & _ & -> & _).
    eexists. split; [reflexivity|]. cbn [snd fst default].
    split; [reflexivity|]. split; [reflexivity|].
    split; [eexists; split; reflexivity|].
    reply_cases oneSignal.
Qed.

End NotificationRouteProperties.

(** ** The notification effect of the home page *)

Section NotificationEffect.

Lemma notificationEffect_skipped (r : Render) (refs : AlertRefs) :
  processed r = false -> notificationEffect r refs = (refs, []).
Proof.
  unfold processed, notificationEffect.
  destruct (render_data r); [|reflexivity].
  intros ->. reflexivity.
Qed.

Lemma notificationEffect_refs (r : Render) (refs : AlertRefs) :
  processed r = true ->
  fst (notificationEffect r refs) = mkAlertRefs (Some (warns r)) (overAlert r).
Proof.
  unfold processed, notificationEffect, warns, overAlert.
  destruct (render_data r); [|discriminate].
  intros ->. reflexivity.
Qed.

Lemma notificationEffect_calls (r : Render) (refs : AlertRefs)
    (call : NotificationCall) :
  In call (snd (notificationEffect r refs)) ->
  processed r = true /\
  match call with
  | SendWetSnowWarning =>
      warns r = true /\ lastWarningStateRef refs <> Some true
  | SendRegular currentLoad alertThreshold =>
      overAlert r = true /\ lastAlertStateRef refs = false /\ warns r = false
  end.
Proof.
  unfold processed, notificationEffect, warns, overAlert.
  destruct (render_data r) as [data|]; [|cbn; intros []].
  destruct (default false _); cbn [negb]; [|cbn; intros []].
  cbv zeta. cbn [snd]. intros Hin. split; [reflexivity|].
  apply in_app_or in Hin as [Hin|Hin].
  - destruct (sd_heavyWetSnowWarning data) eqn:Ewarn; cbn [andb] in Hin;
      [|destruct Hin].
    destruct (lastWarningStateRef refs) as [[|]|]; cbn in Hin;
      try contradiction; destruct Hin as [<-|[]]; split; congruence.
  - destruct (_ >=? _)%num; cbn [andb] in Hin; [|destruct Hin].
    destruct (lastAlertStateRef refs); cbn [negb andb] in Hin; [destruct Hin|].
    destruct (sd_heavyWetSnowWarning data); cbn in Hin; try contradiction.
    destruct Hin as [<-|[]]. repeat split.
Qed.

Lemma notificationEffect_one_call (r : Render) (refs : AlertRefs) :
  length (snd (notificationEffect r refs)) <= 1.
Proof.
  unfold notificationEffect.
  destruct (render_data r) as [data|]; [|cbn; lia].
  destruct (default false _); cbn [negb]; [|cbn; lia].
  cbv zeta. cbn [snd].
  destruct (sd_heavyWetSnowWarning data); cbn [andb negb].
  - rewrite andb_false_r. destruct (negb _); cbn; lia.
  - destruct (_ && _); cbn; lia.
Qed.

Lemma runEffects_cons (r : Render) (rs : list Render) (refs : AlertRefs) :
  runEffects (r :: rs) refs =
  (fst (runEffects rs (fst (notificationEffect r refs))),
   (snd (notificationEffect r refs) ++
    snd (runEffects rs (fst (notificationEffect r refs))))%list).
Proof.
  cbn [runEffects].
  destruct (notificationEffect r refs) as [refs' calls].
  cbn [fst snd]. destruct (runEffects rs refs'). reflexivity.
Qed.

Lemma no_regular_while_over (rs : list Render) (refs : AlertRefs) :
  lastAlertStateRef refs = true ->
  Forall (fun r => processed r = true -> overAlert r = true) rs ->
  forall call, In call (snd (runEffects rs refs)) -> isRegular call = false.
Proof.
  revert refs. induction rs as [|r rs IH]; intros refs Hrefs Hrs call.
  - intros [].
  - rewrite runEffects_cons. cbn [snd]. intros Hin.
    apply List.Forall_cons_iff in Hrs as [Hr Hrs].
    apply in_app_or in Hin as [Hin|Hin].
    + apply notificationEffect_calls in Hin as [_ Hcall].
      destruct call as [|currentLoad alertThreshold]; [reflexivity|].
      destruct Hcall as (_ & Hlast & _). congruence.
    + apply (IH (fst (notificationEffect r refs))); [|exact Hrs | exact Hin].
      destruct (processed r) eqn:Ep.
      * rewrite notificationEffect_refs by exact Ep. cbn. apply Hr. reflexivity.
      * rewrite notificationEffect_skipped by exact Ep. exact Hrefs.
Qed.

Lemma no_warning_while_warned (rs : list Render) (refs : AlertRefs) :
  lastWarningStateRef refs = Some true ->
  Forall (fun r => processed r = true -> warns r = true) rs ->
  forall call, In call (snd (runEffects rs refs)) -> isWetSnowWarning call = false.
Proof.
  revert refs. induction rs as [|r rs IH]; intros refs Hrefs Hrs call.
  - intros [].
  - rewrite runEffects_cons. cbn [snd]. intros Hin.
    apply List.Forall_cons_iff in Hrs as [Hr Hrs].
    apply in_app_or in Hin as [Hin|Hin].
    + apply notificationEffect_calls in Hin as [_ Hcall].
      destruct call as [|currentLoad alertThreshold]; [|reflexivity].
      destruct Hcall as (_ & Hlast). contradiction.
    + apply (IH (fst (notificationEffect r refs))); [|exact Hrs | exact Hin].
      destruct (processed r) eqn:Ep.
      * rewrite notificationEffect_refs by exact Ep. cbn. rewrite Hr; reflexivity.
      * rewrite notificationEffect_skipped by exact Ep. exact Hrefs.
Qed.

(** X21: one run of the effect makes at most one call, and once an
    update with the heavy wet snow warning has been processed, no further
    wet snow notification is sent for as long as every processed update
    still has the warning: the warning is announced when it appears, not
    at every refresh. *)
Theorem wet_snow_warning_announced_once (r0 : Render) (rs : list Render)
    (refs : AlertRefs) :
  processed r0 = true -> warns r0 = true ->
  Forall (fun r => processed r = true -> warns r = true) rs ->
  length (snd (notificationEffect r0 refs)) <= 1 /\
  forall call,
    In call (snd (runEffects rs (fst (notificationEffect r0 refs)))) ->
    isWetSnowWarning call = false.
Proof.
  intros Hp Hw Hrs. split; [apply notificationEffect_one_call|].
  apply no_warning_while_warned; [|exact Hrs].
  rewrite notificationEffect_refs by exact Hp. cbn. rewrite Hw. reflexivity.
Qed.

(** X22: when an update shows the heavy wet snow warning while the load
    is at or above the alert threshold, no regular alert is sent for it,
    and none is sent later either for as long as the load of every
    processed update stays at or above the alert threshold, also after
    the warning has ended. *)
Theorem suppressed_alert_is_lost (r0 : Render) (rs : list Render)
    (refs : AlertRefs) :
  processed r0 = true -> warns r0 = true -> overAlert r0 = true ->
  Forall (fun r => processed r = true -> overAlert r = true) rs ->
  forall call,
    In call (snd (runEffects (r0 :: rs) refs)) -> isRegular call = false.
Proof.
  intros Hp Hw Ho Hrs call. rewrite runEffects_cons. cbn [snd]. intros Hin.
  apply in_app_or in Hin as [Hin|Hin].
  - apply notificationEffect_calls in Hin as [_ Hcall].
    destruct call as [|currentLoad alertThreshold]; [reflexivity|].
    destruct Hcall as (_ & _ & Hno). congruence.
  - revert call Hin. apply no_regular_while_over; [|exact Hrs].
    rewrite notificationEffect_refs by exact Hp. exact Ho.
Qed.

End NotificationEffect.

(** Load 120 against the roof threshold 140, whose alert threshold is
    112: with the warning on, then off, then on again. *)
Lemma wet_snow_warning_announced_once_witness :
  let data (warning : bool) :=
    mkSnowData 120 48 140 moderate "Kohtalainen riski" [] "Kuopio" 0 true
      warning [] (mkStationInfo None None None) in
  let render (warning : bool) :=
    mkRender 140 (Some (data warning)) (mkUserData (Some true) None) in
  snd (runEffects [render true; render true; render true] initialRefs) =
    [SendWetSnowWarning] /\
  forall call,
    In call (snd (runEffects [render true; render true]
                    (fst (notificationEffect (render true) initialRefs)))) ->
    isWetSnowWarning call = false.
Proof.
  cbv zeta. split; [vm_compute; reflexivity|].
  apply (wet_snow_warning_announced_once
           (mkRender 140
              (Some (mkSnowData 120 48 140 moderate "Kohtalainen riski" []
                       "Kuopio" 0 true true [] (mkStationInfo None None None)))
              (mkUserData (Some true) None))).
  - reflexivity.
  - reflexivity.
  - repeat (apply List.Forall_cons; [intros _; reflexivity|]).
    apply List.Forall_nil.
Defined.

Lemma suppressed_alert_is_lost_witness :
  let data (warning : bool) :=
    mkSnowData 120 48 140 moderate "Kohtalainen riski" [] "Kuopio" 0 true
      warning [] (mkStationInfo None None None) in
  let render (warning : bool) :=
    mkRender 140 (Some (data warning)) (mkUserData (Some true) None) in
  snd (runEffects [render true; render false; render false] initialRefs) =
    [SendWetSnowWarning] /\
  snd (runEffects [render false] initialRefs) = [SendRegular 120 112] /\
  forall call,
    In call (snd (runEffects [render true; render false; render false]
                    initialRefs)) ->
    isRegular call = false.
Proof.
  cbv zeta. split; [vm_compute; reflexivity|].
  split; [vm_compute; reflexivity|].
  apply (suppressed_alert_is_lost
           (mkRender 140
              (Some (mkSnowData 120 48 140 moderate "Kohtalainen riski" []
                       "Kuopio" 0 true true [] (mkStationInfo None None None)))
              (mkUserData (Some true) None))).
  - reflexivity.
  - reflexivity.
  - reflexivity.
  - repeat (apply List.Forall_cons; [intros _; reflexivity|]).
    apply List.Forall_nil.
Defined.

(** ** Postal codes that were not found *)

Section NotFound.

Context {rt : Runtime}.

Lemma geocodePostalCode_known_unknown (postalCode : string) (s : State) :
  geocodeCache s !! postalCode = Some None ->
  geocodePostalCode postalCode s = (Ok None, s).
Proof.
  intros Hcache.
  destruct (geocodePostalCode_cache postalCode s) as (r & w & E & H).
  destruct (H None Hcache) as [-> ->].
  rewrite E, Hcache. destruct s. reflexivity.
Qed.


End NotFound.


